(** * Used-propTypes detection (lib/util/usedPropTypes.js)

    A shallow embedding of the usage-marking engine of eslint-plugin-react:
    the context classifiers, the property-name resolver, [markPropTypesAsUsed]
    and the traversal handlers, followed by the properties established about
    them.

    Conventions of the embedding.
    - A syntax-tree node is a record of optional fields ([Ast]); a field that
      is [undefined] or [null] in JavaScript is [None].  Reading a property of
      [undefined] raises a [TypeError], which is modelled explicitly.
    - A node together with its chain of ancestors is a [Node]; [node.parent]
      is the [parent] projection, and JavaScript's identity test [a === b] on
      nodes compares their [uid].
    - The registry of components is threaded as explicit state; a computation
      that throws keeps the state reached at the throw. *)

From Stdlib Require Import String Ascii List Bool Arith Lia.
Import ListNotations.
Local Open Scope string_scope.
Local Open Scope list_scope.

Set Implicit Arguments.
Set Warnings "-register-all".

(* ------------------------------------------------------------------ *)
(** ** Results of computations that may throw *)
(* ------------------------------------------------------------------ *)

Inductive Exn : Type :=
| TypeError
| Error (message : string).

Inductive Result (A : Type) : Type :=
| Ok (a : A)
| Throw (e : Exn).

Arguments Ok {A} a.
Arguments Throw {A} e.

Definition rbind {A B} (r : Result A) (k : A -> Result B) : Result B :=
  match r with
  | Ok a => k a
  | Throw e => Throw e
  end.

Declare Scope js_scope.
Delimit Scope js_scope with js.
Notation "'let*' x ':=' e 'in' k" := (rbind e (fun x => k))
  (at level 10, x name, e at level 100, k at level 200) : js_scope.
Local Open Scope js_scope.

(** [o.f] where [o] may be [undefined]: a [TypeError] when it is. *)
Definition field {A} (o : option A) : Result A :=
  match o with
  | Some a => Ok a
  | None => Throw TypeError
  end.

(** Truthiness of a value that is either [undefined] or a string. *)
Definition truthy (o : option string) : bool :=
  match o with
  | Some s => negb (s =? "")
  | None => false
  end.

Definition isSome {A} (o : option A) : bool :=
  match o with Some _ => true | None => false end.

(** [a === b] on values that are either [undefined] or strings. *)
Definition strictEq (a b : option string) : bool :=
  match a, b with
  | Some x, Some y => x =? y
  | None, None => true
  | _, _ => false
  end.

(** [a === 'literal']. *)
Definition isStr (a : option string) (s : string) : bool := strictEq a (Some s).

(** [array.indexOf(x) >= 0]. *)
Definition includes (l : list string) (x : option string) : bool :=
  existsb (fun y => isStr x y) l.

(* ------------------------------------------------------------------ *)
(** ** Syntax trees *)
(* ------------------------------------------------------------------ *)

(** The [value] field is a literal's value on a [Literal] node and a child
    node on a [Property] node. *)
Inductive Value (N : Type) : Type :=
| VString (s : string)
| VOther (raw : string)      (* number, boolean, null or regular expression *)
| VNode (n : N).

Arguments VString {N} s.
Arguments VOther {N} raw.
Arguments VNode {N} n.

Inductive Ast : Type := mkAst {
  uid : nat;                          (* object identity *)
  type : string;
  start : nat;
  end_ : nat;
  name : option string;
  value : option (Value Ast);
  computed : bool;
  kind : option string;
  object : option Ast;
  property : option Ast;
  key : option Ast;
  id : option Ast;
  init : option Ast;
  left : option Ast;
  callee : option Ast;
  params : option (list Ast);
  properties : option (list Ast);
  arguments : option (list Ast)
}.

(** A node in its tree: the node and its ancestors, innermost first. *)
Inductive Node : Type := mkNode {
  ast :> Ast;
  parent : option Node
}.

(** [a === b] on nodes, where [a] may be [undefined]. *)
Definition same (a : option Ast) (b : Ast) : bool :=
  match a with
  | Some x => Nat.eqb (uid x) (uid b)
  | None => false
  end.

(** The scope chain of [context.getScope()]. *)
Inductive Scope : Type := mkScope {
  block : option Node;
  upper : option Scope
}.

(** A used propType, as pushed on [usedPropTypes]. *)
Module UsageRecord.
Record t : Type := mk {
  name : option string;
  allNames : list (option string);
  node : option Ast
}.
End UsageRecord.

(* ------------------------------------------------------------------ *)
(** ** Collaborators: the rule context, the component utilities, ast.js *)
(* ------------------------------------------------------------------ *)

(** What the engine reads from ESLint's [context] at one traversal position:
    the current scope chain, the source text and the tokens of a node. *)
Record Context : Type := {
  getScope : option Scope;
  text : string;
  getTokens : Ast -> list string
}.

(** [context.getSourceCode().getText(node)]: the slice of the source text
    between the node's offsets. *)
Definition getText (context : Context) (node : Ast) : string :=
  substring (start node) (end_ node - start node) (text context).

(** The answers of [utils] (Components.js) at one traversal position. *)
Record Utils : Type := {
  getParentES6Component : option Node;
  getParentES5Component : option Node;
  getParentStatelessComponent : option Node;
  getParentComponent : option Node;
  inConstructor : option Node -> bool
}.

(** The functions of lib/util/ast.js the engine calls. *)
Record AstUtil : Type := {
  getKeyValue : Context -> Ast -> option string;
  isAssignmentLHS : Node -> bool;
  isFunctionLikeExpression : Ast -> bool
}.

(* ------------------------------------------------------------------ *)
(** ** Constants *)
(* ------------------------------------------------------------------ *)

(** The character class [\s], on code units below 256. *)
Definition isWhiteSpace (c : ascii) : bool :=
  let n := nat_of_ascii c in
  ((n =? 9) || (n =? 10) || (n =? 11) || (n =? 12) || (n =? 13) || (n =? 32)
   || (n =? 160))%nat.

Fixpoint skipWhiteSpace (s : string) : string :=
  match s with
  | String c r => if isWhiteSpace c then skipWhiteSpace r else s
  | EmptyString => s
  end.

Fixpoint stripPrefix (p s : string) : option string :=
  match p, s with
  | EmptyString, _ => Some s
  | String a p', String b s' => if (a =? b)%char then stripPrefix p' s' else None
  | String _ _, EmptyString => None
  end.

(** [/^root\s*(\.|\[)/.test(s)]. *)
Definition testDirect (root s : string) : bool :=
  match stripPrefix root s with
  | Some rest =>
      match skipWhiteSpace rest with
      | String c _ => (c =? ".")%char || (c =? "[")%char
      | EmptyString => false
      end
  | None => false
  end.

Definition DIRECT_PROPS_REGEX : string -> bool := testDirect "props".
Definition DIRECT_NEXT_PROPS_REGEX : string -> bool := testDirect "nextProps".
Definition DIRECT_PREV_PROPS_REGEX : string -> bool := testDirect "prevProps".

Definition LIFE_CYCLE_METHODS : list string :=
  ["componentWillReceiveProps"; "shouldComponentUpdate";
   "componentWillUpdate"; "componentDidUpdate"].

Definition ASYNC_SAFE_LIFE_CYCLE_METHODS : list string :=
  ["getDerivedStateFromProps"; "getSnapshotBeforeUpdate";
   "UNSAFE_componentWillReceiveProps"; "UNSAFE_componentWillUpdate"].

Definition COMPUTED_PROP : string := "__COMPUTED_PROP__".

(** The property names of [Object.prototype], which [name in Object.prototype]
    tests against. *)
Definition Object_prototype : list string :=
  ["constructor"; "__defineGetter__"; "__defineSetter__"; "hasOwnProperty";
   "__lookupGetter__"; "__lookupSetter__"; "isPrototypeOf";
   "propertyIsEnumerable"; "toString"; "valueOf"; "__proto__";
   "toLocaleString"].

Definition inObjectPrototype (name : string) : bool :=
  existsb (String.eqb name) Object_prototype.

(* ------------------------------------------------------------------ *)
(** ** Context classifiers *)
(* ------------------------------------------------------------------ *)

(** [node.init.name === 'props' || ... 'nextProps' || ... 'prevProps'] *)
Definition isPropAttributeName (node : Ast) : Result bool :=
  let* i := field (init node) in
  Ok (isStr (name i) "props" || isStr (name i) "nextProps" || isStr (name i) "prevProps").

(** [scope.block.parent.key.name], [undefined] as soon as a link is missing. *)
Definition blockParentKeyName (scope : Scope) : option (option string) :=
  match block scope with
  | Some b =>
      match parent b with
      | Some p =>
          match key p with
          | Some k => Some (name k)
          | None => None
          end
      | None => None
      end
  | None => None
  end.

Fixpoint inComponentWillReceiveProps_loop (scope : Scope) : bool :=
  match blockParentKeyName scope with
  | Some n =>
      if isStr n "componentWillReceiveProps" then true
      else match upper scope with
           | Some u => inComponentWillReceiveProps_loop u
           | None => false
           end
  | None =>
      match upper scope with
      | Some u => inComponentWillReceiveProps_loop u
      | None => false
      end
  end.

Definition inComponentWillReceiveProps (context : Context) : bool :=
  match getScope context with
  | Some scope => inComponentWillReceiveProps_loop scope
  | None => false
  end.

Fixpoint inLifeCycleMethod_loop (checkAsyncSafeLifeCycles : bool) (scope : Scope) : bool :=
  let next :=
    match upper scope with
    | Some u => inLifeCycleMethod_loop checkAsyncSafeLifeCycles u
    | None => false
    end in
  match blockParentKeyName scope with
  | Some n =>
      if includes LIFE_CYCLE_METHODS n then true
      else if checkAsyncSafeLifeCycles && includes ASYNC_SAFE_LIFE_CYCLE_METHODS n then true
      else next
  | None => next
  end.

Definition inLifeCycleMethod (context : Context) (checkAsyncSafeLifeCycles : bool) : bool :=
  match getScope context with
  | Some scope => inLifeCycleMethod_loop checkAsyncSafeLifeCycles scope
  | None => false
  end.

Definition isNodeALifeCycleMethod (node : Ast) (checkAsyncSafeLifeCycles : bool) : bool :=
  let nodeKeyName := match key node with Some k => name k | None => None end in
  if isStr (kind node) "constructor" then true
  else if includes LIFE_CYCLE_METHODS nodeKeyName then true
  else if checkAsyncSafeLifeCycles && includes ASYNC_SAFE_LIFE_CYCLE_METHODS nodeKeyName then true
  else false.

Fixpoint isInLifeCycleMethod (node : Node) (checkAsyncSafeLifeCycles : bool) : bool :=
  if ((type node =? "MethodDefinition") || (type node =? "Property"))
     && isNodeALifeCycleMethod node checkAsyncSafeLifeCycles
  then true
  else match parent node with
       | Some p => isInLifeCycleMethod p checkAsyncSafeLifeCycles
       | None => false
       end.

(** The condition of the [if] in the loop of [inSetStateUpdater]; the reads
    of [callee.property] and [arguments[0].start] throw when [callee],
    [arguments] or [arguments[0]] is missing. *)
Definition isSetStateUpdaterScope (scope : Scope) : Result bool :=
  match block scope with
  | Some b =>
      match parent b with
      | Some p =>
          if type p =? "CallExpression" then
            let* c := field (callee p) in
            match property c with
            | Some prop =>
                if isStr (name prop) "setState" then
                  let* args := field (arguments p) in
                  let* arg0 := field (nth_error args 0) in
                  Ok (Nat.eqb (start arg0) (start b))
                else Ok false
            | None => Ok false
            end
          else Ok false
      | None => Ok false
      end
  | None => Ok false
  end.

Fixpoint inSetStateUpdater_loop (scope : Scope) : Result bool :=
  let* hit := isSetStateUpdaterScope scope in
  if hit then Ok true
  else match upper scope with
       | Some u => inSetStateUpdater_loop u
       | None => Ok false
       end.

Definition inSetStateUpdater (context : Context) : Result bool :=
  match getScope context with
  | Some scope => inSetStateUpdater_loop scope
  | None => Ok false
  end.

Fixpoint isPropArgumentInSetStateUpdater_loop (node : Ast) (scope : Scope) : Result bool :=
  let next :=
    match upper scope with
    | Some u => isPropArgumentInSetStateUpdater_loop node u
    | None => Ok false
    end in
  let* hit := isSetStateUpdaterScope scope in
  if hit then
    let* p := field (match block scope with Some b => parent b | None => None end) in
    let* args := field (arguments p) in
    let* arg0 := field (nth_error args 0) in
    match params arg0 with
    | Some ps =>
        if Nat.ltb 1 (List.length ps) then
          let* p1 := field (nth_error ps 1) in
          let* o := field (object node) in
          Ok (strictEq (name p1) (name o))
        else next
    | None => next
    end
  else next.

Definition isPropArgumentInSetStateUpdater (context : Context) (node : Ast) : Result bool :=
  match getScope context with
  | Some scope => isPropArgumentInSetStateUpdater_loop node scope
  | None => Ok false
  end.

(** [tokens.length && tokens[0].value === '...'] *)
Definition hasSpreadOperator (context : Context) (node : Ast) : bool :=
  match getTokens context node with
  | t :: _ => t =? "..."
  | [] => false
  end.

(* ------------------------------------------------------------------ *)
(** ** The property-name resolver *)
(* ------------------------------------------------------------------ *)

Definition getPropertyName (node : Node) (context : Context) (utils : Utils)
    (checkAsyncSafeLifeCycles : bool) : Result (option string) :=
  let isDirectProp := DIRECT_PROPS_REGEX (getText context node) in
  let isDirectNextProp := DIRECT_NEXT_PROPS_REGEX (getText context node) in
  let isDirectPrevProp := DIRECT_PREV_PROPS_REGEX (getText context node) in
  let* isDirectSetStateProp := isPropArgumentInSetStateUpdater context node in
  let isInClassComponent :=
    isSome (getParentES6Component utils) || isSome (getParentES5Component utils) in
  let isNotInConstructor := negb (inConstructor utils (Some node)) in
  let isNotInLifeCycleMethod := negb (inLifeCycleMethod context checkAsyncSafeLifeCycles) in
  let* inUpdater := inSetStateUpdater context in
  let isNotInSetStateUpdater := negb inUpdater in
  if (isDirectProp || isDirectNextProp || isDirectPrevProp || isDirectSetStateProp)
     && isInClassComponent && isNotInConstructor && isNotInLifeCycleMethod
     && isNotInSetStateUpdater
  then Ok None
  else
    let* node' :=
      if negb isDirectProp && negb isDirectNextProp && negb isDirectPrevProp
         && negb isDirectSetStateProp
      then field (parent node)
      else Ok node in
    match property node' with
    | Some property =>
        if type property =? "Identifier" then
          if computed node' then Ok (Some COMPUTED_PROP) else Ok (name property)
        else if type property =? "MemberExpression" then Ok None
        else
          match (if type property =? "Literal" then value property else None) with
          | Some (VString s) => Ok (Some s)
          | _ => if computed node' then Ok (Some COMPUTED_PROP) else Ok None
          end
    | None => Ok None
    end.

Definition isPropTypesUsage (node : Node) (context : Context) (utils : Utils)
    (astUtil : AstUtil) (checkAsyncSafeLifeCycles : bool) : Result bool :=
  let* o := field (object node) in
  let* isThisPropsUsage :=
    if type o =? "ThisExpression"
    then let* p := field (property node) in Ok (isStr (name p) "props")
    else Ok false in
  let isPropsUsage :=
    isThisPropsUsage || isStr (name o) "nextProps" || isStr (name o) "prevProps" in
  let* isClassUsage :=
    if isSome (getParentES6Component utils) || isSome (getParentES5Component utils) then
      if isThisPropsUsage then Ok true
      else isPropArgumentInSetStateUpdater context node
    else Ok false in
  let isStatelessFunctionUsage :=
    isStr (name o) "props" && negb (isAssignmentLHS astUtil node) in
  Ok (isClassUsage || isStatelessFunctionUsage
      || (isPropsUsage && inLifeCycleMethod context checkAsyncSafeLifeCycles)).

(* ------------------------------------------------------------------ *)
(** ** The component registry *)
(* ------------------------------------------------------------------ *)

(** The partial set of fields handed to [components.set]: a field that the
    object literal does not mention is [None]. *)
Module Props.
Record t : Type := mk {
  usedPropTypes : option (list UsageRecord.t);
  ignoreUnusedPropTypesValidation : option bool
}.
End Props.

Module Component.
Record t : Type := mk {
  node : Node;
  usedPropTypes : option (list UsageRecord.t);
  ignoreUnusedPropTypesValidation : option bool;
  ignorePropsValidation : bool;
  (* declaredPropTypes[key].node, in the order of Object.keys *)
  declaredPropTypes : option (list (string * option Node))
}.
End Component.

Module Components.

(** Modelled from the spec: the component registry of
    lib/util/Components.js, which is not under src/.  The spec gives its
    contract as [get(key) -> Component | absent] and
    [merge(key, partialFields)], used as "get current value, merge new
    fields, set back"; the key is the owning component's node or, when no
    component is open, the raw node itself.  Entries are kept in insertion
    order, the order in which [Object.keys] enumerates them; what [get]
    returns is a value, not a reference into the registry. *)
Definition t : Type := list Component.t.

(** Modelled from the spec: the fresh registry of a traversal
    (Components.js is not under src/). *)
Definition empty : t := [].

(** Modelled from the spec: the entry whose node has identity [k]
    (Components.js is not under src/). *)
Fixpoint lookup (k : nat) (components : t) : option Component.t :=
  match components with
  | [] => None
  | c :: rest =>
      if Nat.eqb (uid (Component.node c)) k then Some c else lookup k rest
  end.

(** Modelled from the spec: [get(key)] of the registry (Components.js is
    not under src/); [get(null)] is absent. *)
Definition get (key : option Node) (components : t) : option Component.t :=
  match key with
  | Some n => lookup (uid n) components
  | None => None
  end.

(** Modelled from the spec: the merge of a partial update into an entry
    (Components.js is not under src/): a field of the update that is present
    overwrites the entry's, an absent one leaves it. *)
Definition merge (c : Component.t) (props : Props.t) : Component.t :=
  Component.mk (Component.node c)
    (match Props.usedPropTypes props with
     | Some l => Some l
     | None => Component.usedPropTypes c
     end)
    (match Props.ignoreUnusedPropTypesValidation props with
     | Some b => Some b
     | None => Component.ignoreUnusedPropTypesValidation c
     end)
    (Component.ignorePropsValidation c)
    (Component.declaredPropTypes c).

(** Modelled from the spec: the entry opened for a raw node that had none
    (Components.js is not under src/). *)
Definition fresh (key : Node) (props : Props.t) : Component.t :=
  Component.mk key (Props.usedPropTypes props)
    (Props.ignoreUnusedPropTypesValidation props) false None.

(** Modelled from the spec: [merge(key, partialFields)] of the registry
    (Components.js is not under src/): the fields present in the update
    overwrite those of the entry under [key], every other field and every
    other entry is kept; a key without an entry gets one holding the
    update. *)
Fixpoint set (key : Node) (props : Props.t) (components : t) : t :=
  match components with
  | [] => [fresh key props]
  | c :: rest =>
      if Nat.eqb (uid (Component.node c)) (uid key)
      then merge c props :: rest
      else c :: set key props rest
  end.

(** Modelled from the spec: [list()] of the registry (Components.js is not
    under src/), all registered components. *)
Definition list (components : t) : list Component.t := components.

End Components.

(** The usage list and the suppress flag of the entry under a key, as the
    engine reads them: [component && component.usedPropTypes || []] and
    [component && component.ignoreUnusedPropTypesValidation || false]. *)
Definition usedOf (component : option Component.t) : list UsageRecord.t :=
  match component with
  | Some c =>
      match Component.usedPropTypes c with
      | Some l => l
      | None => []
      end
  | None => []
  end.

Definition ignoredOf (component : option Component.t) : bool :=
  match component with
  | Some c =>
      match Component.ignoreUnusedPropTypesValidation c with
      | Some b => b
      | None => false
      end
  | None => false
  end.

(* ------------------------------------------------------------------ *)
(** ** Computations over the registry *)
(* ------------------------------------------------------------------ *)

Definition M (A : Type) : Type := Components.t -> Result A * Components.t.

Definition ret {A} (a : A) : M A := fun s => (Ok a, s).

Definition throw {A} (e : Exn) : M A := fun s => (Throw e, s).

Definition bind {A B} (m : M A) (k : A -> M B) : M B :=
  fun s =>
    match m s with
    | (Ok a, s') => k a s'
    | (Throw e, s') => (Throw e, s')
    end.

Definition lift {A} (r : Result A) : M A := fun s => (r, s).

Definition gets {A} (f : Components.t -> A) : M A := fun s => (Ok (f s), s).

Definition modify (f : Components.t -> Components.t) : M unit :=
  fun s => (Ok tt, f s).

Notation "x <- m ;; k" := (bind m (fun x => k))
  (at level 61, m at next level, right associativity) : js_scope.
Notation "m ;; k" := (bind m (fun _ => k))
  (at level 61, right associativity) : js_scope.

Fixpoint forEach {A} (f : A -> M unit) (l : list A) : M unit :=
  match l with
  | [] => ret tt
  | x :: rest => f x ;; forEach f rest
  end.

(** [!!(component && !component.ignorePropsValidation)] *)
Definition mustBeValidated (component : option Component.t) : bool :=
  match component with
  | Some c => negb (Component.ignorePropsValidation c)
  | None => false
  end.

(* ------------------------------------------------------------------ *)
(** ** The usage marker *)
(* ------------------------------------------------------------------ *)

Inductive UsageType : Type := direct | destructuring.

(** The local variables of [markPropTypesAsUsed] after its first [switch]. *)
Module Vars.
Record t : Type := mk {
  type : option UsageType;
  name : option string;
  allNames : list string;
  properties : option (list Ast)
}.
Definition none : t := mk None None [] None.
End Vars.

Section Engine.

(** [ast.js] and the feature gate [versionUtil.testReactVersion(context,
    '16.3.0')], both fixed when the engine is built. *)
Variable astUtil : AstUtil.
Variable checkAsyncSafeLifeCycles : bool.

Section Position.

(** The answers of [context] and [utils] at the node being visited. *)
Variable context : Context.
Variable utils : Utils.

(** The callback of [node.id.properties.some(...)] in the
    [VariableDeclarator] case: [None] while no property matched. *)
Fixpoint someDestructuring (node : Node) (props : list Ast)
    : Result (option (option (list Ast))) :=
  match props with
  | [] => Ok None
  | property :: rest =>
      let* thisDestructuring :=
        match key property with
        | Some k =>
            if isStr (name k) "props"
               || match value k with Some (VString s) => s =? "props" | _ => false end
            then
              let* v := field (value property) in
              Ok (match v with VNode n => type n =? "ObjectPattern" | _ => false end)
            else Ok false
        | None => Ok false
        end in
      let* isPropAttribute := isPropAttributeName node in
      let genericDestructuring :=
        isPropAttribute
        && (isSome (getParentStatelessComponent utils)
            || isInLifeCycleMethod node checkAsyncSafeLifeCycles) in
      if thisDestructuring then
        Ok (Some (match value property with
                  | Some (VNode n) => properties n
                  | _ => None
                  end))
      else if genericDestructuring then
        Ok (Some (match id node with Some i => properties i | None => None end))
      else someDestructuring node rest
  end.

(** [node.parent.type === 'MemberExpression' && node.parent.object === node] *)
Definition continuesChain (node : Node) (p : Node) : bool :=
  (type p =? "MemberExpression") && same (object p) node.

(** Match props.foo.bar, don't match bar[props.foo]: the recursive call on
    [node.parent]; [markParent] is [markPropTypesAsUsed] at [node.parent]. *)
Definition followChain (markParent : option (list string -> M unit))
    (node : Node) (allNames : list string) : M unit :=
  p <- lift (field (parent node)) ;;
  if continuesChain node p then
    match markParent with
    | Some mark => mark allNames
    | None => ret tt
    end
  else ret tt.

(** [p.id && p.id.properties && p.id.properties.length &&
    ast.getKeyValue(context, p.id.properties[0])], for [p = node.parent]:
    the properties of the pattern that destructures the access, if any. *)
Definition destructuredBy (p : Ast) : option (list Ast) :=
  match id p with
  | Some i =>
      match properties i with
      | Some (first :: others) =>
          if truthy (getKeyValue astUtil context first)
          then Some (first :: others)
          else None
      | _ => None
      end
  | None => None
  end.

(** [inSetStateUpdater(context) ? node.params[1] : node.params[0]] *)
Definition propParam (inUpdater : bool) (params : list Ast) : option Ast :=
  nth_error params (if inUpdater then 1 else 0).

(** The first [switch] of [markPropTypesAsUsed] (on [node.type]). *)
Definition selectUsage (markParent : option (list string -> M unit))
    (node : Node) (parentNames : list string) : M Vars.t :=
  if type node =? "MemberExpression" then
    name <- lift (getPropertyName node context utils checkAsyncSafeLifeCycles) ;;
    if truthy name then
      let allNames := parentNames ++ [match name with Some s => s | None => "" end] in
      followChain markParent node allNames ;;
      (* Do not mark computed props as used. *)
      ret (Vars.mk (if negb (isStr name COMPUTED_PROP) then Some direct else None)
             name allNames None)
    else
      p <- lift (field (parent node)) ;;
      match destructuredBy p with
      | Some properties => ret (Vars.mk (Some destructuring) name [] (Some properties))
      | None => ret (Vars.mk None name [] None)
      end
  else if (type node =? "ArrowFunctionExpression")
          || (type node =? "FunctionDeclaration")
          || (type node =? "FunctionExpression") then
    ps <- lift (field (params node)) ;;
    if Nat.eqb (List.length ps) 0 then ret Vars.none
    else
      inUpdater <- lift (inSetStateUpdater context) ;;
      param <- lift (field (propParam inUpdater ps)) ;;
      properties <- lift (if type param =? "AssignmentPattern"
                          then let* l := field (left param) in Ok (properties l)
                          else Ok (properties param)) ;;
      ret (Vars.mk (Some destructuring) None [] properties)
  else if type node =? "VariableDeclarator" then
    i <- lift (field (id node)) ;;
    props <- lift (field (properties i)) ;;
    found <- lift (someDestructuring node props) ;;
    match found with
    | Some properties => ret (Vars.mk (Some destructuring) None [] properties)
    | None => ret Vars.none
    end
  else
    throw (Error (type node ++ " ASTNodes are not handled by markPropTypesAsUsed")).

(** The [while] loop that collects the names between [node] and the
    [props] root, innermost first. *)
Fixpoint namesToProps (currentNode : Ast) : Result (list (option string)) :=
  match property currentNode with
  | Some p =>
      if negb (isStr (name p) "props") then
        match object currentNode with
        | Some o => let* inner := namesToProps o in Ok (inner ++ [name p])
        | None => Throw TypeError
        end
      else Ok []
  | None => Ok []
  end.

(** The [for] loop of the ['destructuring'] case: the usage list and the
    suppress flag after the loop. *)
Fixpoint markDestructured (node : Ast) (properties : list Ast)
    (usedPropTypes : list UsageRecord.t) (ignoreUnusedPropTypesValidation : bool)
    : Result (list UsageRecord.t * bool) :=
  match properties with
  | [] => Ok (usedPropTypes, ignoreUnusedPropTypesValidation)
  | property :: rest =>
      if hasSpreadOperator context property || computed property
      then Ok (usedPropTypes, true)
      else
        let propName := getKeyValue astUtil context property in
        let* names := namesToProps node in
        let allNames := names ++ [propName] in
        markDestructured node rest
          (if truthy propName
           then usedPropTypes ++ [UsageRecord.mk propName allNames (Some property)]
           else usedPropTypes)
          ignoreUnusedPropTypesValidation
  end.

(** The second [switch] of [markPropTypesAsUsed] (on [type]): the usage
    list and the suppress flag to store. *)
Definition recordUsage (node : Node) (vars : Vars.t)
    (usedPropTypes : list UsageRecord.t) (ignoreUnusedPropTypesValidation : bool)
    : Result (list UsageRecord.t * bool) :=
  match Vars.type vars with
  | Some direct =>
      (* Ignore Object methods *)
      if match Vars.name vars with Some n => inObjectPrototype n | None => false end
      then Ok (usedPropTypes, ignoreUnusedPropTypesValidation)
      else
        let nodeSource := getText context node in
        let isDirectProp :=
          DIRECT_PROPS_REGEX nodeSource || DIRECT_NEXT_PROPS_REGEX nodeSource
          || DIRECT_PREV_PROPS_REGEX nodeSource in
        let* reportedNode :=
          if negb isDirectProp && negb (inConstructor utils None)
             && negb (inComponentWillReceiveProps context)
          then let* p := field (parent node) in Ok (property p)
          else Ok (property node) in
        Ok (usedPropTypes
              ++ [UsageRecord.mk (Vars.name vars) (map Some (Vars.allNames vars))
                    reportedNode],
            ignoreUnusedPropTypesValidation)
  | Some destructuring =>
      markDestructured node
        (match Vars.properties vars with Some l => l | None => [] end)
        usedPropTypes ignoreUnusedPropTypesValidation
  | None => Ok (usedPropTypes, ignoreUnusedPropTypesValidation)
  end.

(** The part of [markPropTypesAsUsed] after the first [switch]: read the
    owning component, record, and merge the result back. *)
Definition storeUsage (node : Node) (vars : Vars.t) : M unit :=
  component <- gets (Components.get (getParentComponent utils)) ;;
  result <- lift (recordUsage node vars (usedOf component) (ignoredOf component)) ;;
  modify (Components.set
            (match component with Some c => Component.node c | None => node end)
            (Props.mk (Some (fst result)) (Some (snd result)))).

Definition markPropTypesAsUsed_body (markParent : option (list string -> M unit))
    (node : Node) (parentNames : list string) : M unit :=
  vars <- selectUsage markParent node parentNames ;;
  storeUsage node vars.

Fixpoint markPropTypesAsUsed (node : Node) (parentNames : list string) {struct node}
    : M unit :=
  markPropTypesAsUsed_body
    (match parent node with
     | Some p => Some (markPropTypesAsUsed p)
     | None => None
     end)
    node parentNames.

End Position.

End Engine.

(* ------------------------------------------------------------------ *)
(** ** The traversal handlers *)
(* ------------------------------------------------------------------ *)

Section Handlers.

Variable astUtil : AstUtil.
Variable checkAsyncSafeLifeCycles : bool.
Variable context : Context.
Variable utils : Utils.

Local Abbreviation mark :=
  (markPropTypesAsUsed astUtil checkAsyncSafeLifeCycles context utils).

Definition markDestructuredFunctionArgumentsAsUsed (node : Node) : M unit :=
  param <- lift (match params node with
                  | Some ps =>
                      let* inUpdater := inSetStateUpdater context in
                      Ok (propParam inUpdater ps)
                  | None => Throw TypeError
                  end) ;;
  destructuring <- lift (match param with
                         | Some p =>
                             if type p =? "ObjectPattern" then Ok true
                             else if type p =? "AssignmentPattern" then
                               let* l := field (left p) in Ok (type l =? "ObjectPattern")
                             else Ok false
                         | None => Ok false
                         end) ;;
  if destructuring then
    registered <- gets (fun components =>
                          isSome (Components.get (Some node) components)
                          || isSome (Components.get (parent node) components)) ;;
    if registered then mark node [] else ret tt
  else ret tt.

Definition handleSetStateUpdater (node : Node) : M unit :=
  match params node with
  | Some ps =>
      if Nat.ltb (List.length ps) 2 then ret tt
      else
        inUpdater <- lift (inSetStateUpdater context) ;;
        if negb inUpdater then ret tt else mark node []
  | None => ret tt
  end.

Definition handleFunctionLikeExpressions (node : Node) : M unit :=
  handleSetStateUpdater node ;;
  markDestructuredFunctionArgumentsAsUsed node.

Definition handleCustomValidators (component : Component.t) : M unit :=
  match Component.declaredPropTypes component with
  | None => ret tt
  | Some propTypes =>
      forEach
        (fun entry : string * option Node =>
           node <- lift (field (snd entry)) ;;
           match value node with
           | Some (VNode v) =>
               if isFunctionLikeExpression astUtil v
               then mark (mkNode v (Some node)) []
               else ret tt
           | _ => ret tt
           end)
        propTypes
  end.

Definition VariableDeclarator (node : Node) : M unit :=
  let destructuring :=
    isSome (init node)
    && match id node with Some i => type i =? "ObjectPattern" | None => false end in
  (* let {props: {firstname}} = this *)
  let thisDestructuring :=
    destructuring
    && match init node with Some i => type i =? "ThisExpression" | None => false end in
  (* let {firstname} = props *)
  statelessDestructuring <-
    lift (if destructuring then
            let* isPropAttribute := isPropAttributeName node in
            Ok (isPropAttribute
                && (isSome (getParentStatelessComponent utils)
                    || isInLifeCycleMethod node checkAsyncSafeLifeCycles))
          else Ok false) ;;
  if negb thisDestructuring && negb statelessDestructuring then ret tt
  else mark node [].

Definition JSXSpreadAttribute (node : Node) : M unit :=
  component <- gets (Components.get (getParentComponent utils)) ;;
  modify (Components.set
            (match component with Some c => Component.node c | None => node end)
            (Props.mk None (Some true))).

Definition MemberExpression (node : Node) : M unit :=
  usage <- lift (isPropTypesUsage node context utils astUtil checkAsyncSafeLifeCycles) ;;
  if usage then mark node [] else ret tt.

Definition ObjectPattern (node : Node) : M unit :=
  p <- lift (field (parent node)) ;;
  pp <- lift (field (parent p)) ;;
  if isNodeALifeCycleMethod pp checkAsyncSafeLifeCycles then
    props <- lift (field (properties node)) ;;
    if Nat.ltb 0 (List.length props) then mark p [] else ret tt
  else ret tt.

Definition Program_exit : M unit :=
  list <- gets Components.list ;;
  forEach handleCustomValidators
    (filter (fun component => mustBeValidated (Some component)) list).

End Handlers.

(** One call of the traversal driver into the engine: entering a node, or
    leaving the program, with the answers of [context] and [utils] there. *)
Inductive Visit : Type :=
| Enter (node : Node) (context : Context) (utils : Utils)
| Exit (context : Context) (utils : Utils).

(** The handler table returned by [usedPropTypesInstructions], applied to one
    visit; node types without a handler are ignored. *)
Definition usedPropTypesInstructions (astUtil : AstUtil)
    (checkAsyncSafeLifeCycles : bool) (visit : Visit) : M unit :=
  match visit with
  | Enter node context utils =>
      if type node =? "VariableDeclarator" then
        VariableDeclarator astUtil checkAsyncSafeLifeCycles context utils node
      else if (type node =? "FunctionDeclaration")
              || (type node =? "ArrowFunctionExpression")
              || (type node =? "FunctionExpression") then
        handleFunctionLikeExpressions astUtil checkAsyncSafeLifeCycles context utils node
      else if type node =? "JSXSpreadAttribute" then
        JSXSpreadAttribute utils node
      else if type node =? "MemberExpression" then
        MemberExpression astUtil checkAsyncSafeLifeCycles context utils node
      else if type node =? "ObjectPattern" then
        ObjectPattern astUtil checkAsyncSafeLifeCycles context utils node
      else ret tt
  | Exit context utils =>
      Program_exit astUtil checkAsyncSafeLifeCycles context utils
  end.

(** A traversal of one source unit: the visits in traversal order; a throw
    aborts it. *)
Definition traverse (astUtil : AstUtil) (checkAsyncSafeLifeCycles : bool)
    (sourceUnit : list Visit) : M unit :=
  forEach (usedPropTypesInstructions astUtil checkAsyncSafeLifeCycles) sourceUnit.

(* ------------------------------------------------------------------ *)
(** ** Building syntax trees *)
(* ------------------------------------------------------------------ *)

(** A node of the given identity, type and source range, all other fields
    undefined; the [with...] functions set one field each. *)
Definition blank (uid : nat) (type : string) (start end_ : nat) : Ast :=
  mkAst uid type start end_ None None false None None None None None None None None
    None None None.

Definition withName (n : string) (a : Ast) : Ast :=
  mkAst (uid a) (type a) (start a) (end_ a) (Some n) (value a) (computed a) (kind a)
    (object a) (property a) (key a) (id a) (init a) (left a) (callee a) (params a)
    (properties a) (arguments a).

Definition withValue (v : Value Ast) (a : Ast) : Ast :=
  mkAst (uid a) (type a) (start a) (end_ a) (name a) (Some v) (computed a) (kind a)
    (object a) (property a) (key a) (id a) (init a) (left a) (callee a) (params a)
    (properties a) (arguments a).

Definition withComputed (a : Ast) : Ast :=
  mkAst (uid a) (type a) (start a) (end_ a) (name a) (value a) true (kind a)
    (object a) (property a) (key a) (id a) (init a) (left a) (callee a) (params a)
    (properties a) (arguments a).

Definition withKind (k : string) (a : Ast) : Ast :=
  mkAst (uid a) (type a) (start a) (end_ a) (name a) (value a) (computed a) (Some k)
    (object a) (property a) (key a) (id a) (init a) (left a) (callee a) (params a)
    (properties a) (arguments a).

Definition withObject (o : Ast) (a : Ast) : Ast :=
  mkAst (uid a) (type a) (start a) (end_ a) (name a) (value a) (computed a) (kind a)
    (Some o) (property a) (key a) (id a) (init a) (left a) (callee a) (params a)
    (properties a) (arguments a).

Definition withProperty (p : Ast) (a : Ast) : Ast :=
  mkAst (uid a) (type a) (start a) (end_ a) (name a) (value a) (computed a) (kind a)
    (object a) (Some p) (key a) (id a) (init a) (left a) (callee a) (params a)
    (properties a) (arguments a).

Definition withKey (k : Ast) (a : Ast) : Ast :=
  mkAst (uid a) (type a) (start a) (end_ a) (name a) (value a) (computed a) (kind a)
    (object a) (property a) (Some k) (id a) (init a) (left a) (callee a) (params a)
    (properties a) (arguments a).

Definition withId (i : Ast) (a : Ast) : Ast :=
  mkAst (uid a) (type a) (start a) (end_ a) (name a) (value a) (computed a) (kind a)
    (object a) (property a) (key a) (Some i) (init a) (left a) (callee a) (params a)
    (properties a) (arguments a).

Definition withInit (i : Ast) (a : Ast) : Ast :=
  mkAst (uid a) (type a) (start a) (end_ a) (name a) (value a) (computed a) (kind a)
    (object a) (property a) (key a) (id a) (Some i) (left a) (callee a) (params a)
    (properties a) (arguments a).

Definition withLeft (l : Ast) (a : Ast) : Ast :=
  mkAst (uid a) (type a) (start a) (end_ a) (name a) (value a) (computed a) (kind a)
    (object a) (property a) (key a) (id a) (init a) (Some l) (callee a) (params a)
    (properties a) (arguments a).

Definition withCallee (c : Ast) (a : Ast) : Ast :=
  mkAst (uid a) (type a) (start a) (end_ a) (name a) (value a) (computed a) (kind a)
    (object a) (property a) (key a) (id a) (init a) (left a) (Some c) (params a)
    (properties a) (arguments a).

Definition withParams (ps : list Ast) (a : Ast) : Ast :=
  mkAst (uid a) (type a) (start a) (end_ a) (name a) (value a) (computed a) (kind a)
    (object a) (property a) (key a) (id a) (init a) (left a) (callee a) (Some ps)
    (properties a) (arguments a).

Definition withProperties (ps : list Ast) (a : Ast) : Ast :=
  mkAst (uid a) (type a) (start a) (end_ a) (name a) (value a) (computed a) (kind a)
    (object a) (property a) (key a) (id a) (init a) (left a) (callee a) (params a)
    (Some ps) (arguments a).

Definition withArguments (args : list Ast) (a : Ast) : Ast :=
  mkAst (uid a) (type a) (start a) (end_ a) (name a) (value a) (computed a) (kind a)
    (object a) (property a) (key a) (id a) (init a) (left a) (callee a) (params a)
    (properties a) (Some args).

Definition identifier (uid : nat) (start end_ : nat) (n : string) : Ast :=
  withName n (blank uid "Identifier" start end_).

Definition member (uid : nat) (start end_ : nat) (o p : Ast) : Ast :=
  withProperty p (withObject o (blank uid "MemberExpression" start end_)).

(** An instance of ast.js for the examples: the key name of a property
    ([key.name] of an identifier key, the value of a string key), no node is
    the left-hand side of an assignment, and the three function types are
    function-like. *)
Definition exampleAstUtil : AstUtil :=
  {| getKeyValue := fun _ node =>
       match key node with
       | Some k =>
           if type k =? "Identifier" then name k
           else match value k with Some (VString s) => Some s | _ => None end
       | None => None
       end;
     isAssignmentLHS := fun _ => false;
     isFunctionLikeExpression := fun node =>
       (type node =? "FunctionExpression") || (type node =? "ArrowFunctionExpression")
       || (type node =? "FunctionDeclaration") |}.

(** The tokens of a node, for the examples: a rest element starts with the
    token [...], every other node with some other token. *)
Definition exampleTokens (node : Ast) : list string :=
  if (type node =? "RestElement") || (type node =? "ExperimentalRestProperty")
  then ["..."] else ["token"].

(** The answers of [utils] inside a method of the class component [c] and
    inside the body of the function component [c]. *)
Definition inClassComponent (c : Node) : Utils :=
  {| getParentES6Component := Some c;
     getParentES5Component := None;
     getParentStatelessComponent := None;
     getParentComponent := Some c;
     inConstructor := fun _ => false |}.

Definition inFunctionComponent (c : Node) : Utils :=
  {| getParentES6Component := None;
     getParentES5Component := None;
     getParentStatelessComponent := Some c;
     getParentComponent := Some c;
     inConstructor := fun _ => false |}.

(** A registry entry as the component detection leaves it: no usage yet. *)
Definition detected (c : Node) : Component.t := Component.mk c None None false None.

Definition noComponent : Utils :=
  {| getParentES6Component := None;
     getParentES5Component := None;
     getParentStatelessComponent := None;
     getParentComponent := None;
     inConstructor := fun _ => false |}.

(* ------------------------------------------------------------------ *)
(** ** Example source units *)
(* ------------------------------------------------------------------ *)

(** *** class A extends C { render() { return this.props.name; } } *)
Module RenderName.

Definition source : string :=
  "class A extends C { render() { return this.props.name; } }".

Definition classNameAst : Ast :=
  withName "A" (blank 3 "Identifier" 6 7).
Definition superClassAst : Ast :=
  withName "C" (blank 4 "Identifier" 16 17).
Definition methodNameAst : Ast :=
  withName "render" (blank 7 "Identifier" 20 26).
Definition thisExpressionAst : Ast :=
  blank 13 "ThisExpression" 38 42.
Definition propsIdAst : Ast :=
  withName "props" (blank 14 "Identifier" 43 48).
Definition thisPropsAst : Ast :=
  withProperty propsIdAst (withObject thisExpressionAst (blank 12 "MemberExpression" 38 48)).
Definition nameIdAst : Ast :=
  withName "name" (blank 15 "Identifier" 49 53).
Definition thisPropsNameAst : Ast :=
  withProperty nameIdAst (withObject thisPropsAst (blank 11 "MemberExpression" 38 53)).
Definition returnStatementAst : Ast :=
  blank 10 "ReturnStatement" 31 54.
Definition blockAst : Ast :=
  blank 9 "BlockStatement" 29 56.
Definition functionNodeAst : Ast :=
  withParams [] (blank 8 "FunctionExpression" 26 56).
Definition methodAst : Ast :=
  withKey methodNameAst (withKind "method" (blank 6 "MethodDefinition" 20 56)).
Definition classBodyAst : Ast :=
  blank 5 "ClassBody" 18 58.
Definition classNodeAst : Ast :=
  withId classNameAst (blank 2 "ClassDeclaration" 0 58).
Definition programAst : Ast :=
  blank 1 "Program" 0 58.

Definition program : Node := mkNode programAst None.
Definition classNode : Node := mkNode classNodeAst (Some program).
Definition className : Node := mkNode classNameAst (Some classNode).
Definition superClass : Node := mkNode superClassAst (Some classNode).
Definition classBody : Node := mkNode classBodyAst (Some classNode).
Definition method : Node := mkNode methodAst (Some classBody).
Definition methodName : Node := mkNode methodNameAst (Some method).
Definition functionNode : Node := mkNode functionNodeAst (Some method).
Definition block : Node := mkNode blockAst (Some functionNode).
Definition returnStatement : Node := mkNode returnStatementAst (Some block).
Definition thisPropsName : Node := mkNode thisPropsNameAst (Some returnStatement).
Definition thisProps : Node := mkNode thisPropsAst (Some thisPropsName).
Definition thisExpression : Node := mkNode thisExpressionAst (Some thisProps).
Definition propsId : Node := mkNode propsIdAst (Some thisProps).
Definition nameId : Node := mkNode nameIdAst (Some thisPropsName).

Definition programScope : Scope := mkScope (Some program) None.
Definition classNodeScope : Scope := mkScope (Some classNode) (Some programScope).
Definition functionNodeScope : Scope := mkScope (Some functionNode) (Some classNodeScope).

Definition inProgram : Context :=
  Build_Context (Some programScope) source exampleTokens.
Definition inClassNode : Context :=
  Build_Context (Some classNodeScope) source exampleTokens.
Definition inFunctionNode : Context :=
  Build_Context (Some functionNodeScope) source exampleTokens.

(** The visits of a depth-first traversal, in order. *)
Definition sourceUnit : list Visit :=
  [ Enter program inProgram noComponent;
    Enter classNode inClassNode (inClassComponent classNode);
    Enter className inClassNode (inClassComponent classNode);
    Enter superClass inClassNode (inClassComponent classNode);
    Enter classBody inClassNode (inClassComponent classNode);
    Enter method inClassNode (inClassComponent classNode);
    Enter methodName inClassNode (inClassComponent classNode);
    Enter functionNode inFunctionNode (inClassComponent classNode);
    Enter block inFunctionNode (inClassComponent classNode);
    Enter returnStatement inFunctionNode (inClassComponent classNode);
    Enter thisPropsName inFunctionNode (inClassComponent classNode);
    Enter thisProps inFunctionNode (inClassComponent classNode);
    Enter thisExpression inFunctionNode (inClassComponent classNode);
    Enter propsId inFunctionNode (inClassComponent classNode);
    Enter nameId inFunctionNode (inClassComponent classNode);
    Exit inProgram noComponent ].

(** The registry once the component detection has seen the component. *)
Definition registry : Components.t := [detected classNode].

End RenderName.

(** *** class B extends C { componentWillReceiveProps() { return this.props.config.theme; } } *)
Module ReceivePropsTheme.

Definition source : string :=
  "class B extends C { componentWillReceiveProps() { return this.props.config.theme; } }".

Definition classNameAst : Ast :=
  withName "B" (blank 3 "Identifier" 6 7).
Definition superClassAst : Ast :=
  withName "C" (blank 4 "Identifier" 16 17).
Definition methodNameAst : Ast :=
  withName "componentWillReceiveProps" (blank 7 "Identifier" 20 45).
Definition thisExpressionAst : Ast :=
  blank 14 "ThisExpression" 57 61.
Definition propsIdAst : Ast :=
  withName "props" (blank 15 "Identifier" 62 67).
Definition thisPropsAst : Ast :=
  withProperty propsIdAst (withObject thisExpressionAst (blank 13 "MemberExpression" 57 67)).
Definition configAst : Ast :=
  withName "config" (blank 16 "Identifier" 68 74).
Definition thisPropsConfigAst : Ast :=
  withProperty configAst (withObject thisPropsAst (blank 12 "MemberExpression" 57 74)).
Definition themeAst : Ast :=
  withName "theme" (blank 17 "Identifier" 75 80).
Definition thisPropsConfigThemeAst : Ast :=
  withProperty themeAst (withObject thisPropsConfigAst (blank 11 "MemberExpression" 57 80)).
Definition returnStatementAst : Ast :=
  blank 10 "ReturnStatement" 50 81.
Definition blockAst : Ast :=
  blank 9 "BlockStatement" 48 83.
Definition functionNodeAst : Ast :=
  withParams [] (blank 8 "FunctionExpression" 45 83).
Definition methodAst : Ast :=
  withKey methodNameAst (withKind "method" (blank 6 "MethodDefinition" 20 83)).
Definition classBodyAst : Ast :=
  blank 5 "ClassBody" 18 85.
Definition classNodeAst : Ast :=
  withId classNameAst (blank 2 "ClassDeclaration" 0 85).
Definition programAst : Ast :=
  blank 1 "Program" 0 85.

Definition program : Node := mkNode programAst None.
Definition classNode : Node := mkNode classNodeAst (Some program).
Definition className : Node := mkNode classNameAst (Some classNode).
Definition superClass : Node := mkNode superClassAst (Some classNode).
Definition classBody : Node := mkNode classBodyAst (Some classNode).
Definition method : Node := mkNode methodAst (Some classBody).
Definition methodName : Node := mkNode methodNameAst (Some method).
Definition functionNode : Node := mkNode functionNodeAst (Some method).
Definition block : Node := mkNode blockAst (Some functionNode).
Definition returnStatement : Node := mkNode returnStatementAst (Some block).
Definition thisPropsConfigTheme : Node := mkNode thisPropsConfigThemeAst (Some returnStatement).
Definition thisPropsConfig : Node := mkNode thisPropsConfigAst (Some thisPropsConfigTheme).
Definition thisProps : Node := mkNode thisPropsAst (Some thisPropsConfig).
Definition thisExpression : Node := mkNode thisExpressionAst (Some thisProps).
Definition propsId : Node := mkNode propsIdAst (Some thisProps).
Definition config : Node := mkNode configAst (Some thisPropsConfig).
Definition theme : Node := mkNode themeAst (Some thisPropsConfigTheme).

Definition programScope : Scope := mkScope (Some program) None.
Definition classNodeScope : Scope := mkScope (Some classNode) (Some programScope).
Definition functionNodeScope : Scope := mkScope (Some functionNode) (Some classNodeScope).

Definition inProgram : Context :=
  Build_Context (Some programScope) source exampleTokens.
Definition inClassNode : Context :=
  Build_Context (Some classNodeScope) source exampleTokens.
Definition inFunctionNode : Context :=
  Build_Context (Some functionNodeScope) source exampleTokens.

(** The visits of a depth-first traversal, in order. *)
Definition sourceUnit : list Visit :=
  [ Enter program inProgram noComponent;
    Enter classNode inClassNode (inClassComponent classNode);
    Enter className inClassNode (inClassComponent classNode);
    Enter superClass inClassNode (inClassComponent classNode);
    Enter classBody inClassNode (inClassComponent classNode);
    Enter method inClassNode (inClassComponent classNode);
    Enter methodName inClassNode (inClassComponent classNode);
    Enter functionNode inFunctionNode (inClassComponent classNode);
    Enter block inFunctionNode (inClassComponent classNode);
    Enter returnStatement inFunctionNode (inClassComponent classNode);
    Enter thisPropsConfigTheme inFunctionNode (inClassComponent classNode);
    Enter thisPropsConfig inFunctionNode (inClassComponent classNode);
    Enter thisProps inFunctionNode (inClassComponent classNode);
    Enter thisExpression inFunctionNode (inClassComponent classNode);
    Enter propsId inFunctionNode (inClassComponent classNode);
    Enter config inFunctionNode (inClassComponent classNode);
    Enter theme inFunctionNode (inClassComponent classNode);
    Exit inProgram noComponent ].

(** The registry once the component detection has seen the component. *)
Definition registry : Components.t := [detected classNode].

End ReceivePropsTheme.

(** *** function F(props) { return props[x]; } *)
Module ComputedKey.

Definition source : string :=
  "function F(props) { return props[x]; }".

Definition functionNameAst : Ast :=
  withName "F" (blank 3 "Identifier" 9 10).
Definition paramAst : Ast :=
  withName "props" (blank 4 "Identifier" 11 16).
Definition propsIdAst : Ast :=
  withName "props" (blank 8 "Identifier" 27 32).
Definition xAst : Ast :=
  withName "x" (blank 9 "Identifier" 33 34).
Definition propsXAst : Ast :=
  withProperty xAst (withObject propsIdAst (withComputed (blank 7 "MemberExpression" 27 35))).
Definition statementAst : Ast :=
  blank 6 "ReturnStatement" 20 36.
Definition blockAst : Ast :=
  blank 5 "BlockStatement" 18 38.
Definition functionNodeAst : Ast :=
  withParams [paramAst] (withId functionNameAst (blank 2 "FunctionDeclaration" 0 38)).
Definition programAst : Ast :=
  blank 1 "Program" 0 38.

Definition program : Node := mkNode programAst None.
Definition functionNode : Node := mkNode functionNodeAst (Some program).
Definition functionName : Node := mkNode functionNameAst (Some functionNode).
Definition param : Node := mkNode paramAst (Some functionNode).
Definition block : Node := mkNode blockAst (Some functionNode).
Definition statement : Node := mkNode statementAst (Some block).
Definition propsX : Node := mkNode propsXAst (Some statement).
Definition propsId : Node := mkNode propsIdAst (Some propsX).
Definition x : Node := mkNode xAst (Some propsX).

Definition programScope : Scope := mkScope (Some program) None.
Definition functionNodeScope : Scope := mkScope (Some functionNode) (Some programScope).

Definition inProgram : Context :=
  Build_Context (Some programScope) source exampleTokens.
Definition inFunctionNode : Context :=
  Build_Context (Some functionNodeScope) source exampleTokens.

(** The visits of a depth-first traversal, in order. *)
Definition sourceUnit : list Visit :=
  [ Enter program inProgram noComponent;
    Enter functionNode inFunctionNode (inFunctionComponent functionNode);
    Enter functionName inFunctionNode (inFunctionComponent functionNode);
    Enter param inFunctionNode (inFunctionComponent functionNode);
    Enter block inFunctionNode (inFunctionComponent functionNode);
    Enter statement inFunctionNode (inFunctionComponent functionNode);
    Enter propsX inFunctionNode (inFunctionComponent functionNode);
    Enter propsId inFunctionNode (inFunctionComponent functionNode);
    Enter x inFunctionNode (inFunctionComponent functionNode);
    Exit inProgram noComponent ].

(** The registry once the component detection has seen the component. *)
Definition registry : Components.t := [detected functionNode].

End ComputedKey.

(** *** function F(props) { return props.hasOwnProperty; } *)
Module ObjectMethod.

Definition source : string :=
  "function F(props) { return props.hasOwnProperty; }".

Definition functionNameAst : Ast :=
  withName "F" (blank 3 "Identifier" 9 10).
Definition paramAst : Ast :=
  withName "props" (blank 4 "Identifier" 11 16).
Definition propsIdAst : Ast :=
  withName "props" (blank 8 "Identifier" 27 32).
Definition hasOwnPropertyAst : Ast :=
  withName "hasOwnProperty" (blank 9 "Identifier" 33 47).
Definition propsHasOwnPropertyAst : Ast :=
  withProperty hasOwnPropertyAst (withObject propsIdAst (blank 7 "MemberExpression" 27 47)).
Definition statementAst : Ast :=
  blank 6 "ReturnStatement" 20 48.
Definition blockAst : Ast :=
  blank 5 "BlockStatement" 18 50.
Definition functionNodeAst : Ast :=
  withParams [paramAst] (withId functionNameAst (blank 2 "FunctionDeclaration" 0 50)).
Definition programAst : Ast :=
  blank 1 "Program" 0 50.

Definition program : Node := mkNode programAst None.
Definition functionNode : Node := mkNode functionNodeAst (Some program).
Definition functionName : Node := mkNode functionNameAst (Some functionNode).
Definition param : Node := mkNode paramAst (Some functionNode).
Definition block : Node := mkNode blockAst (Some functionNode).
Definition statement : Node := mkNode statementAst (Some block).
Definition propsHasOwnProperty : Node := mkNode propsHasOwnPropertyAst (Some statement).
Definition propsId : Node := mkNode propsIdAst (Some propsHasOwnProperty).
Definition hasOwnProperty : Node := mkNode hasOwnPropertyAst (Some propsHasOwnProperty).

Definition programScope : Scope := mkScope (Some program) None.
Definition functionNodeScope : Scope := mkScope (Some functionNode) (Some programScope).

Definition inProgram : Context :=
  Build_Context (Some programScope) source exampleTokens.
Definition inFunctionNode : Context :=
  Build_Context (Some functionNodeScope) source exampleTokens.

(** The visits of a depth-first traversal, in order. *)
Definition sourceUnit : list Visit :=
  [ Enter program inProgram noComponent;
    Enter functionNode inFunctionNode (inFunctionComponent functionNode);
    Enter functionName inFunctionNode (inFunctionComponent functionNode);
    Enter param inFunctionNode (inFunctionComponent functionNode);
    Enter block inFunctionNode (inFunctionComponent functionNode);
    Enter statement inFunctionNode (inFunctionComponent functionNode);
    Enter propsHasOwnProperty inFunctionNode (inFunctionComponent functionNode);
    Enter propsId inFunctionNode (inFunctionComponent functionNode);
    Enter hasOwnProperty inFunctionNode (inFunctionComponent functionNode);
    Exit inProgram noComponent ].

(** The registry once the component detection has seen the component. *)
Definition registry : Components.t := [detected functionNode].

End ObjectMethod.

(** *** function F(props) { return props.a.b.c; } *)
Module DirectChain.

Definition source : string :=
  "function F(props) { return props.a.b.c; }".

Definition functionNameAst : Ast :=
  withName "F" (blank 3 "Identifier" 9 10).
Definition paramAst : Ast :=
  withName "props" (blank 4 "Identifier" 11 16).
Definition propsIdAst : Ast :=
  withName "props" (blank 10 "Identifier" 27 32).
Definition aAst : Ast :=
  withName "a" (blank 11 "Identifier" 33 34).
Definition propsAAst : Ast :=
  withProperty aAst (withObject propsIdAst (blank 9 "MemberExpression" 27 34)).
Definition bAst : Ast :=
  withName "b" (blank 12 "Identifier" 35 36).
Definition propsABAst : Ast :=
  withProperty bAst (withObject propsAAst (blank 8 "MemberExpression" 27 36)).
Definition cAst : Ast :=
  withName "c" (blank 13 "Identifier" 37 38).
Definition propsABCAst : Ast :=
  withProperty cAst (withObject propsABAst (blank 7 "MemberExpression" 27 38)).
Definition statementAst : Ast :=
  blank 6 "ReturnStatement" 20 39.
Definition blockAst : Ast :=
  blank 5 "BlockStatement" 18 41.
Definition functionNodeAst : Ast :=
  withParams [paramAst] (withId functionNameAst (blank 2 "FunctionDeclaration" 0 41)).
Definition programAst : Ast :=
  blank 1 "Program" 0 41.

Definition program : Node := mkNode programAst None.
Definition functionNode : Node := mkNode functionNodeAst (Some program).
Definition functionName : Node := mkNode functionNameAst (Some functionNode).
Definition param : Node := mkNode paramAst (Some functionNode).
Definition block : Node := mkNode blockAst (Some functionNode).
Definition statement : Node := mkNode statementAst (Some block).
Definition propsABC : Node := mkNode propsABCAst (Some statement).
Definition propsAB : Node := mkNode propsABAst (Some propsABC).
Definition propsA : Node := mkNode propsAAst (Some propsAB).
Definition propsId : Node := mkNode propsIdAst (Some propsA).
Definition a : Node := mkNode aAst (Some propsA).
Definition b : Node := mkNode bAst (Some propsAB).
Definition c : Node := mkNode cAst (Some propsABC).

Definition programScope : Scope := mkScope (Some program) None.
Definition functionNodeScope : Scope := mkScope (Some functionNode) (Some programScope).

Definition inProgram : Context :=
  Build_Context (Some programScope) source exampleTokens.
Definition inFunctionNode : Context :=
  Build_Context (Some functionNodeScope) source exampleTokens.

(** The visits of a depth-first traversal, in order. *)
Definition sourceUnit : list Visit :=
  [ Enter program inProgram noComponent;
    Enter functionNode inFunctionNode (inFunctionComponent functionNode);
    Enter functionName inFunctionNode (inFunctionComponent functionNode);
    Enter param inFunctionNode (inFunctionComponent functionNode);
    Enter block inFunctionNode (inFunctionComponent functionNode);
    Enter statement inFunctionNode (inFunctionComponent functionNode);
    Enter propsABC inFunctionNode (inFunctionComponent functionNode);
    Enter propsAB inFunctionNode (inFunctionComponent functionNode);
    Enter propsA inFunctionNode (inFunctionComponent functionNode);
    Enter propsId inFunctionNode (inFunctionComponent functionNode);
    Enter a inFunctionNode (inFunctionComponent functionNode);
    Enter b inFunctionNode (inFunctionComponent functionNode);
    Enter c inFunctionNode (inFunctionComponent functionNode);
    Exit inProgram noComponent ].

(** The registry once the component detection has seen the component. *)
Definition registry : Components.t := [detected functionNode].

End DirectChain.

(** *** function F(props) { return x[props.a]; } *)
Module KeyOfParent.

Definition source : string :=
  "function F(props) { return x[props.a]; }".

Definition functionNameAst : Ast :=
  withName "F" (blank 3 "Identifier" 9 10).
Definition paramAst : Ast :=
  withName "props" (blank 4 "Identifier" 11 16).
Definition xAst : Ast :=
  withName "x" (blank 8 "Identifier" 27 28).
Definition propsIdAst : Ast :=
  withName "props" (blank 10 "Identifier" 29 34).
Definition aAst : Ast :=
  withName "a" (blank 11 "Identifier" 35 36).
Definition propsAAst : Ast :=
  withProperty aAst (withObject propsIdAst (blank 9 "MemberExpression" 29 36)).
Definition xPropsAAst : Ast :=
  withProperty propsAAst (withObject xAst (withComputed (blank 7 "MemberExpression" 27 37))).
Definition statementAst : Ast :=
  blank 6 "ReturnStatement" 20 38.
Definition blockAst : Ast :=
  blank 5 "BlockStatement" 18 40.
Definition functionNodeAst : Ast :=
  withParams [paramAst] (withId functionNameAst (blank 2 "FunctionDeclaration" 0 40)).
Definition programAst : Ast :=
  blank 1 "Program" 0 40.

Definition program : Node := mkNode programAst None.
Definition functionNode : Node := mkNode functionNodeAst (Some program).
Definition functionName : Node := mkNode functionNameAst (Some functionNode).
Definition param : Node := mkNode paramAst (Some functionNode).
Definition block : Node := mkNode blockAst (Some functionNode).
Definition statement : Node := mkNode statementAst (Some block).
Definition xPropsA : Node := mkNode xPropsAAst (Some statement).
Definition x : Node := mkNode xAst (Some xPropsA).
Definition propsA : Node := mkNode propsAAst (Some xPropsA).
Definition propsId : Node := mkNode propsIdAst (Some propsA).
Definition a : Node := mkNode aAst (Some propsA).

Definition programScope : Scope := mkScope (Some program) None.
Definition functionNodeScope : Scope := mkScope (Some functionNode) (Some programScope).

Definition inProgram : Context :=
  Build_Context (Some programScope) source exampleTokens.
Definition inFunctionNode : Context :=
  Build_Context (Some functionNodeScope) source exampleTokens.

(** The visits of a depth-first traversal, in order. *)
Definition sourceUnit : list Visit :=
  [ Enter program inProgram noComponent;
    Enter functionNode inFunctionNode (inFunctionComponent functionNode);
    Enter functionName inFunctionNode (inFunctionComponent functionNode);
    Enter param inFunctionNode (inFunctionComponent functionNode);
    Enter block inFunctionNode (inFunctionComponent functionNode);
    Enter statement inFunctionNode (inFunctionComponent functionNode);
    Enter xPropsA inFunctionNode (inFunctionComponent functionNode);
    Enter x inFunctionNode (inFunctionComponent functionNode);
    Enter propsA inFunctionNode (inFunctionComponent functionNode);
    Enter propsId inFunctionNode (inFunctionComponent functionNode);
    Enter a inFunctionNode (inFunctionComponent functionNode);
    Exit inProgram noComponent ].

(** The registry once the component detection has seen the component. *)
Definition registry : Components.t := [detected functionNode].

End KeyOfParent.

(** *** function F(props) { const {a, ...rest} = props; } *)
Module SpreadLast.

Definition source : string :=
  "function F(props) { const {a, ...rest} = props; }".

Definition functionNameAst : Ast :=
  withName "F" (blank 3 "Identifier" 9 10).
Definition paramAst : Ast :=
  withName "props" (blank 4 "Identifier" 11 16).
Definition keyAAst : Ast :=
  withName "a" (blank 10 "Identifier" 27 28).
Definition valueAAst : Ast :=
  withName "a" (blank 11 "Identifier" 27 28).
Definition fieldAAst : Ast :=
  withValue (VNode valueAAst) (withKey keyAAst (withKind "init" (blank 9 "Property" 27 28))).
Definition restAst : Ast :=
  withName "rest" (blank 13 "Identifier" 33 37).
Definition fieldRestAst : Ast :=
  blank 12 "RestElement" 30 37.
Definition patternAst : Ast :=
  withProperties [fieldAAst; fieldRestAst] (blank 8 "ObjectPattern" 26 38).
Definition propsIdAst : Ast :=
  withName "props" (blank 14 "Identifier" 41 46).
Definition declaratorAst : Ast :=
  withInit propsIdAst (withId patternAst (blank 7 "VariableDeclarator" 26 46)).
Definition statementAst : Ast :=
  blank 6 "VariableDeclaration" 20 47.
Definition blockAst : Ast :=
  blank 5 "BlockStatement" 18 49.
Definition functionNodeAst : Ast :=
  withParams [paramAst] (withId functionNameAst (blank 2 "FunctionDeclaration" 0 49)).
Definition programAst : Ast :=
  blank 1 "Program" 0 49.

Definition program : Node := mkNode programAst None.
Definition functionNode : Node := mkNode functionNodeAst (Some program).
Definition functionName : Node := mkNode functionNameAst (Some functionNode).
Definition param : Node := mkNode paramAst (Some functionNode).
Definition block : Node := mkNode blockAst (Some functionNode).
Definition statement : Node := mkNode statementAst (Some block).
Definition declarator : Node := mkNode declaratorAst (Some statement).
Definition pattern : Node := mkNode patternAst (Some declarator).
Definition fieldA : Node := mkNode fieldAAst (Some pattern).
Definition keyA : Node := mkNode keyAAst (Some fieldA).
Definition valueA : Node := mkNode valueAAst (Some fieldA).
Definition fieldRest : Node := mkNode fieldRestAst (Some pattern).
Definition rest : Node := mkNode restAst (Some fieldRest).
Definition propsId : Node := mkNode propsIdAst (Some declarator).

Definition programScope : Scope := mkScope (Some program) None.
Definition functionNodeScope : Scope := mkScope (Some functionNode) (Some programScope).

Definition inProgram : Context :=
  Build_Context (Some programScope) source exampleTokens.
Definition inFunctionNode : Context :=
  Build_Context (Some functionNodeScope) source exampleTokens.

(** The visits of a depth-first traversal, in order. *)
Definition sourceUnit : list Visit :=
  [ Enter program inProgram noComponent;
    Enter functionNode inFunctionNode (inFunctionComponent functionNode);
    Enter functionName inFunctionNode (inFunctionComponent functionNode);
    Enter param inFunctionNode (inFunctionComponent functionNode);
    Enter block inFunctionNode (inFunctionComponent functionNode);
    Enter statement inFunctionNode (inFunctionComponent functionNode);
    Enter declarator inFunctionNode (inFunctionComponent functionNode);
    Enter pattern inFunctionNode (inFunctionComponent functionNode);
    Enter fieldA inFunctionNode (inFunctionComponent functionNode);
    Enter keyA inFunctionNode (inFunctionComponent functionNode);
    Enter valueA inFunctionNode (inFunctionComponent functionNode);
    Enter fieldRest inFunctionNode (inFunctionComponent functionNode);
    Enter rest inFunctionNode (inFunctionComponent functionNode);
    Enter propsId inFunctionNode (inFunctionComponent functionNode);
    Exit inProgram noComponent ].

(** The registry once the component detection has seen the component. *)
Definition registry : Components.t := [detected functionNode].

End SpreadLast.

(** *** function F(props) { const {[k]: v, a} = props; } *)
Module ComputedFirst.

Definition source : string :=
  "function F(props) { const {[k]: v, a} = props; }".

Definition functionNameAst : Ast :=
  withName "F" (blank 3 "Identifier" 9 10).
Definition paramAst : Ast :=
  withName "props" (blank 4 "Identifier" 11 16).
Definition keyKAst : Ast :=
  withName "k" (blank 10 "Identifier" 28 29).
Definition vAst : Ast :=
  withName "v" (blank 11 "Identifier" 32 33).
Definition fieldKAst : Ast :=
  withValue (VNode vAst) (withKey keyKAst (withKind "init" (withComputed (blank 9 "Property" 27 33)))).
Definition keyAAst : Ast :=
  withName "a" (blank 13 "Identifier" 35 36).
Definition valueAAst : Ast :=
  withName "a" (blank 14 "Identifier" 35 36).
Definition fieldAAst : Ast :=
  withValue (VNode valueAAst) (withKey keyAAst (withKind "init" (blank 12 "Property" 35 36))).
Definition patternAst : Ast :=
  withProperties [fieldKAst; fieldAAst] (blank 8 "ObjectPattern" 26 37).
Definition propsIdAst : Ast :=
  withName "props" (blank 15 "Identifier" 40 45).
Definition declaratorAst : Ast :=
  withInit propsIdAst (withId patternAst (blank 7 "VariableDeclarator" 26 45)).
Definition statementAst : Ast :=
  blank 6 "VariableDeclaration" 20 46.
Definition blockAst : Ast :=
  blank 5 "BlockStatement" 18 48.
Definition functionNodeAst : Ast :=
  withParams [paramAst] (withId functionNameAst (blank 2 "FunctionDeclaration" 0 48)).
Definition programAst : Ast :=
  blank 1 "Program" 0 48.

Definition program : Node := mkNode programAst None.
Definition functionNode : Node := mkNode functionNodeAst (Some program).
Definition functionName : Node := mkNode functionNameAst (Some functionNode).
Definition param : Node := mkNode paramAst (Some functionNode).
Definition block : Node := mkNode blockAst (Some functionNode).
Definition statement : Node := mkNode statementAst (Some block).
Definition declarator : Node := mkNode declaratorAst (Some statement).
Definition pattern : Node := mkNode patternAst (Some declarator).
Definition fieldK : Node := mkNode fieldKAst (Some pattern).
Definition keyK : Node := mkNode keyKAst (Some fieldK).
Definition v : Node := mkNode vAst (Some fieldK).
Definition fieldA : Node := mkNode fieldAAst (Some pattern).
Definition keyA : Node := mkNode keyAAst (Some fieldA).
Definition valueA : Node := mkNode valueAAst (Some fieldA).
Definition propsId : Node := mkNode propsIdAst (Some declarator).

Definition programScope : Scope := mkScope (Some program) None.
Definition functionNodeScope : Scope := mkScope (Some functionNode) (Some programScope).

Definition inProgram : Context :=
  Build_Context (Some programScope) source exampleTokens.
Definition inFunctionNode : Context :=
  Build_Context (Some functionNodeScope) source exampleTokens.

(** The visits of a depth-first traversal, in order. *)
Definition sourceUnit : list Visit :=
  [ Enter program inProgram noComponent;
    Enter functionNode inFunctionNode (inFunctionComponent functionNode);
    Enter functionName inFunctionNode (inFunctionComponent functionNode);
    Enter param inFunctionNode (inFunctionComponent functionNode);
    Enter block inFunctionNode (inFunctionComponent functionNode);
    Enter statement inFunctionNode (inFunctionComponent functionNode);
    Enter declarator inFunctionNode (inFunctionComponent functionNode);
    Enter pattern inFunctionNode (inFunctionComponent functionNode);
    Enter fieldK inFunctionNode (inFunctionComponent functionNode);
    Enter keyK inFunctionNode (inFunctionComponent functionNode);
    Enter v inFunctionNode (inFunctionComponent functionNode);
    Enter fieldA inFunctionNode (inFunctionComponent functionNode);
    Enter keyA inFunctionNode (inFunctionComponent functionNode);
    Enter valueA inFunctionNode (inFunctionComponent functionNode);
    Enter propsId inFunctionNode (inFunctionComponent functionNode);
    Exit inProgram noComponent ].

(** The registry once the component detection has seen the component. *)
Definition registry : Components.t := [detected functionNode].

End ComputedFirst.

(** *** function F(props) { return <div {...props}/>; } *)
Module SpreadAttribute.

Definition source : string :=
  "function F(props) { return <div {...props}/>; }".

Definition functionNameAst : Ast :=
  withName "F" (blank 3 "Identifier" 9 10).
Definition paramAst : Ast :=
  withName "props" (blank 4 "Identifier" 11 16).
Definition tagAst : Ast :=
  withName "div" (blank 9 "JSXIdentifier" 28 31).
Definition propsIdAst : Ast :=
  withName "props" (blank 11 "Identifier" 36 41).
Definition spreadAst : Ast :=
  blank 10 "JSXSpreadAttribute" 32 42.
Definition openingAst : Ast :=
  blank 8 "JSXOpeningElement" 27 44.
Definition elementAst : Ast :=
  blank 7 "JSXElement" 27 44.
Definition statementAst : Ast :=
  blank 6 "ReturnStatement" 20 45.
Definition blockAst : Ast :=
  blank 5 "BlockStatement" 18 47.
Definition functionNodeAst : Ast :=
  withParams [paramAst] (withId functionNameAst (blank 2 "FunctionDeclaration" 0 47)).
Definition programAst : Ast :=
  blank 1 "Program" 0 47.

Definition program : Node := mkNode programAst None.
Definition functionNode : Node := mkNode functionNodeAst (Some program).
Definition functionName : Node := mkNode functionNameAst (Some functionNode).
Definition param : Node := mkNode paramAst (Some functionNode).
Definition block : Node := mkNode blockAst (Some functionNode).
Definition statement : Node := mkNode statementAst (Some block).
Definition element : Node := mkNode elementAst (Some statement).
Definition opening : Node := mkNode openingAst (Some element).
Definition tag : Node := mkNode tagAst (Some opening).
Definition spread : Node := mkNode spreadAst (Some opening).
Definition propsId : Node := mkNode propsIdAst (Some spread).

Definition programScope : Scope := mkScope (Some program) None.
Definition functionNodeScope : Scope := mkScope (Some functionNode) (Some programScope).

Definition inProgram : Context :=
  Build_Context (Some programScope) source exampleTokens.
Definition inFunctionNode : Context :=
  Build_Context (Some functionNodeScope) source exampleTokens.

(** The visits of a depth-first traversal, in order. *)
Definition sourceUnit : list Visit :=
  [ Enter program inProgram noComponent;
    Enter functionNode inFunctionNode (inFunctionComponent functionNode);
    Enter functionName inFunctionNode (inFunctionComponent functionNode);
    Enter param inFunctionNode (inFunctionComponent functionNode);
    Enter block inFunctionNode (inFunctionComponent functionNode);
    Enter statement inFunctionNode (inFunctionComponent functionNode);
    Enter element inFunctionNode (inFunctionComponent functionNode);
    Enter opening inFunctionNode (inFunctionComponent functionNode);
    Enter tag inFunctionNode (inFunctionComponent functionNode);
    Enter spread inFunctionNode (inFunctionComponent functionNode);
    Enter propsId inFunctionNode (inFunctionComponent functionNode);
    Exit inProgram noComponent ].

(** The registry once the component detection has seen the component. *)
Definition registry : Components.t := [detected functionNode].

End SpreadAttribute.

(** *** class A extends C { m() { this.setState((state, {b}) => b, () => 1); } } *)
Module Updater.

Definition source : string :=
  "class A extends C { m() { this.setState((state, {b}) => b, () => 1); } }".

Definition classNameAst : Ast :=
  withName "A" (blank 3 "Identifier" 6 7).
Definition superClassAst : Ast :=
  withName "C" (blank 4 "Identifier" 16 17).
Definition methodNameAst : Ast :=
  withName "m" (blank 7 "Identifier" 20 21).
Definition thisExpressionAst : Ast :=
  blank 13 "ThisExpression" 26 30.
Definition setStateAst : Ast :=
  withName "setState" (blank 14 "Identifier" 31 39).
Definition thisSetStateAst : Ast :=
  withProperty setStateAst (withObject thisExpressionAst (blank 12 "MemberExpression" 26 39)).
Definition stateAst : Ast :=
  withName "state" (blank 16 "Identifier" 41 46).
Definition keyBAst : Ast :=
  withName "b" (blank 19 "Identifier" 49 50).
Definition valueBAst : Ast :=
  withName "b" (blank 20 "Identifier" 49 50).
Definition fieldBAst : Ast :=
  withValue (VNode valueBAst) (withKey keyBAst (withKind "init" (blank 18 "Property" 49 50))).
Definition patternAst : Ast :=
  withProperties [fieldBAst] (blank 17 "ObjectPattern" 48 51).
Definition resultBAst : Ast :=
  withName "b" (blank 21 "Identifier" 56 57).
Definition updaterAst : Ast :=
  withParams [stateAst; patternAst] (blank 15 "ArrowFunctionExpression" 40 57).
Definition oneAst : Ast :=
  withValue (VOther "1") (blank 23 "Literal" 65 66).
Definition callbackAst : Ast :=
  withParams [] (blank 22 "ArrowFunctionExpression" 59 66).
Definition callAst : Ast :=
  withArguments [updaterAst; callbackAst] (withCallee thisSetStateAst (blank 11 "CallExpression" 26 67)).
Definition statementAst : Ast :=
  blank 10 "ExpressionStatement" 26 68.
Definition blockAst : Ast :=
  blank 9 "BlockStatement" 24 70.
Definition functionNodeAst : Ast :=
  withParams [] (blank 8 "FunctionExpression" 21 70).
Definition methodAst : Ast :=
  withKey methodNameAst (withKind "method" (blank 6 "MethodDefinition" 20 70)).
Definition classBodyAst : Ast :=
  blank 5 "ClassBody" 18 72.
Definition classNodeAst : Ast :=
  withId classNameAst (blank 2 "ClassDeclaration" 0 72).
Definition programAst : Ast :=
  blank 1 "Program" 0 72.

Definition program : Node := mkNode programAst None.
Definition classNode : Node := mkNode classNodeAst (Some program).
Definition className : Node := mkNode classNameAst (Some classNode).
Definition superClass : Node := mkNode superClassAst (Some classNode).
Definition classBody : Node := mkNode classBodyAst (Some classNode).
Definition method : Node := mkNode methodAst (Some classBody).
Definition methodName : Node := mkNode methodNameAst (Some method).
Definition functionNode : Node := mkNode functionNodeAst (Some method).
Definition block : Node := mkNode blockAst (Some functionNode).
Definition statement : Node := mkNode statementAst (Some block).
Definition call : Node := mkNode callAst (Some statement).
Definition thisSetState : Node := mkNode thisSetStateAst (Some call).
Definition thisExpression : Node := mkNode thisExpressionAst (Some thisSetState).
Definition setState : Node := mkNode setStateAst (Some thisSetState).
Definition updater : Node := mkNode updaterAst (Some call).
Definition state : Node := mkNode stateAst (Some updater).
Definition pattern : Node := mkNode patternAst (Some updater).
Definition fieldB : Node := mkNode fieldBAst (Some pattern).
Definition keyB : Node := mkNode keyBAst (Some fieldB).
Definition valueB : Node := mkNode valueBAst (Some fieldB).
Definition resultB : Node := mkNode resultBAst (Some updater).
Definition callback : Node := mkNode callbackAst (Some call).
Definition one : Node := mkNode oneAst (Some callback).

Definition programScope : Scope := mkScope (Some program) None.
Definition classNodeScope : Scope := mkScope (Some classNode) (Some programScope).
Definition functionNodeScope : Scope := mkScope (Some functionNode) (Some classNodeScope).
Definition updaterScope : Scope := mkScope (Some updater) (Some functionNodeScope).
Definition callbackScope : Scope := mkScope (Some callback) (Some functionNodeScope).

Definition inProgram : Context :=
  Build_Context (Some programScope) source exampleTokens.
Definition inClassNode : Context :=
  Build_Context (Some classNodeScope) source exampleTokens.
Definition inFunctionNode : Context :=
  Build_Context (Some functionNodeScope) source exampleTokens.
Definition inUpdater : Context :=
  Build_Context (Some updaterScope) source exampleTokens.
Definition inCallback : Context :=
  Build_Context (Some callbackScope) source exampleTokens.

(** The visits of a depth-first traversal, in order. *)
Definition sourceUnit : list Visit :=
  [ Enter program inProgram noComponent;
    Enter classNode inClassNode (inClassComponent classNode);
    Enter className inClassNode (inClassComponent classNode);
    Enter superClass inClassNode (inClassComponent classNode);
    Enter classBody inClassNode (inClassComponent classNode);
    Enter method inClassNode (inClassComponent classNode);
    Enter methodName inClassNode (inClassComponent classNode);
    Enter functionNode inFunctionNode (inClassComponent classNode);
    Enter block inFunctionNode (inClassComponent classNode);
    Enter statement inFunctionNode (inClassComponent classNode);
    Enter call inFunctionNode (inClassComponent classNode);
    Enter thisSetState inFunctionNode (inClassComponent classNode);
    Enter thisExpression inFunctionNode (inClassComponent classNode);
    Enter setState inFunctionNode (inClassComponent classNode);
    Enter updater inUpdater (inClassComponent classNode);
    Enter state inUpdater (inClassComponent classNode);
    Enter pattern inUpdater (inClassComponent classNode);
    Enter fieldB inUpdater (inClassComponent classNode);
    Enter keyB inUpdater (inClassComponent classNode);
    Enter valueB inUpdater (inClassComponent classNode);
    Enter resultB inUpdater (inClassComponent classNode);
    Enter callback inCallback (inClassComponent classNode);
    Enter one inCallback (inClassComponent classNode);
    Exit inProgram noComponent ].

(** The registry once the component detection has seen the component. *)
Definition registry : Components.t := [detected classNode].

End Updater.

(** *** class A extends C { m() { this.setState(({a}) => a); } } *)
Module UpdaterOneParam.

Definition source : string :=
  "class A extends C { m() { this.setState(({a}) => a); } }".

Definition classNameAst : Ast :=
  withName "A" (blank 3 "Identifier" 6 7).
Definition superClassAst : Ast :=
  withName "C" (blank 4 "Identifier" 16 17).
Definition methodNameAst : Ast :=
  withName "m" (blank 7 "Identifier" 20 21).
Definition thisExpressionAst : Ast :=
  blank 13 "ThisExpression" 26 30.
Definition setStateAst : Ast :=
  withName "setState" (blank 14 "Identifier" 31 39).
Definition thisSetStateAst : Ast :=
  withProperty setStateAst (withObject thisExpressionAst (blank 12 "MemberExpression" 26 39)).
Definition keyAAst : Ast :=
  withName "a" (blank 18 "Identifier" 42 43).
Definition valueAAst : Ast :=
  withName "a" (blank 19 "Identifier" 42 43).
Definition fieldAAst : Ast :=
  withValue (VNode valueAAst) (withKey keyAAst (withKind "init" (blank 17 "Property" 42 43))).
Definition patternAst : Ast :=
  withProperties [fieldAAst] (blank 16 "ObjectPattern" 41 44).
Definition resultAAst : Ast :=
  withName "a" (blank 20 "Identifier" 49 50).
Definition updaterAst : Ast :=
  withParams [patternAst] (blank 15 "ArrowFunctionExpression" 40 50).
Definition callAst : Ast :=
  withArguments [updaterAst] (withCallee thisSetStateAst (blank 11 "CallExpression" 26 51)).
Definition statementAst : Ast :=
  blank 10 "ExpressionStatement" 26 52.
Definition blockAst : Ast :=
  blank 9 "BlockStatement" 24 54.
Definition functionNodeAst : Ast :=
  withParams [] (blank 8 "FunctionExpression" 21 54).
Definition methodAst : Ast :=
  withKey methodNameAst (withKind "method" (blank 6 "MethodDefinition" 20 54)).
Definition classBodyAst : Ast :=
  blank 5 "ClassBody" 18 56.
Definition classNodeAst : Ast :=
  withId classNameAst (blank 2 "ClassDeclaration" 0 56).
Definition programAst : Ast :=
  blank 1 "Program" 0 56.

Definition program : Node := mkNode programAst None.
Definition classNode : Node := mkNode classNodeAst (Some program).
Definition className : Node := mkNode classNameAst (Some classNode).
Definition superClass : Node := mkNode superClassAst (Some classNode).
Definition classBody : Node := mkNode classBodyAst (Some classNode).
Definition method : Node := mkNode methodAst (Some classBody).
Definition methodName : Node := mkNode methodNameAst (Some method).
Definition functionNode : Node := mkNode functionNodeAst (Some method).
Definition block : Node := mkNode blockAst (Some functionNode).
Definition statement : Node := mkNode statementAst (Some block).
Definition call : Node := mkNode callAst (Some statement).
Definition thisSetState : Node := mkNode thisSetStateAst (Some call).
Definition thisExpression : Node := mkNode thisExpressionAst (Some thisSetState).
Definition setState : Node := mkNode setStateAst (Some thisSetState).
Definition updater : Node := mkNode updaterAst (Some call).
Definition pattern : Node := mkNode patternAst (Some updater).
Definition fieldA : Node := mkNode fieldAAst (Some pattern).
Definition keyA : Node := mkNode keyAAst (Some fieldA).
Definition valueA : Node := mkNode valueAAst (Some fieldA).
Definition resultA : Node := mkNode resultAAst (Some updater).

Definition programScope : Scope := mkScope (Some program) None.
Definition classNodeScope : Scope := mkScope (Some classNode) (Some programScope).
Definition functionNodeScope : Scope := mkScope (Some functionNode) (Some classNodeScope).
Definition updaterScope : Scope := mkScope (Some updater) (Some functionNodeScope).

Definition inProgram : Context :=
  Build_Context (Some programScope) source exampleTokens.
Definition inClassNode : Context :=
  Build_Context (Some classNodeScope) source exampleTokens.
Definition inFunctionNode : Context :=
  Build_Context (Some functionNodeScope) source exampleTokens.
Definition inUpdater : Context :=
  Build_Context (Some updaterScope) source exampleTokens.

(** The visits of a depth-first traversal, in order. *)
Definition sourceUnit : list Visit :=
  [ Enter program inProgram noComponent;
    Enter classNode inClassNode (inClassComponent classNode);
    Enter className inClassNode (inClassComponent classNode);
    Enter superClass inClassNode (inClassComponent classNode);
    Enter classBody inClassNode (inClassComponent classNode);
    Enter method inClassNode (inClassComponent classNode);
    Enter methodName inClassNode (inClassComponent classNode);
    Enter functionNode inFunctionNode (inClassComponent classNode);
    Enter block inFunctionNode (inClassComponent classNode);
    Enter statement inFunctionNode (inClassComponent classNode);
    Enter call inFunctionNode (inClassComponent classNode);
    Enter thisSetState inFunctionNode (inClassComponent classNode);
    Enter thisExpression inFunctionNode (inClassComponent classNode);
    Enter setState inFunctionNode (inClassComponent classNode);
    Enter updater inUpdater (inClassComponent classNode);
    Enter pattern inUpdater (inClassComponent classNode);
    Enter fieldA inUpdater (inClassComponent classNode);
    Enter keyA inUpdater (inClassComponent classNode);
    Enter valueA inUpdater (inClassComponent classNode);
    Enter resultA inUpdater (inClassComponent classNode);
    Exit inProgram noComponent ].

(** The registry once the component detection has seen the component. *)
Definition registry : Components.t := [detected classNode].

End UpdaterOneParam.

(** *** class A extends C { m() { this.setState((state, props) => props.x); } } *)
Module UpdaterProps.

Definition source : string :=
  "class A extends C { m() { this.setState((state, props) => props.x); } }".

Definition classNameAst : Ast :=
  withName "A" (blank 3 "Identifier" 6 7).
Definition superClassAst : Ast :=
  withName "C" (blank 4 "Identifier" 16 17).
Definition methodNameAst : Ast :=
  withName "m" (blank 7 "Identifier" 20 21).
Definition thisExpressionAst : Ast :=
  blank 13 "ThisExpression" 26 30.
Definition setStateAst : Ast :=
  withName "setState" (blank 14 "Identifier" 31 39).
Definition thisSetStateAst : Ast :=
  withProperty setStateAst (withObject thisExpressionAst (blank 12 "MemberExpression" 26 39)).
Definition stateAst : Ast :=
  withName "state" (blank 16 "Identifier" 41 46).
Definition propsParamAst : Ast :=
  withName "props" (blank 17 "Identifier" 48 53).
Definition propsIdAst : Ast :=
  withName "props" (blank 19 "Identifier" 58 63).
Definition xAst : Ast :=
  withName "x" (blank 20 "Identifier" 64 65).
Definition propsXAst : Ast :=
  withProperty xAst (withObject propsIdAst (blank 18 "MemberExpression" 58 65)).
Definition updaterAst : Ast :=
  withParams [stateAst; propsParamAst] (blank 15 "ArrowFunctionExpression" 40 65).
Definition callAst : Ast :=
  withArguments [updaterAst] (withCallee thisSetStateAst (blank 11 "CallExpression" 26 66)).
Definition statementAst : Ast :=
  blank 10 "ExpressionStatement" 26 67.
Definition blockAst : Ast :=
  blank 9 "BlockStatement" 24 69.
Definition functionNodeAst : Ast :=
  withParams [] (blank 8 "FunctionExpression" 21 69).
Definition methodAst : Ast :=
  withKey methodNameAst (withKind "method" (blank 6 "MethodDefinition" 20 69)).
Definition classBodyAst : Ast :=
  blank 5 "ClassBody" 18 71.
Definition classNodeAst : Ast :=
  withId classNameAst (blank 2 "ClassDeclaration" 0 71).
Definition programAst : Ast :=
  blank 1 "Program" 0 71.

Definition program : Node := mkNode programAst None.
Definition classNode : Node := mkNode classNodeAst (Some program).
Definition className : Node := mkNode classNameAst (Some classNode).
Definition superClass : Node := mkNode superClassAst (Some classNode).
Definition classBody : Node := mkNode classBodyAst (Some classNode).
Definition method : Node := mkNode methodAst (Some classBody).
Definition methodName : Node := mkNode methodNameAst (Some method).
Definition functionNode : Node := mkNode functionNodeAst (Some method).
Definition block : Node := mkNode blockAst (Some functionNode).
Definition statement : Node := mkNode statementAst (Some block).
Definition call : Node := mkNode callAst (Some statement).
Definition thisSetState : Node := mkNode thisSetStateAst (Some call).
Definition thisExpression : Node := mkNode thisExpressionAst (Some thisSetState).
Definition setState : Node := mkNode setStateAst (Some thisSetState).
Definition updater : Node := mkNode updaterAst (Some call).
Definition state : Node := mkNode stateAst (Some updater).
Definition propsParam : Node := mkNode propsParamAst (Some updater).
Definition propsX : Node := mkNode propsXAst (Some updater).
Definition propsId : Node := mkNode propsIdAst (Some propsX).
Definition x : Node := mkNode xAst (Some propsX).

Definition programScope : Scope := mkScope (Some program) None.
Definition classNodeScope : Scope := mkScope (Some classNode) (Some programScope).
Definition functionNodeScope : Scope := mkScope (Some functionNode) (Some classNodeScope).
Definition updaterScope : Scope := mkScope (Some updater) (Some functionNodeScope).

Definition inProgram : Context :=
  Build_Context (Some programScope) source exampleTokens.
Definition inClassNode : Context :=
  Build_Context (Some classNodeScope) source exampleTokens.
Definition inFunctionNode : Context :=
  Build_Context (Some functionNodeScope) source exampleTokens.
Definition inUpdater : Context :=
  Build_Context (Some updaterScope) source exampleTokens.

(** The visits of a depth-first traversal, in order. *)
Definition sourceUnit : list Visit :=
  [ Enter program inProgram noComponent;
    Enter classNode inClassNode (inClassComponent classNode);
    Enter className inClassNode (inClassComponent classNode);
    Enter superClass inClassNode (inClassComponent classNode);
    Enter classBody inClassNode (inClassComponent classNode);
    Enter method inClassNode (inClassComponent classNode);
    Enter methodName inClassNode (inClassComponent classNode);
    Enter functionNode inFunctionNode (inClassComponent classNode);
    Enter block inFunctionNode (inClassComponent classNode);
    Enter statement inFunctionNode (inClassComponent classNode);
    Enter call inFunctionNode (inClassComponent classNode);
    Enter thisSetState inFunctionNode (inClassComponent classNode);
    Enter thisExpression inFunctionNode (inClassComponent classNode);
    Enter setState inFunctionNode (inClassComponent classNode);
    Enter updater inUpdater (inClassComponent classNode);
    Enter state inUpdater (inClassComponent classNode);
    Enter propsParam inUpdater (inClassComponent classNode);
    Enter propsX inUpdater (inClassComponent classNode);
    Enter propsId inUpdater (inClassComponent classNode);
    Enter x inUpdater (inClassComponent classNode);
    Exit inProgram noComponent ].

(** The registry once the component detection has seen the component. *)
Definition registry : Components.t := [detected classNode].

End UpdaterProps.

(** *** class A extends C { render() { props.x; } } *)
Module ClassBareProps.

Definition source : string :=
  "class A extends C { render() { props.x; } }".

Definition classNameAst : Ast :=
  withName "A" (blank 3 "Identifier" 6 7).
Definition superClassAst : Ast :=
  withName "C" (blank 4 "Identifier" 16 17).
Definition methodNameAst : Ast :=
  withName "render" (blank 7 "Identifier" 20 26).
Definition propsIdAst : Ast :=
  withName "props" (blank 12 "Identifier" 31 36).
Definition xAst : Ast :=
  withName "x" (blank 13 "Identifier" 37 38).
Definition propsXAst : Ast :=
  withProperty xAst (withObject propsIdAst (blank 11 "MemberExpression" 31 38)).
Definition statementAst : Ast :=
  blank 10 "ExpressionStatement" 31 39.
Definition blockAst : Ast :=
  blank 9 "BlockStatement" 29 41.
Definition functionNodeAst : Ast :=
  withParams [] (blank 8 "FunctionExpression" 26 41).
Definition methodAst : Ast :=
  withKey methodNameAst (withKind "method" (blank 6 "MethodDefinition" 20 41)).
Definition classBodyAst : Ast :=
  blank 5 "ClassBody" 18 43.
Definition classNodeAst : Ast :=
  withId classNameAst (blank 2 "ClassDeclaration" 0 43).
Definition programAst : Ast :=
  blank 1 "Program" 0 43.

Definition program : Node := mkNode programAst None.
Definition classNode : Node := mkNode classNodeAst (Some program).
Definition className : Node := mkNode classNameAst (Some classNode).
Definition superClass : Node := mkNode superClassAst (Some classNode).
Definition classBody : Node := mkNode classBodyAst (Some classNode).
Definition method : Node := mkNode methodAst (Some classBody).
Definition methodName : Node := mkNode methodNameAst (Some method).
Definition functionNode : Node := mkNode functionNodeAst (Some method).
Definition block : Node := mkNode blockAst (Some functionNode).
Definition statement : Node := mkNode statementAst (Some block).
Definition propsX : Node := mkNode propsXAst (Some statement).
Definition propsId : Node := mkNode propsIdAst (Some propsX).
Definition x : Node := mkNode xAst (Some propsX).

Definition programScope : Scope := mkScope (Some program) None.
Definition classNodeScope : Scope := mkScope (Some classNode) (Some programScope).
Definition functionNodeScope : Scope := mkScope (Some functionNode) (Some classNodeScope).

Definition inProgram : Context :=
  Build_Context (Some programScope) source exampleTokens.
Definition inClassNode : Context :=
  Build_Context (Some classNodeScope) source exampleTokens.
Definition inFunctionNode : Context :=
  Build_Context (Some functionNodeScope) source exampleTokens.

(** The visits of a depth-first traversal, in order. *)
Definition sourceUnit : list Visit :=
  [ Enter program inProgram noComponent;
    Enter classNode inClassNode (inClassComponent classNode);
    Enter className inClassNode (inClassComponent classNode);
    Enter superClass inClassNode (inClassComponent classNode);
    Enter classBody inClassNode (inClassComponent classNode);
    Enter method inClassNode (inClassComponent classNode);
    Enter methodName inClassNode (inClassComponent classNode);
    Enter functionNode inFunctionNode (inClassComponent classNode);
    Enter block inFunctionNode (inClassComponent classNode);
    Enter statement inFunctionNode (inClassComponent classNode);
    Enter propsX inFunctionNode (inClassComponent classNode);
    Enter propsId inFunctionNode (inClassComponent classNode);
    Enter x inFunctionNode (inClassComponent classNode);
    Exit inProgram noComponent ].

(** The registry once the component detection has seen the component. *)
Definition registry : Components.t := [detected classNode].

End ClassBareProps.

(** *** function F(props) { return props['y']; } *)
Module StringKey.

Definition source : string :=
  "function F(props) { return props['y']; }".

Definition functionNameAst : Ast :=
  withName "F" (blank 3 "Identifier" 9 10).
Definition paramAst : Ast :=
  withName "props" (blank 4 "Identifier" 11 16).
Definition propsIdAst : Ast :=
  withName "props" (blank 8 "Identifier" 27 32).
Definition yAst : Ast :=
  withValue (VString "y") (blank 9 "Literal" 33 36).
Definition propsYAst : Ast :=
  withProperty yAst (withObject propsIdAst (withComputed (blank 7 "MemberExpression" 27 37))).
Definition statementAst : Ast :=
  blank 6 "ReturnStatement" 20 38.
Definition blockAst : Ast :=
  blank 5 "BlockStatement" 18 40.
Definition functionNodeAst : Ast :=
  withParams [paramAst] (withId functionNameAst (blank 2 "FunctionDeclaration" 0 40)).
Definition programAst : Ast :=
  blank 1 "Program" 0 40.

Definition program : Node := mkNode programAst None.
Definition functionNode : Node := mkNode functionNodeAst (Some program).
Definition functionName : Node := mkNode functionNameAst (Some functionNode).
Definition param : Node := mkNode paramAst (Some functionNode).
Definition block : Node := mkNode blockAst (Some functionNode).
Definition statement : Node := mkNode statementAst (Some block).
Definition propsY : Node := mkNode propsYAst (Some statement).
Definition propsId : Node := mkNode propsIdAst (Some propsY).
Definition y : Node := mkNode yAst (Some propsY).

Definition programScope : Scope := mkScope (Some program) None.
Definition functionNodeScope : Scope := mkScope (Some functionNode) (Some programScope).

Definition inProgram : Context :=
  Build_Context (Some programScope) source exampleTokens.
Definition inFunctionNode : Context :=
  Build_Context (Some functionNodeScope) source exampleTokens.

(** The visits of a depth-first traversal, in order. *)
Definition sourceUnit : list Visit :=
  [ Enter program inProgram noComponent;
    Enter functionNode inFunctionNode (inFunctionComponent functionNode);
    Enter functionName inFunctionNode (inFunctionComponent functionNode);
    Enter param inFunctionNode (inFunctionComponent functionNode);
    Enter block inFunctionNode (inFunctionComponent functionNode);
    Enter statement inFunctionNode (inFunctionComponent functionNode);
    Enter propsY inFunctionNode (inFunctionComponent functionNode);
    Enter propsId inFunctionNode (inFunctionComponent functionNode);
    Enter y inFunctionNode (inFunctionComponent functionNode);
    Exit inProgram noComponent ].

(** The registry once the component detection has seen the component. *)
Definition registry : Components.t := [detected functionNode].

End StringKey.

(** *** class A extends C { render() { const {props: {a}} = this; } } *)
Module ThisPattern.

Definition source : string :=
  "class A extends C { render() { const {props: {a}} = this; } }".

Definition classNameAst : Ast :=
  withName "A" (blank 3 "Identifier" 6 7).
Definition superClassAst : Ast :=
  withName "C" (blank 4 "Identifier" 16 17).
Definition methodNameAst : Ast :=
  withName "render" (blank 7 "Identifier" 20 26).
Definition keyPropsAst : Ast :=
  withName "props" (blank 14 "Identifier" 38 43).
Definition keyAAst : Ast :=
  withName "a" (blank 17 "Identifier" 46 47).
Definition valueAAst : Ast :=
  withName "a" (blank 18 "Identifier" 46 47).
Definition fieldAAst : Ast :=
  withValue (VNode valueAAst) (withKey keyAAst (withKind "init" (blank 16 "Property" 46 47))).
Definition innerAst : Ast :=
  withProperties [fieldAAst] (blank 15 "ObjectPattern" 45 48).
Definition fieldPropsAst : Ast :=
  withValue (VNode innerAst) (withKey keyPropsAst (withKind "init" (blank 13 "Property" 38 48))).
Definition patternAst : Ast :=
  withProperties [fieldPropsAst] (blank 12 "ObjectPattern" 37 49).
Definition thisExpressionAst : Ast :=
  blank 19 "ThisExpression" 52 56.
Definition declaratorAst : Ast :=
  withInit thisExpressionAst (withId patternAst (blank 11 "VariableDeclarator" 37 56)).
Definition statementAst : Ast :=
  blank 10 "VariableDeclaration" 31 57.
Definition blockAst : Ast :=
  blank 9 "BlockStatement" 29 59.
Definition functionNodeAst : Ast :=
  withParams [] (blank 8 "FunctionExpression" 26 59).
Definition methodAst : Ast :=
  withKey methodNameAst (withKind "method" (blank 6 "MethodDefinition" 20 59)).
Definition classBodyAst : Ast :=
  blank 5 "ClassBody" 18 61.
Definition classNodeAst : Ast :=
  withId classNameAst (blank 2 "ClassDeclaration" 0 61).
Definition programAst : Ast :=
  blank 1 "Program" 0 61.

Definition program : Node := mkNode programAst None.
Definition classNode : Node := mkNode classNodeAst (Some program).
Definition className : Node := mkNode classNameAst (Some classNode).
Definition superClass : Node := mkNode superClassAst (Some classNode).
Definition classBody : Node := mkNode classBodyAst (Some classNode).
Definition method : Node := mkNode methodAst (Some classBody).
Definition methodName : Node := mkNode methodNameAst (Some method).
Definition functionNode : Node := mkNode functionNodeAst (Some method).
Definition block : Node := mkNode blockAst (Some functionNode).
Definition statement : Node := mkNode statementAst (Some block).
Definition declarator : Node := mkNode declaratorAst (Some statement).
Definition pattern : Node := mkNode patternAst (Some declarator).
Definition fieldProps : Node := mkNode fieldPropsAst (Some pattern).
Definition keyProps : Node := mkNode keyPropsAst (Some fieldProps).
Definition inner : Node := mkNode innerAst (Some fieldProps).
Definition fieldA : Node := mkNode fieldAAst (Some inner).
Definition keyA : Node := mkNode keyAAst (Some fieldA).
Definition valueA : Node := mkNode valueAAst (Some fieldA).
Definition thisExpression : Node := mkNode thisExpressionAst (Some declarator).

Definition programScope : Scope := mkScope (Some program) None.
Definition classNodeScope : Scope := mkScope (Some classNode) (Some programScope).
Definition functionNodeScope : Scope := mkScope (Some functionNode) (Some classNodeScope).

Definition inProgram : Context :=
  Build_Context (Some programScope) source exampleTokens.
Definition inClassNode : Context :=
  Build_Context (Some classNodeScope) source exampleTokens.
Definition inFunctionNode : Context :=
  Build_Context (Some functionNodeScope) source exampleTokens.

(** The visits of a depth-first traversal, in order. *)
Definition sourceUnit : list Visit :=
  [ Enter program inProgram noComponent;
    Enter classNode inClassNode (inClassComponent classNode);
    Enter className inClassNode (inClassComponent classNode);
    Enter superClass inClassNode (inClassComponent classNode);
    Enter classBody inClassNode (inClassComponent classNode);
    Enter method inClassNode (inClassComponent classNode);
    Enter methodName inClassNode (inClassComponent classNode);
    Enter functionNode inFunctionNode (inClassComponent classNode);
    Enter block inFunctionNode (inClassComponent classNode);
    Enter statement inFunctionNode (inClassComponent classNode);
    Enter declarator inFunctionNode (inClassComponent classNode);
    Enter pattern inFunctionNode (inClassComponent classNode);
    Enter fieldProps inFunctionNode (inClassComponent classNode);
    Enter keyProps inFunctionNode (inClassComponent classNode);
    Enter inner inFunctionNode (inClassComponent classNode);
    Enter fieldA inFunctionNode (inClassComponent classNode);
    Enter keyA inFunctionNode (inClassComponent classNode);
    Enter valueA inFunctionNode (inClassComponent classNode);
    Enter thisExpression inFunctionNode (inClassComponent classNode);
    Exit inProgram noComponent ].

(** The registry once the component detection has seen the component. *)
Definition registry : Components.t := [detected classNode].

End ThisPattern.

(** *** class A extends C { render() { const {c} = this.props.a; } } *)
Module MemberPattern.

Definition source : string :=
  "class A extends C { render() { const {c} = this.props.a; } }".

Definition classNameAst : Ast :=
  withName "A" (blank 3 "Identifier" 6 7).
Definition superClassAst : Ast :=
  withName "C" (blank 4 "Identifier" 16 17).
Definition methodNameAst : Ast :=
  withName "render" (blank 7 "Identifier" 20 26).
Definition keyCAst : Ast :=
  withName "c" (blank 14 "Identifier" 38 39).
Definition valueCAst : Ast :=
  withName "c" (blank 15 "Identifier" 38 39).
Definition fieldCAst : Ast :=
  withValue (VNode valueCAst) (withKey keyCAst (withKind "init" (blank 13 "Property" 38 39))).
Definition patternAst : Ast :=
  withProperties [fieldCAst] (blank 12 "ObjectPattern" 37 40).
Definition thisExpressionAst : Ast :=
  blank 18 "ThisExpression" 43 47.
Definition propsIdAst : Ast :=
  withName "props" (blank 19 "Identifier" 48 53).
Definition thisPropsAst : Ast :=
  withProperty propsIdAst (withObject thisExpressionAst (blank 17 "MemberExpression" 43 53)).
Definition aAst : Ast :=
  withName "a" (blank 20 "Identifier" 54 55).
Definition thisPropsAAst : Ast :=
  withProperty aAst (withObject thisPropsAst (blank 16 "MemberExpression" 43 55)).
Definition declaratorAst : Ast :=
  withInit thisPropsAAst (withId patternAst (blank 11 "VariableDeclarator" 37 55)).
Definition statementAst : Ast :=
  blank 10 "VariableDeclaration" 31 56.
Definition blockAst : Ast :=
  blank 9 "BlockStatement" 29 58.
Definition functionNodeAst : Ast :=
  withParams [] (blank 8 "FunctionExpression" 26 58).
Definition methodAst : Ast :=
  withKey methodNameAst (withKind "method" (blank 6 "MethodDefinition" 20 58)).
Definition classBodyAst : Ast :=
  blank 5 "ClassBody" 18 60.
Definition classNodeAst : Ast :=
  withId classNameAst (blank 2 "ClassDeclaration" 0 60).
Definition programAst : Ast :=
  blank 1 "Program" 0 60.

Definition program : Node := mkNode programAst None.
Definition classNode : Node := mkNode classNodeAst (Some program).
Definition className : Node := mkNode classNameAst (Some classNode).
Definition superClass : Node := mkNode superClassAst (Some classNode).
Definition classBody : Node := mkNode classBodyAst (Some classNode).
Definition method : Node := mkNode methodAst (Some classBody).
Definition methodName : Node := mkNode methodNameAst (Some method).
Definition functionNode : Node := mkNode functionNodeAst (Some method).
Definition block : Node := mkNode blockAst (Some functionNode).
Definition statement : Node := mkNode statementAst (Some block).
Definition declarator : Node := mkNode declaratorAst (Some statement).
Definition pattern : Node := mkNode patternAst (Some declarator).
Definition fieldC : Node := mkNode fieldCAst (Some pattern).
Definition keyC : Node := mkNode keyCAst (Some fieldC).
Definition valueC : Node := mkNode valueCAst (Some fieldC).
Definition thisPropsA : Node := mkNode thisPropsAAst (Some declarator).
Definition thisProps : Node := mkNode thisPropsAst (Some thisPropsA).
Definition thisExpression : Node := mkNode thisExpressionAst (Some thisProps).
Definition propsId : Node := mkNode propsIdAst (Some thisProps).
Definition a : Node := mkNode aAst (Some thisPropsA).

Definition programScope : Scope := mkScope (Some program) None.
Definition classNodeScope : Scope := mkScope (Some classNode) (Some programScope).
Definition functionNodeScope : Scope := mkScope (Some functionNode) (Some classNodeScope).

Definition inProgram : Context :=
  Build_Context (Some programScope) source exampleTokens.
Definition inClassNode : Context :=
  Build_Context (Some classNodeScope) source exampleTokens.
Definition inFunctionNode : Context :=
  Build_Context (Some functionNodeScope) source exampleTokens.

(** The visits of a depth-first traversal, in order. *)
Definition sourceUnit : list Visit :=
  [ Enter program inProgram noComponent;
    Enter classNode inClassNode (inClassComponent classNode);
    Enter className inClassNode (inClassComponent classNode);
    Enter superClass inClassNode (inClassComponent classNode);
    Enter classBody inClassNode (inClassComponent classNode);
    Enter method inClassNode (inClassComponent classNode);
    Enter methodName inClassNode (inClassComponent classNode);
    Enter functionNode inFunctionNode (inClassComponent classNode);
    Enter block inFunctionNode (inClassComponent classNode);
    Enter statement inFunctionNode (inClassComponent classNode);
    Enter declarator inFunctionNode (inClassComponent classNode);
    Enter pattern inFunctionNode (inClassComponent classNode);
    Enter fieldC inFunctionNode (inClassComponent classNode);
    Enter keyC inFunctionNode (inClassComponent classNode);
    Enter valueC inFunctionNode (inClassComponent classNode);
    Enter thisPropsA inFunctionNode (inClassComponent classNode);
    Enter thisProps inFunctionNode (inClassComponent classNode);
    Enter thisExpression inFunctionNode (inClassComponent classNode);
    Enter propsId inFunctionNode (inClassComponent classNode);
    Enter a inFunctionNode (inClassComponent classNode);
    Exit inProgram noComponent ].

(** The registry once the component detection has seen the component. *)
Definition registry : Components.t := [detected classNode].

End MemberPattern.

(** *** function F({a, b}) { return a; } *)
Module PatternParam.

Definition source : string :=
  "function F({a, b}) { return a; }".

Definition functionNameAst : Ast :=
  withName "F" (blank 3 "Identifier" 9 10).
Definition keyAAst : Ast :=
  withName "a" (blank 6 "Identifier" 12 13).
Definition valueAAst : Ast :=
  withName "a" (blank 7 "Identifier" 12 13).
Definition fieldAAst : Ast :=
  withValue (VNode valueAAst) (withKey keyAAst (withKind "init" (blank 5 "Property" 12 13))).
Definition keyBAst : Ast :=
  withName "b" (blank 9 "Identifier" 15 16).
Definition valueBAst : Ast :=
  withName "b" (blank 10 "Identifier" 15 16).
Definition fieldBAst : Ast :=
  withValue (VNode valueBAst) (withKey keyBAst (withKind "init" (blank 8 "Property" 15 16))).
Definition patternAst : Ast :=
  withProperties [fieldAAst; fieldBAst] (blank 4 "ObjectPattern" 11 17).
Definition resultAAst : Ast :=
  withName "a" (blank 13 "Identifier" 28 29).
Definition statementAst : Ast :=
  blank 12 "ReturnStatement" 21 30.
Definition blockAst : Ast :=
  blank 11 "BlockStatement" 19 32.
Definition functionNodeAst : Ast :=
  withParams [patternAst] (withId functionNameAst (blank 2 "FunctionDeclaration" 0 32)).
Definition programAst : Ast :=
  blank 1 "Program" 0 32.

Definition program : Node := mkNode programAst None.
Definition functionNode : Node := mkNode functionNodeAst (Some program).
Definition functionName : Node := mkNode functionNameAst (Some functionNode).
Definition pattern : Node := mkNode patternAst (Some functionNode).
Definition fieldA : Node := mkNode fieldAAst (Some pattern).
Definition keyA : Node := mkNode keyAAst (Some fieldA).
Definition valueA : Node := mkNode valueAAst (Some fieldA).
Definition fieldB : Node := mkNode fieldBAst (Some pattern).
Definition keyB : Node := mkNode keyBAst (Some fieldB).
Definition valueB : Node := mkNode valueBAst (Some fieldB).
Definition block : Node := mkNode blockAst (Some functionNode).
Definition statement : Node := mkNode statementAst (Some block).
Definition resultA : Node := mkNode resultAAst (Some statement).

Definition programScope : Scope := mkScope (Some program) None.
Definition functionNodeScope : Scope := mkScope (Some functionNode) (Some programScope).

Definition inProgram : Context :=
  Build_Context (Some programScope) source exampleTokens.
Definition inFunctionNode : Context :=
  Build_Context (Some functionNodeScope) source exampleTokens.

(** The visits of a depth-first traversal, in order. *)
Definition sourceUnit : list Visit :=
  [ Enter program inProgram noComponent;
    Enter functionNode inFunctionNode (inFunctionComponent functionNode);
    Enter functionName inFunctionNode (inFunctionComponent functionNode);
    Enter pattern inFunctionNode (inFunctionComponent functionNode);
    Enter fieldA inFunctionNode (inFunctionComponent functionNode);
    Enter keyA inFunctionNode (inFunctionComponent functionNode);
    Enter valueA inFunctionNode (inFunctionComponent functionNode);
    Enter fieldB inFunctionNode (inFunctionComponent functionNode);
    Enter keyB inFunctionNode (inFunctionComponent functionNode);
    Enter valueB inFunctionNode (inFunctionComponent functionNode);
    Enter block inFunctionNode (inFunctionComponent functionNode);
    Enter statement inFunctionNode (inFunctionComponent functionNode);
    Enter resultA inFunctionNode (inFunctionComponent functionNode);
    Exit inProgram noComponent ].

(** The registry once the component detection has seen the component. *)
Definition registry : Components.t := [detected functionNode].

End PatternParam.

(** *** class A extends C { componentDidUpdate({a}, {s}) {} } *)
Module LifeCyclePatterns.

Definition source : string :=
  "class A extends C { componentDidUpdate({a}, {s}) {} }".

Definition classNameAst : Ast :=
  withName "A" (blank 3 "Identifier" 6 7).
Definition superClassAst : Ast :=
  withName "C" (blank 4 "Identifier" 16 17).
Definition methodNameAst : Ast :=
  withName "componentDidUpdate" (blank 7 "Identifier" 20 38).
Definition keyAAst : Ast :=
  withName "a" (blank 11 "Identifier" 40 41).
Definition valueAAst : Ast :=
  withName "a" (blank 12 "Identifier" 40 41).
Definition fieldAAst : Ast :=
  withValue (VNode valueAAst) (withKey keyAAst (withKind "init" (blank 10 "Property" 40 41))).
Definition patternAAst : Ast :=
  withProperties [fieldAAst] (blank 9 "ObjectPattern" 39 42).
Definition keySAst : Ast :=
  withName "s" (blank 15 "Identifier" 45 46).
Definition valueSAst : Ast :=
  withName "s" (blank 16 "Identifier" 45 46).
Definition fieldSAst : Ast :=
  withValue (VNode valueSAst) (withKey keySAst (withKind "init" (blank 14 "Property" 45 46))).
Definition patternSAst : Ast :=
  withProperties [fieldSAst] (blank 13 "ObjectPattern" 44 47).
Definition blockAst : Ast :=
  blank 17 "BlockStatement" 49 51.
Definition functionNodeAst : Ast :=
  withParams [patternAAst; patternSAst] (blank 8 "FunctionExpression" 38 51).
Definition methodAst : Ast :=
  withKey methodNameAst (withKind "method" (blank 6 "MethodDefinition" 20 51)).
Definition classBodyAst : Ast :=
  blank 5 "ClassBody" 18 53.
Definition classNodeAst : Ast :=
  withId classNameAst (blank 2 "ClassDeclaration" 0 53).
Definition programAst : Ast :=
  blank 1 "Program" 0 53.

Definition program : Node := mkNode programAst None.
Definition classNode : Node := mkNode classNodeAst (Some program).
Definition className : Node := mkNode classNameAst (Some classNode).
Definition superClass : Node := mkNode superClassAst (Some classNode).
Definition classBody : Node := mkNode classBodyAst (Some classNode).
Definition method : Node := mkNode methodAst (Some classBody).
Definition methodName : Node := mkNode methodNameAst (Some method).
Definition functionNode : Node := mkNode functionNodeAst (Some method).
Definition patternA : Node := mkNode patternAAst (Some functionNode).
Definition fieldA : Node := mkNode fieldAAst (Some patternA).
Definition keyA : Node := mkNode keyAAst (Some fieldA).
Definition valueA : Node := mkNode valueAAst (Some fieldA).
Definition patternS : Node := mkNode patternSAst (Some functionNode).
Definition fieldS : Node := mkNode fieldSAst (Some patternS).
Definition keyS : Node := mkNode keySAst (Some fieldS).
Definition valueS : Node := mkNode valueSAst (Some fieldS).
Definition block : Node := mkNode blockAst (Some functionNode).

Definition programScope : Scope := mkScope (Some program) None.
Definition classNodeScope : Scope := mkScope (Some classNode) (Some programScope).
Definition functionNodeScope : Scope := mkScope (Some functionNode) (Some classNodeScope).

Definition inProgram : Context :=
  Build_Context (Some programScope) source exampleTokens.
Definition inClassNode : Context :=
  Build_Context (Some classNodeScope) source exampleTokens.
Definition inFunctionNode : Context :=
  Build_Context (Some functionNodeScope) source exampleTokens.

(** The visits of a depth-first traversal, in order. *)
Definition sourceUnit : list Visit :=
  [ Enter program inProgram noComponent;
    Enter classNode inClassNode (inClassComponent classNode);
    Enter className inClassNode (inClassComponent classNode);
    Enter superClass inClassNode (inClassComponent classNode);
    Enter classBody inClassNode (inClassComponent classNode);
    Enter method inClassNode (inClassComponent classNode);
    Enter methodName inClassNode (inClassComponent classNode);
    Enter functionNode inFunctionNode (inClassComponent classNode);
    Enter patternA inFunctionNode (inClassComponent classNode);
    Enter fieldA inFunctionNode (inClassComponent classNode);
    Enter keyA inFunctionNode (inClassComponent classNode);
    Enter valueA inFunctionNode (inClassComponent classNode);
    Enter patternS inFunctionNode (inClassComponent classNode);
    Enter fieldS inFunctionNode (inClassComponent classNode);
    Enter keyS inFunctionNode (inClassComponent classNode);
    Enter valueS inFunctionNode (inClassComponent classNode);
    Enter block inFunctionNode (inClassComponent classNode);
    Exit inProgram noComponent ].

(** The registry once the component detection has seen the component. *)
Definition registry : Components.t := [detected classNode].

End LifeCyclePatterns.

(** *** function F(props) { const {c, ...r} = props[a.b]; } *)
Module MemberKey.

Definition source : string :=
  "function F(props) { const {c, ...r} = props[a.b]; }".

Definition functionNameAst : Ast :=
  withName "F" (blank 3 "Identifier" 9 10).
Definition paramAst : Ast :=
  withName "props" (blank 4 "Identifier" 11 16).
Definition keyCAst : Ast :=
  withName "c" (blank 10 "Identifier" 27 28).
Definition valueCAst : Ast :=
  withName "c" (blank 11 "Identifier" 27 28).
Definition fieldCAst : Ast :=
  withValue (VNode valueCAst) (withKey keyCAst (withKind "init" (blank 9 "Property" 27 28))).
Definition rAst : Ast :=
  withName "r" (blank 13 "Identifier" 33 34).
Definition fieldRestAst : Ast :=
  blank 12 "RestElement" 30 34.
Definition patternAst : Ast :=
  withProperties [fieldCAst; fieldRestAst] (blank 8 "ObjectPattern" 26 35).
Definition propsIdAst : Ast :=
  withName "props" (blank 15 "Identifier" 38 43).
Definition aAst : Ast :=
  withName "a" (blank 17 "Identifier" 44 45).
Definition bAst : Ast :=
  withName "b" (blank 18 "Identifier" 46 47).
Definition keyABAst : Ast :=
  withProperty bAst (withObject aAst (blank 16 "MemberExpression" 44 47)).
Definition propsABAst : Ast :=
  withProperty keyABAst (withObject propsIdAst (withComputed (blank 14 "MemberExpression" 38 48))).
Definition declaratorAst : Ast :=
  withInit propsABAst (withId patternAst (blank 7 "VariableDeclarator" 26 48)).
Definition statementAst : Ast :=
  blank 6 "VariableDeclaration" 20 49.
Definition blockAst : Ast :=
  blank 5 "BlockStatement" 18 51.
Definition functionNodeAst : Ast :=
  withParams [paramAst] (withId functionNameAst (blank 2 "FunctionDeclaration" 0 51)).
Definition programAst : Ast :=
  blank 1 "Program" 0 51.

Definition program : Node := mkNode programAst None.
Definition functionNode : Node := mkNode functionNodeAst (Some program).
Definition functionName : Node := mkNode functionNameAst (Some functionNode).
Definition param : Node := mkNode paramAst (Some functionNode).
Definition block : Node := mkNode blockAst (Some functionNode).
Definition statement : Node := mkNode statementAst (Some block).
Definition declarator : Node := mkNode declaratorAst (Some statement).
Definition pattern : Node := mkNode patternAst (Some declarator).
Definition fieldC : Node := mkNode fieldCAst (Some pattern).
Definition keyC : Node := mkNode keyCAst (Some fieldC).
Definition valueC : Node := mkNode valueCAst (Some fieldC).
Definition fieldRest : Node := mkNode fieldRestAst (Some pattern).
Definition r : Node := mkNode rAst (Some fieldRest).
Definition propsAB : Node := mkNode propsABAst (Some declarator).
Definition propsId : Node := mkNode propsIdAst (Some propsAB).
Definition keyAB : Node := mkNode keyABAst (Some propsAB).
Definition a : Node := mkNode aAst (Some keyAB).
Definition b : Node := mkNode bAst (Some keyAB).

Definition programScope : Scope := mkScope (Some program) None.
Definition functionNodeScope : Scope := mkScope (Some functionNode) (Some programScope).

Definition inProgram : Context :=
  Build_Context (Some programScope) source exampleTokens.
Definition inFunctionNode : Context :=
  Build_Context (Some functionNodeScope) source exampleTokens.

(** The visits of a depth-first traversal, in order. *)
Definition sourceUnit : list Visit :=
  [ Enter program inProgram noComponent;
    Enter functionNode inFunctionNode (inFunctionComponent functionNode);
    Enter functionName inFunctionNode (inFunctionComponent functionNode);
    Enter param inFunctionNode (inFunctionComponent functionNode);
    Enter block inFunctionNode (inFunctionComponent functionNode);
    Enter statement inFunctionNode (inFunctionComponent functionNode);
    Enter declarator inFunctionNode (inFunctionComponent functionNode);
    Enter pattern inFunctionNode (inFunctionComponent functionNode);
    Enter fieldC inFunctionNode (inFunctionComponent functionNode);
    Enter keyC inFunctionNode (inFunctionComponent functionNode);
    Enter valueC inFunctionNode (inFunctionComponent functionNode);
    Enter fieldRest inFunctionNode (inFunctionComponent functionNode);
    Enter r inFunctionNode (inFunctionComponent functionNode);
    Enter propsAB inFunctionNode (inFunctionComponent functionNode);
    Enter propsId inFunctionNode (inFunctionComponent functionNode);
    Enter keyAB inFunctionNode (inFunctionComponent functionNode);
    Enter a inFunctionNode (inFunctionComponent functionNode);
    Enter b inFunctionNode (inFunctionComponent functionNode);
    Exit inProgram noComponent ].

(** The registry once the component detection has seen the component. *)
Definition registry : Components.t := [detected functionNode].

End MemberKey.

(** *** class A extends C { render() { this.setState((s, p = {}) => this.props.name); } } *)
Module UpdaterDefault.

Definition source : string :=
  "class A extends C { render() { this.setState((s, p = {}) => this.props.name); } }".

Definition classNameAst : Ast :=
  withName "A" (blank 3 "Identifier" 6 7).
Definition superClassAst : Ast :=
  withName "C" (blank 4 "Identifier" 16 17).
Definition methodNameAst : Ast :=
  withName "render" (blank 7 "Identifier" 20 26).
Definition thisExpressionAst : Ast :=
  blank 13 "ThisExpression" 31 35.
Definition setStateAst : Ast :=
  withName "setState" (blank 14 "Identifier" 36 44).
Definition thisSetStateAst : Ast :=
  withProperty setStateAst (withObject thisExpressionAst (blank 12 "MemberExpression" 31 44)).
Definition sAst : Ast :=
  withName "s" (blank 16 "Identifier" 46 47).
Definition pAst : Ast :=
  withName "p" (blank 18 "Identifier" 49 50).
Definition emptyObjectAst : Ast :=
  blank 19 "ObjectExpression" 53 55.
Definition defaultPAst : Ast :=
  withLeft pAst (blank 17 "AssignmentPattern" 49 55).
Definition innerThisAst : Ast :=
  blank 22 "ThisExpression" 60 64.
Definition propsIdAst : Ast :=
  withName "props" (blank 23 "Identifier" 65 70).
Definition thisPropsAst : Ast :=
  withProperty propsIdAst (withObject innerThisAst (blank 21 "MemberExpression" 60 70)).
Definition nameIdAst : Ast :=
  withName "name" (blank 24 "Identifier" 71 75).
Definition thisPropsNameAst : Ast :=
  withProperty nameIdAst (withObject thisPropsAst (blank 20 "MemberExpression" 60 75)).
Definition updaterAst : Ast :=
  withParams [sAst; defaultPAst] (blank 15 "ArrowFunctionExpression" 45 75).
Definition callAst : Ast :=
  withArguments [updaterAst] (withCallee thisSetStateAst (blank 11 "CallExpression" 31 76)).
Definition statementAst : Ast :=
  blank 10 "ExpressionStatement" 31 77.
Definition blockAst : Ast :=
  blank 9 "BlockStatement" 29 79.
Definition functionNodeAst : Ast :=
  withParams [] (blank 8 "FunctionExpression" 26 79).
Definition methodAst : Ast :=
  withKey methodNameAst (withKind "method" (blank 6 "MethodDefinition" 20 79)).
Definition classBodyAst : Ast :=
  blank 5 "ClassBody" 18 81.
Definition classNodeAst : Ast :=
  withId classNameAst (blank 2 "ClassDeclaration" 0 81).
Definition programAst : Ast :=
  blank 1 "Program" 0 81.

Definition program : Node := mkNode programAst None.
Definition classNode : Node := mkNode classNodeAst (Some program).
Definition className : Node := mkNode classNameAst (Some classNode).
Definition superClass : Node := mkNode superClassAst (Some classNode).
Definition classBody : Node := mkNode classBodyAst (Some classNode).
Definition method : Node := mkNode methodAst (Some classBody).
Definition methodName : Node := mkNode methodNameAst (Some method).
Definition functionNode : Node := mkNode functionNodeAst (Some method).
Definition block : Node := mkNode blockAst (Some functionNode).
Definition statement : Node := mkNode statementAst (Some block).
Definition call : Node := mkNode callAst (Some statement).
Definition thisSetState : Node := mkNode thisSetStateAst (Some call).
Definition thisExpression : Node := mkNode thisExpressionAst (Some thisSetState).
Definition setState : Node := mkNode setStateAst (Some thisSetState).
Definition updater : Node := mkNode updaterAst (Some call).
Definition s : Node := mkNode sAst (Some updater).
Definition defaultP : Node := mkNode defaultPAst (Some updater).
Definition p : Node := mkNode pAst (Some defaultP).
Definition emptyObject : Node := mkNode emptyObjectAst (Some defaultP).
Definition thisPropsName : Node := mkNode thisPropsNameAst (Some updater).
Definition thisProps : Node := mkNode thisPropsAst (Some thisPropsName).
Definition innerThis : Node := mkNode innerThisAst (Some thisProps).
Definition propsId : Node := mkNode propsIdAst (Some thisProps).
Definition nameId : Node := mkNode nameIdAst (Some thisPropsName).

Definition programScope : Scope := mkScope (Some program) None.
Definition classNodeScope : Scope := mkScope (Some classNode) (Some programScope).
Definition functionNodeScope : Scope := mkScope (Some functionNode) (Some classNodeScope).
Definition updaterScope : Scope := mkScope (Some updater) (Some functionNodeScope).

Definition inProgram : Context :=
  Build_Context (Some programScope) source exampleTokens.
Definition inClassNode : Context :=
  Build_Context (Some classNodeScope) source exampleTokens.
Definition inFunctionNode : Context :=
  Build_Context (Some functionNodeScope) source exampleTokens.
Definition inUpdater : Context :=
  Build_Context (Some updaterScope) source exampleTokens.

(** The visits of a depth-first traversal, in order. *)
Definition sourceUnit : list Visit :=
  [ Enter program inProgram noComponent;
    Enter classNode inClassNode (inClassComponent classNode);
    Enter className inClassNode (inClassComponent classNode);
    Enter superClass inClassNode (inClassComponent classNode);
    Enter classBody inClassNode (inClassComponent classNode);
    Enter method inClassNode (inClassComponent classNode);
    Enter methodName inClassNode (inClassComponent classNode);
    Enter functionNode inFunctionNode (inClassComponent classNode);
    Enter block inFunctionNode (inClassComponent classNode);
    Enter statement inFunctionNode (inClassComponent classNode);
    Enter call inFunctionNode (inClassComponent classNode);
    Enter thisSetState inFunctionNode (inClassComponent classNode);
    Enter thisExpression inFunctionNode (inClassComponent classNode);
    Enter setState inFunctionNode (inClassComponent classNode);
    Enter updater inUpdater (inClassComponent classNode);
    Enter s inUpdater (inClassComponent classNode);
    Enter defaultP inUpdater (inClassComponent classNode);
    Enter p inUpdater (inClassComponent classNode);
    Enter emptyObject inUpdater (inClassComponent classNode);
    Enter thisPropsName inUpdater (inClassComponent classNode);
    Enter thisProps inUpdater (inClassComponent classNode);
    Enter innerThis inUpdater (inClassComponent classNode);
    Enter propsId inUpdater (inClassComponent classNode);
    Enter nameId inUpdater (inClassComponent classNode);
    Exit inProgram noComponent ].

(** The registry once the component detection has seen the component. *)
Definition registry : Components.t := [detected classNode].

End UpdaterDefault.

(** *** class A extends C { m() { this.setState(u, () => this.props.x); } } *)
Module CallbackReads.

Definition source : string :=
  "class A extends C { m() { this.setState(u, () => this.props.x); } }".

Definition classNameAst : Ast :=
  withName "A" (blank 3 "Identifier" 6 7).
Definition superClassAst : Ast :=
  withName "C" (blank 4 "Identifier" 16 17).
Definition methodNameAst : Ast :=
  withName "m" (blank 7 "Identifier" 20 21).
Definition thisExpressionAst : Ast :=
  blank 13 "ThisExpression" 26 30.
Definition setStateAst : Ast :=
  withName "setState" (blank 14 "Identifier" 31 39).
Definition thisSetStateAst : Ast :=
  withProperty setStateAst (withObject thisExpressionAst (blank 12 "MemberExpression" 26 39)).
Definition uAst : Ast :=
  withName "u" (blank 15 "Identifier" 40 41).
Definition innerThisAst : Ast :=
  blank 19 "ThisExpression" 49 53.
Definition propsIdAst : Ast :=
  withName "props" (blank 20 "Identifier" 54 59).
Definition thisPropsAst : Ast :=
  withProperty propsIdAst (withObject innerThisAst (blank 18 "MemberExpression" 49 59)).
Definition xAst : Ast :=
  withName "x" (blank 21 "Identifier" 60 61).
Definition thisPropsXAst : Ast :=
  withProperty xAst (withObject thisPropsAst (blank 17 "MemberExpression" 49 61)).
Definition callbackAst : Ast :=
  withParams [] (blank 16 "ArrowFunctionExpression" 43 61).
Definition callAst : Ast :=
  withArguments [uAst; callbackAst] (withCallee thisSetStateAst (blank 11 "CallExpression" 26 62)).
Definition statementAst : Ast :=
  blank 10 "ExpressionStatement" 26 63.
Definition blockAst : Ast :=
  blank 9 "BlockStatement" 24 65.
Definition functionNodeAst : Ast :=
  withParams [] (blank 8 "FunctionExpression" 21 65).
Definition methodAst : Ast :=
  withKey methodNameAst (withKind "method" (blank 6 "MethodDefinition" 20 65)).
Definition classBodyAst : Ast :=
  blank 5 "ClassBody" 18 67.
Definition classNodeAst : Ast :=
  withId classNameAst (blank 2 "ClassDeclaration" 0 67).
Definition programAst : Ast :=
  blank 1 "Program" 0 67.

Definition program : Node := mkNode programAst None.
Definition classNode : Node := mkNode classNodeAst (Some program).
Definition className : Node := mkNode classNameAst (Some classNode).
Definition superClass : Node := mkNode superClassAst (Some classNode).
Definition classBody : Node := mkNode classBodyAst (Some classNode).
Definition method : Node := mkNode methodAst (Some classBody).
Definition methodName : Node := mkNode methodNameAst (Some method).
Definition functionNode : Node := mkNode functionNodeAst (Some method).
Definition block : Node := mkNode blockAst (Some functionNode).
Definition statement : Node := mkNode statementAst (Some block).
Definition call : Node := mkNode callAst (Some statement).
Definition thisSetState : Node := mkNode thisSetStateAst (Some call).
Definition thisExpression : Node := mkNode thisExpressionAst (Some thisSetState).
Definition setState : Node := mkNode setStateAst (Some thisSetState).
Definition u : Node := mkNode uAst (Some call).
Definition callback : Node := mkNode callbackAst (Some call).
Definition thisPropsX : Node := mkNode thisPropsXAst (Some callback).
Definition thisProps : Node := mkNode thisPropsAst (Some thisPropsX).
Definition innerThis : Node := mkNode innerThisAst (Some thisProps).
Definition propsId : Node := mkNode propsIdAst (Some thisProps).
Definition x : Node := mkNode xAst (Some thisPropsX).

Definition programScope : Scope := mkScope (Some program) None.
Definition classNodeScope : Scope := mkScope (Some classNode) (Some programScope).
Definition functionNodeScope : Scope := mkScope (Some functionNode) (Some classNodeScope).
Definition callbackScope : Scope := mkScope (Some callback) (Some functionNodeScope).

Definition inProgram : Context :=
  Build_Context (Some programScope) source exampleTokens.
Definition inClassNode : Context :=
  Build_Context (Some classNodeScope) source exampleTokens.
Definition inFunctionNode : Context :=
  Build_Context (Some functionNodeScope) source exampleTokens.
Definition inCallback : Context :=
  Build_Context (Some callbackScope) source exampleTokens.

(** The visits of a depth-first traversal, in order. *)
Definition sourceUnit : list Visit :=
  [ Enter program inProgram noComponent;
    Enter classNode inClassNode (inClassComponent classNode);
    Enter className inClassNode (inClassComponent classNode);
    Enter superClass inClassNode (inClassComponent classNode);
    Enter classBody inClassNode (inClassComponent classNode);
    Enter method inClassNode (inClassComponent classNode);
    Enter methodName inClassNode (inClassComponent classNode);
    Enter functionNode inFunctionNode (inClassComponent classNode);
    Enter block inFunctionNode (inClassComponent classNode);
    Enter statement inFunctionNode (inClassComponent classNode);
    Enter call inFunctionNode (inClassComponent classNode);
    Enter thisSetState inFunctionNode (inClassComponent classNode);
    Enter thisExpression inFunctionNode (inClassComponent classNode);
    Enter setState inFunctionNode (inClassComponent classNode);
    Enter u inFunctionNode (inClassComponent classNode);
    Enter callback inCallback (inClassComponent classNode);
    Enter thisPropsX inCallback (inClassComponent classNode);
    Enter thisProps inCallback (inClassComponent classNode);
    Enter innerThis inCallback (inClassComponent classNode);
    Enter propsId inCallback (inClassComponent classNode);
    Enter x inCallback (inClassComponent classNode);
    Exit inProgram noComponent ].

(** The registry once the component detection has seen the component. *)
Definition registry : Components.t := [detected classNode].

End CallbackReads.

(** *** function C(props) { return <i/>; } C.propTypes = { a: function(props) { return <b {...props}/>; } }; *)
Module ValidatorSpread.

Definition source : string :=
  "function C(props) { return <i/>; } C.propTypes = { a: function(props) { return <b {...props}/>; } };".

Definition functionNameAst : Ast :=
  withName "C" (blank 3 "Identifier" 9 10).
Definition paramAst : Ast :=
  withName "props" (blank 4 "Identifier" 11 16).
Definition tagAst : Ast :=
  withName "i" (blank 9 "JSXIdentifier" 28 29).
Definition openingAst : Ast :=
  blank 8 "JSXOpeningElement" 27 31.
Definition elementAst : Ast :=
  blank 7 "JSXElement" 27 31.
Definition returnStatementAst : Ast :=
  blank 6 "ReturnStatement" 20 32.
Definition blockAst : Ast :=
  blank 5 "BlockStatement" 18 34.
Definition functionNodeAst : Ast :=
  withParams [paramAst] (withId functionNameAst (blank 2 "FunctionDeclaration" 0 34)).
Definition targetCAst : Ast :=
  withName "C" (blank 13 "Identifier" 35 36).
Definition propTypesAst : Ast :=
  withName "propTypes" (blank 14 "Identifier" 37 46).
Definition targetAst : Ast :=
  withProperty propTypesAst (withObject targetCAst (blank 12 "MemberExpression" 35 46)).
Definition keyAAst : Ast :=
  withName "a" (blank 17 "Identifier" 51 52).
Definition validatorParamAst : Ast :=
  withName "props" (blank 19 "Identifier" 63 68).
Definition validatorTagAst : Ast :=
  withName "b" (blank 24 "JSXIdentifier" 80 81).
Definition spreadPropsAst : Ast :=
  withName "props" (blank 26 "Identifier" 86 91).
Definition spreadAst : Ast :=
  blank 25 "JSXSpreadAttribute" 82 92.
Definition validatorOpeningAst : Ast :=
  blank 23 "JSXOpeningElement" 79 94.
Definition validatorElementAst : Ast :=
  blank 22 "JSXElement" 79 94.
Definition validatorReturnAst : Ast :=
  blank 21 "ReturnStatement" 72 95.
Definition validatorBlockAst : Ast :=
  blank 20 "BlockStatement" 70 97.
Definition validatorAst : Ast :=
  withParams [validatorParamAst] (blank 18 "FunctionExpression" 54 97).
Definition propertyAAst : Ast :=
  withValue (VNode validatorAst) (withKey keyAAst (withKind "init" (blank 16 "Property" 51 97))).
Definition declaredAst : Ast :=
  withProperties [propertyAAst] (blank 15 "ObjectExpression" 49 99).
Definition assignmentAst : Ast :=
  blank 11 "AssignmentExpression" 35 99.
Definition statementAst : Ast :=
  blank 10 "ExpressionStatement" 35 100.
Definition programAst : Ast :=
  blank 1 "Program" 0 100.

Definition program : Node := mkNode programAst None.
Definition functionNode : Node := mkNode functionNodeAst (Some program).
Definition functionName : Node := mkNode functionNameAst (Some functionNode).
Definition param : Node := mkNode paramAst (Some functionNode).
Definition block : Node := mkNode blockAst (Some functionNode).
Definition returnStatement : Node := mkNode returnStatementAst (Some block).
Definition element : Node := mkNode elementAst (Some returnStatement).
Definition opening : Node := mkNode openingAst (Some element).
Definition tag : Node := mkNode tagAst (Some opening).
Definition statement : Node := mkNode statementAst (Some program).
Definition assignment : Node := mkNode assignmentAst (Some statement).
Definition target : Node := mkNode targetAst (Some assignment).
Definition targetC : Node := mkNode targetCAst (Some target).
Definition propTypes : Node := mkNode propTypesAst (Some target).
Definition declared : Node := mkNode declaredAst (Some assignment).
Definition propertyA : Node := mkNode propertyAAst (Some declared).
Definition keyA : Node := mkNode keyAAst (Some propertyA).
Definition validator : Node := mkNode validatorAst (Some propertyA).
Definition validatorParam : Node := mkNode validatorParamAst (Some validator).
Definition validatorBlock : Node := mkNode validatorBlockAst (Some validator).
Definition validatorReturn : Node := mkNode validatorReturnAst (Some validatorBlock).
Definition validatorElement : Node := mkNode validatorElementAst (Some validatorReturn).
Definition validatorOpening : Node := mkNode validatorOpeningAst (Some validatorElement).
Definition validatorTag : Node := mkNode validatorTagAst (Some validatorOpening).
Definition spread : Node := mkNode spreadAst (Some validatorOpening).
Definition spreadProps : Node := mkNode spreadPropsAst (Some spread).

Definition programScope : Scope := mkScope (Some program) None.
Definition functionNodeScope : Scope := mkScope (Some functionNode) (Some programScope).
Definition validatorScope : Scope := mkScope (Some validator) (Some programScope).

Definition inProgram : Context :=
  Build_Context (Some programScope) source exampleTokens.
Definition inFunctionNode : Context :=
  Build_Context (Some functionNodeScope) source exampleTokens.
Definition inValidator : Context :=
  Build_Context (Some validatorScope) source exampleTokens.

(** The visits of a depth-first traversal, in order. *)
Definition sourceUnit : list Visit :=
  [ Enter program inProgram noComponent;
    Enter functionNode inFunctionNode (inFunctionComponent functionNode);
    Enter functionName inFunctionNode (inFunctionComponent functionNode);
    Enter param inFunctionNode (inFunctionComponent functionNode);
    Enter block inFunctionNode (inFunctionComponent functionNode);
    Enter returnStatement inFunctionNode (inFunctionComponent functionNode);
    Enter element inFunctionNode (inFunctionComponent functionNode);
    Enter opening inFunctionNode (inFunctionComponent functionNode);
    Enter tag inFunctionNode (inFunctionComponent functionNode);
    Enter statement inProgram noComponent;
    Enter assignment inProgram noComponent;
    Enter target inProgram noComponent;
    Enter targetC inProgram noComponent;
    Enter propTypes inProgram noComponent;
    Enter declared inProgram noComponent;
    Enter propertyA inProgram noComponent;
    Enter keyA inProgram noComponent;
    Enter validator inValidator (inFunctionComponent validator);
    Enter validatorParam inValidator (inFunctionComponent validator);
    Enter validatorBlock inValidator (inFunctionComponent validator);
    Enter validatorReturn inValidator (inFunctionComponent validator);
    Enter validatorElement inValidator (inFunctionComponent validator);
    Enter validatorOpening inValidator (inFunctionComponent validator);
    Enter validatorTag inValidator (inFunctionComponent validator);
    Enter spread inValidator (inFunctionComponent validator);
    Enter spreadProps inValidator (inFunctionComponent validator);
    Exit inProgram noComponent ].

(** The registry once the component detection has seen the two functions
    and the prop types declared for [C]. *)
Definition registry : Components.t :=
  [Component.mk functionNode None None false (Some [("a", Some propertyA)]);
   detected validator].

End ValidatorSpread.

(* ------------------------------------------------------------------ *)
(** ** Vocabulary of the properties *)
(* ------------------------------------------------------------------ *)

(** The suppress flag and the usage list of the registry entry with
    identity [k]. *)
Definition flagged (components : Components.t) (k : nat) : bool :=
  ignoredOf (Components.lookup k components).

Definition usages (components : Components.t) (k : nat) : list UsageRecord.t :=
  usedOf (Components.lookup k components).

(** Two registries that hold the same usage lists and the same flags. *)
Definition sameUsage (a b : Components.t) : Prop :=
  forall k, usages a k = usages b k /\ flagged a k = flagged b k.

(** An owning component is open and registered at the current position. *)
Definition ownerOpen (utils : Utils) (components : Components.t) : Prop :=
  Components.get (getParentComponent utils) components <> None.

(** The identities of a node and of its ancestors. *)
Fixpoint chainUids (node : Node) : list nat :=
  uid node ::
  match parent node with
  | Some p => chainUids p
  | None => []
  end.

(** The scopes of a chain, innermost first. *)
Fixpoint scopeChain (scope : Scope) : list Scope :=
  scope ::
  match upper scope with
  | Some u => scopeChain u
  | None => []
  end.

Definition scopesOf (context : Context) : list Scope :=
  match getScope context with
  | Some scope => scopeChain scope
  | None => []
  end.

(** The block of the scope is, by position, the first argument of a call
    whose callee is a member access named [setState]. *)
Definition FirstArgumentOfSetState (scope : Scope) : Prop :=
  exists b call c prop arg0 rest,
    block scope = Some b /\ parent b = Some call /\
    type call = "CallExpression" /\ callee call = Some c /\
    property c = Some prop /\ name prop = Some "setState" /\
    arguments call = Some (arg0 :: rest) /\ start arg0 = start b.

(** The types of node [markPropTypesAsUsed] handles. *)
Definition handledTypes : list string :=
  ["MemberExpression"; "ArrowFunctionExpression"; "FunctionDeclaration";
   "FunctionExpression"; "VariableDeclarator"].

(** Every entry of [a] is still an entry of [b]. *)
Definition kept (a b : Components.t) : Prop :=
  forall k, Components.lookup k a <> None -> Components.lookup k b <> None.

(** A computation never removes an entry and never resets a suppress flag,
    provided an owning component is open or the entry is not one of the raw
    nodes [K] the computation may fall back to as registry key. *)
Definition Monotone {A} (utils : Utils) (K : list nat) (m : M A) : Prop :=
  forall components,
    kept components (snd (m components)) /\
    forall k,
      ownerOpen utils components \/ ~ In k K ->
      flagged components k = true ->
      flagged (snd (m components)) k = true.



Definition utilsOf (visit : Visit) : Utils :=
  match visit with
  | Enter _ _ utils => utils
  | Exit _ utils => utils
  end.


(** A registry entry that already holds usages and a flag. *)
Definition seen (c : Node) (used : list UsageRecord.t) (flag : bool) : Component.t :=
  Component.mk c (Some used) (Some flag) false None.

(** A usage recorded earlier in the traversal, for the examples. *)
Definition earlierUsage : UsageRecord.t :=
  UsageRecord.mk (Some "title") [Some "title"] None.

(** [markPropTypesAsUsed] at [node.parent], as the marker passes it to its
    own body. *)
Definition markParentOf (astUtil : AstUtil) (check : bool) (context : Context)
    (utils : Utils) (node : Node) : option (list string -> M unit) :=
  match parent node with
  | Some p => Some (markPropTypesAsUsed astUtil check context utils p)
  | None => None
  end.

(** The chain continuation of a member access resolved to [name]: the
    recursive call of the marker on the parent access, when there is one. *)
Definition continuation (astUtil : AstUtil) (check : bool) (context : Context)
    (utils : Utils) (node : Node) (parentNames : list string) (name : string) : M unit :=
  followChain (markParentOf astUtil check context utils node) node (parentNames ++ [name]).

(** A resolved name that the second [switch] records: not the computed
    marker and not a property of [Object.prototype]. *)
Definition recordable (n : string) : bool :=
  negb (n =? COMPUTED_PROP) && negb (inObjectPrototype n).

(** [Chain node names]: starting at the member access [node], the accesses
    met by going from each access to the parent access of which it is the
    object resolve, in order, to [names].  The chain ends at an access whose
    parent is not such a continuation, or at an access that resolves to no
    name and is not the initializer of a destructuring pattern. *)
Inductive Chain (astUtil : AstUtil) (check : bool) (context : Context) (utils : Utils)
  : Node -> list string -> Prop :=
| Chain_stop (node p : Node) (o : option string) :
    type node = "MemberExpression" ->
    getPropertyName node context utils check = Ok o ->
    truthy o = false ->
    parent node = Some p ->
    destructuredBy astUtil context p = None ->
    Chain astUtil check context utils node []
| Chain_last (node p : Node) (n : string) :
    type node = "MemberExpression" ->
    getPropertyName node context utils check = Ok (Some n) ->
    n <> "" ->
    parent node = Some p ->
    continuesChain node p = false ->
    Chain astUtil check context utils node [n]
| Chain_step (node p : Node) (n : string) (names : list string) :
    type node = "MemberExpression" ->
    getPropertyName node context utils check = Ok (Some n) ->
    n <> "" ->
    parent node = Some p ->
    continuesChain node p = true ->
    Chain astUtil check context utils p names ->
    Chain astUtil check context utils node (n :: names).

(** The name and the path of the usages a chain records under the parent
    names [parentNames]: the deepest access first, one usage per recordable
    name. *)
Fixpoint chainUsages (parentNames names : list string) : list (string * list string) :=
  match names with
  | [] => []
  | n :: rest =>
      chainUsages (parentNames ++ [n]) rest
      ++ (if recordable n then [(n, parentNames ++ [n])] else [])
  end.

Definition nameAndPath (u : UsageRecord.t) : option string * list (option string) :=
  (UsageRecord.name u, UsageRecord.allNames u).

Definition asRecorded (u : string * list string) : option string * list (option string) :=
  (Some (fst u), map Some (snd u)).

(** The usages the ['destructuring'] case records for the fields [fields] of
    a pattern: one per field whose key has a name, under the names [names]
    that lead from the props root to the destructured access. *)
Definition fieldUsages (astUtil : AstUtil) (context : Context)
    (names : list (option string)) (fields : list Ast) : list UsageRecord.t :=
  flat_map
    (fun field =>
       let propName := getKeyValue astUtil context field in
       if truthy propName
       then [UsageRecord.mk propName (names ++ [propName]) (Some field)]
       else [])
    fields.

(** A field that ends the marking of a pattern: it starts with the spread
    token or its key is computed. *)
Definition unsound (context : Context) (field : Ast) : bool :=
  hasSpreadOperator context field || computed field.

(** The property parameter as the specification words it: the second
    parameter in an updater with at least two parameters, otherwise the
    first. *)
Definition claimedPropParam (inUpdater : bool) (params : list Ast) : option Ast :=
  if inUpdater && Nat.leb 2 (List.length params)
  then nth_error params 1
  else nth_error params 0.

(** The cases of [markPropTypesAsUsed] for function-like nodes. *)
Definition functionTypes : list string :=
  ["ArrowFunctionExpression"; "FunctionDeclaration"; "FunctionExpression"].

(** A string of white space only. *)
Fixpoint allWhiteSpace (s : string) : bool :=
  match s with
  | EmptyString => true
  | String c r => isWhiteSpace c && allWhiteSpace r
  end.

(** A method name that counts as a lifecycle method under the feature gate. *)
Definition lifeCycleName (checkAsyncSafeLifeCycles : bool) (n : option string) : bool :=
  includes LIFE_CYCLE_METHODS n
  || (checkAsyncSafeLifeCycles && includes ASYNC_SAFE_LIFE_CYCLE_METHODS n).

(** A node and its ancestors, innermost first. *)
Fixpoint ancestorsOrSelf (node : Node) : list Node :=
  node ::
  match parent node with
  | Some p => ancestorsOrSelf p
  | None => []
  end.

(** The fields of a pattern that the ['destructuring'] loop reaches: those
    before the first field with a spread marker or a computed key. *)
Fixpoint soundPrefix (context : Context) (fields : list Ast) : list Ast :=
  match fields with
  | [] => []
  | field :: rest =>
      if unsound context field then [] else field :: soundPrefix context rest
  end.

(** The key of a pattern property is [props], as an identifier or as a
    string. *)
Definition keyedProps (property : Ast) : bool :=
  match key property with
  | Some k =>
      isStr (name k) "props"
      || match value k with Some (VString s) => s =? "props" | _ => false end
  | None => false
  end.

(** The pattern of a parameter: the parameter itself, or the left-hand side
    of its default value. *)
Definition patternFields (param : Ast) : option (list Ast) :=
  if type param =? "AssignmentPattern"
  then match left param with Some l => properties l | None => None end
  else properties param.

Definition orEmpty (fields : option (list Ast)) : list Ast :=
  match fields with Some l => l | None => [] end.

(** A computation that, with the owning component [g] open, only appends to
    the usage list of [g] and touches no other entry of the registry. *)
Definition Appends {A} (utils : Utils) (g : Node) (m : M A) : Prop :=
  forall components,
    ownerOpen utils components ->
    ownerOpen utils (snd (m components)) /\
    (exists added,
        usages (snd (m components)) (uid g) = usages components (uid g) ++ added) /\
    (forall k, k <> uid g ->
       Components.lookup k (snd (m components)) = Components.lookup k components).

(** A result that, when it is an exception, is a [TypeError], and a
    computation all of whose exceptions are. *)
Definition onlyTypeError {A} (r : Result A) : Prop :=
  forall e, r = Throw e -> e = TypeError.

Definition OnlyTypeError {A} (m : M A) : Prop :=
  forall components, onlyTypeError (fst (m components)).




(** [PropsPath node names]: going down from the access [node] through its
    objects, [names] are the names of the keys met before the first node
    whose key is named props or that has no key at all; the key of [node]
    itself comes last. *)
Inductive PropsPath : Ast -> list (option string) -> Prop :=
| PropsPath_root (node : Ast) :
    match property node with
    | Some p => name p = Some "props"
    | None => True
    end ->
    PropsPath node []
| PropsPath_key (node o p : Ast) (names : list (option string)) :
    property node = Some p ->
    name p <> Some "props" ->
    object node = Some o ->
    PropsPath o names ->
    PropsPath node (names ++ [name p]).





(* ================================================================== *)
(** * Properties *)
(* ================================================================== *)

Unset Implicit Arguments.

(* ------------------------------------------------------------------ *)
(** ** The registry: lookup after a merge *)
(* ------------------------------------------------------------------ *)

Lemma lookup_uid k components c :
  Components.lookup k components = Some c -> uid (Component.node c) = k.
Proof.
  induction components as [|d rest IH]; simpl; [discriminate|].
  destruct (Nat.eqb_spec (uid (Component.node d)) k) as [E|E].
  - intros H. congruence.
  - exact IH.
Qed.

Lemma lookup_set_same (key : Node) props components :
  Components.lookup (uid key) (Components.set key props components) =
  Some (match Components.lookup (uid key) components with
        | Some c => Components.merge c props
        | None => Components.fresh key props
        end).
Proof.
  induction components as [|d rest IH]; simpl.
  - rewrite Nat.eqb_refl. reflexivity.
  - destruct (Nat.eqb_spec (uid (Component.node d)) (uid key)) as [E|E]; simpl.
    + rewrite E, Nat.eqb_refl. reflexivity.
    + destruct (Nat.eqb_spec (uid (Component.node d)) (uid key)); [contradiction|].
      exact IH.
Qed.

Lemma lookup_set_other k (key : Node) props components :
  k <> uid key ->
  Components.lookup k (Components.set key props components) =
  Components.lookup k components.
Proof.
  intros Hk. induction components as [|d rest IH]; simpl.
  - destruct (Nat.eqb_spec (uid key) k); [congruence|reflexivity].
  - destruct (Nat.eqb_spec (uid (Component.node d)) (uid key)) as [E|E]; simpl.
    + destruct (Nat.eqb_spec (uid (Component.node d)) k); [congruence|reflexivity].
    + destruct (Nat.eqb_spec (uid (Component.node d)) k); [reflexivity|exact IH].
Qed.

Lemma lookup_set_kept k (key : Node) props components :
  Components.lookup k components <> None ->
  Components.lookup k (Components.set key props components) <> None.
Proof.
  intros H. destruct (Nat.eq_dec k (uid key)) as [->|E].
  - rewrite lookup_set_same. discriminate.
  - rewrite lookup_set_other by exact E. exact H.
Qed.

Lemma get_owner_lookup utils components c :
  Components.get (getParentComponent utils) components = Some c ->
  Components.lookup (uid (Component.node c)) components = Some c.
Proof.
  unfold Components.get. destruct (getParentComponent utils) as [g|]; [|discriminate].
  intros H. rewrite (lookup_uid _ _ _ H). exact H.
Qed.

(* ------------------------------------------------------------------ *)
(** ** Unfolding the marker *)
(* ------------------------------------------------------------------ *)

Lemma markPropTypesAsUsed_unfold astUtil check context utils node parentNames :
  markPropTypesAsUsed astUtil check context utils node parentNames =
  markPropTypesAsUsed_body astUtil check context utils
    (match parent node with
     | Some p => Some (markPropTypesAsUsed astUtil check context utils p)
     | None => None
     end)
    node parentNames.
Proof. destruct node; reflexivity. Qed.

Lemma Node_parent_ind (P : Node -> Prop) :
  (forall n, (forall p, parent n = Some p -> P p) -> P n) -> forall n, P n.
Proof.
  intros H. fix IH 1. intros [a [p|]].
  - apply H. simpl. intros q Hq. injection Hq as <-. apply IH.
  - apply H. simpl. intros q Hq. discriminate Hq.
Qed.

(* ------------------------------------------------------------------ *)
(** ** Unhandled node types *)
(* ------------------------------------------------------------------ *)

(** C6. For every node whose type is none of the admitted ones
    (MemberExpression, ArrowFunctionExpression, FunctionDeclaration,
    FunctionExpression, VariableDeclarator), [markPropTypesAsUsed] throws the
    error "<type> ASTNodes are not handled by markPropTypesAsUsed", and the
    registry is left exactly as it was: no usage is appended and no
    component changes. *)
Theorem unhandled_node_throws astUtil check context utils
    (node : Node) (parentNames : list string) (components : Components.t) :
  ~ In (type node) handledTypes ->
  markPropTypesAsUsed astUtil check context utils node parentNames components =
  (Throw (Error (type node ++ " ASTNodes are not handled by markPropTypesAsUsed")),
   components).
Proof.
  intros H. rewrite markPropTypesAsUsed_unfold.
  unfold markPropTypesAsUsed_body, selectUsage, bind.
  assert (N : forall s, In s handledTypes -> (type node =? s) = false).
  { intros s Hs. apply String.eqb_neq. intros E. apply H. rewrite E. exact Hs. }
  rewrite !N by (simpl; tauto). simpl. reflexivity.
Qed.

Lemma unhandled_node_throws_witness :
  markPropTypesAsUsed exampleAstUtil true RenderName.inFunctionNode
    (inClassComponent RenderName.classNode) RenderName.nameId [] RenderName.registry =
  (Throw (Error "Identifier ASTNodes are not handled by markPropTypesAsUsed"),
   RenderName.registry).
Proof.
  apply (unhandled_node_throws exampleAstUtil true RenderName.inFunctionNode
           (inClassComponent RenderName.classNode) RenderName.nameId [] RenderName.registry).
  simpl. intros [H|[H|[H|[H|[H|[]]]]]]; discriminate H.
Defined.

(* ------------------------------------------------------------------ *)
(** ** Spread attributes *)
(* ------------------------------------------------------------------ *)

(** C10. Visiting a JSXSpreadAttribute inside a registered component merges
    only the suppress flag into that component's entry: the flag becomes
    true, the accumulated usedPropTypes and every other field of the entry
    stay as they were, and no other entry of the registry changes. *)
Theorem spread_attribute_sets_flag_only utils (node : Node) components c :
  Components.get (getParentComponent utils) components = Some c ->
  exists components',
    JSXSpreadAttribute utils node components = (Ok tt, components') /\
    Components.get (getParentComponent utils) components' =
      Some (Component.mk (Component.node c) (Component.usedPropTypes c) (Some true)
              (Component.ignorePropsValidation c) (Component.declaredPropTypes c)) /\
    forall k, k <> uid (Component.node c) ->
              Components.lookup k components' = Components.lookup k components.
Proof.
  intros H. unfold JSXSpreadAttribute, bind, gets, modify. rewrite H.
  eexists. split; [reflexivity|]. split.
  - pose proof (get_owner_lookup _ _ _ H) as L.
    unfold Components.get in *. destruct (getParentComponent utils) as [g|]; [|discriminate].
    rewrite <- (lookup_uid _ _ _ H), lookup_set_same, L. reflexivity.
  - intros k Hk. apply lookup_set_other. exact Hk.
Qed.

Lemma spread_attribute_sets_flag_only_witness :
  exists components',
    JSXSpreadAttribute (inFunctionComponent SpreadAttribute.functionNode)
      SpreadAttribute.spread [seen SpreadAttribute.functionNode [earlierUsage] false] =
    (Ok tt, components') /\
    Components.get (Some SpreadAttribute.functionNode) components' =
      Some (Component.mk SpreadAttribute.functionNode (Some [earlierUsage]) (Some true)
              false None) /\
    forall k, k <> 2 ->
              Components.lookup k components' =
              Components.lookup k [seen SpreadAttribute.functionNode [earlierUsage] false].
Proof.
  apply (spread_attribute_sets_flag_only
           (inFunctionComponent SpreadAttribute.functionNode) SpreadAttribute.spread
           [seen SpreadAttribute.functionNode [earlierUsage] false]
           (seen SpreadAttribute.functionNode [earlierUsage] false)).
  reflexivity.
Defined.

(* ------------------------------------------------------------------ *)
(** ** The suppress flag is never reset *)
(* ------------------------------------------------------------------ *)

Lemma kept_refl a : kept a a.
Proof. intros k H. exact H. Qed.

Lemma kept_trans a b c : kept a b -> kept b c -> kept a c.
Proof. intros H1 H2 k H. apply H2, H1, H. Qed.

Lemma kept_set (key : Node) props a : kept a (Components.set key props a).
Proof. intros k H. apply lookup_set_kept, H. Qed.

Lemma ownerOpen_kept utils a b : kept a b -> ownerOpen utils a -> ownerOpen utils b.
Proof.
  unfold ownerOpen, Components.get. intros K.
  destruct (getParentComponent utils) as [g|]; [apply K|auto].
Qed.

Section MonotoneRules.

Variable utils : Utils.
Variable K : list nat.

Lemma Monotone_still {A} (m : M A) :
  (forall components, snd (m components) = components) -> Monotone utils K m.
Proof.
  intros H components. rewrite H. split; [apply kept_refl|auto].
Qed.

Lemma Monotone_ret {A} (a : A) : Monotone utils K (ret a).
Proof. apply Monotone_still. reflexivity. Qed.

Lemma Monotone_throw {A} (e : Exn) : Monotone utils K (@throw A e).
Proof. apply Monotone_still. reflexivity. Qed.

Lemma Monotone_lift {A} (r : Result A) : Monotone utils K (lift r).
Proof. apply Monotone_still. reflexivity. Qed.


Lemma Monotone_bind {A B} (m : M A) (k : A -> M B) :
  Monotone utils K m -> (forall a, Monotone utils K (k a)) ->
  Monotone utils K (bind m k).
Proof.
  intros Hm Hk components. unfold bind.
  destruct (Hm components) as [K1 F1].
  destruct (m components) as [[a|e] s]; simpl in *.
  - destruct (Hk a s) as [K2 F2]. split.
    + eapply kept_trans; eassumption.
    + intros j Hj Hf. apply F2.
      * destruct Hj as [Hj|Hj]; [left; eapply ownerOpen_kept; eassumption|right; exact Hj].
      * apply F1; assumption.
  - split; assumption.
Qed.


End MonotoneRules.

Lemma Monotone_weaken {A} utils (K K' : list nat) (m : M A) :
  incl K K' -> Monotone utils K m -> Monotone utils K' m.
Proof.
  intros I H components. destruct (H components) as [H1 H2]. split; [exact H1|].
  intros k [Hk|Hk] Hf; apply H2; auto.
Qed.

Section MarkerMonotone.

Variable astUtil : AstUtil.
Variable check : bool.
Variable context : Context.
Variable utils : Utils.

Lemma markDestructured_flag node properties used flag l f :
  markDestructured astUtil context node properties used flag = Ok (l, f) ->
  flag = true -> f = true.
Proof.
  revert used. induction properties as [|p rest IH]; simpl; intros used H Hf.
  - inversion H; subst; reflexivity.
  - destruct (hasSpreadOperator context p || computed p).
    + inversion H; reflexivity.
    + destruct (namesToProps node); simpl in H; [|discriminate].
      eapply IH; eassumption.
Qed.

Lemma recordUsage_flag node vars used flag l f :
  recordUsage astUtil context utils node vars used flag = Ok (l, f) ->
  flag = true -> f = true.
Proof.
  unfold recordUsage. intros H Hf.
  destruct (Vars.type vars) as [[|]|].
  - destruct (match Vars.name vars with Some n => inObjectPrototype n | None => false end).
    + inversion H; subst; reflexivity.
    + destruct (negb _ && negb _ && negb _); simpl in H.
      * destruct (field (parent node)); simpl in H; inversion H; subst; reflexivity.
      * inversion H; subst; reflexivity.
  - eapply markDestructured_flag; eassumption.
  - inversion H; subst; reflexivity.
Qed.

Lemma storeUsage_Monotone (node : Node) vars :
  Monotone utils [uid node] (storeUsage astUtil context utils node vars).
Proof.
  intros components. unfold storeUsage, bind, gets, lift, modify.
  destruct (recordUsage astUtil context utils node vars
              (usedOf (Components.get (getParentComponent utils) components))
              (ignoredOf (Components.get (getParentComponent utils) components)))
    as [[l f]|e] eqn:R; simpl.
  2: { split; [apply kept_refl|auto]. }
  split; [apply kept_set|].
  intros k Hk Hf. unfold flagged in *.
  destruct (Components.get (getParentComponent utils) components) as [c|] eqn:G.
  - pose proof (get_owner_lookup _ _ _ G) as L.
    destruct (Nat.eq_dec k (uid (Component.node c))) as [->|E].
    + rewrite lookup_set_same, L. simpl.
      rewrite L in Hf. eapply recordUsage_flag; [exact R|exact Hf].
    + rewrite lookup_set_other by exact E. exact Hf.
  - destruct Hk as [Hk|Hk].
    + exfalso. apply Hk. exact G.
    + rewrite lookup_set_other; [exact Hf|]. simpl in Hk. intros E. apply Hk. left. auto.
Qed.

Lemma selectUsage_Monotone K markParent (node : Node) parentNames :
  (forall mark names, markParent = Some mark -> Monotone utils K (mark names)) ->
  Monotone utils K (selectUsage astUtil check context utils markParent node parentNames).
Proof.
  intros Hrec. unfold selectUsage.
  destruct (type node =? "MemberExpression").
  { apply Monotone_bind; [apply Monotone_lift|]. intros name.
    destruct (truthy name).
    - apply Monotone_bind; [|intros; apply Monotone_ret].
      unfold followChain. apply Monotone_bind; [apply Monotone_lift|]. intros p.
      destruct (continuesChain node p); [|apply Monotone_ret].
      destruct markParent as [mark|]; [|apply Monotone_ret].
      apply Hrec. reflexivity.
    - apply Monotone_bind; [apply Monotone_lift|]. intros p.
      destruct (destructuredBy astUtil context p); apply Monotone_ret. }
  destruct ((type node =? "ArrowFunctionExpression")
            || (type node =? "FunctionDeclaration")
            || (type node =? "FunctionExpression")).
  { apply Monotone_bind; [apply Monotone_lift|]. intros ps.
    destruct (Nat.eqb (List.length ps) 0); [apply Monotone_ret|].
    repeat (apply Monotone_bind; [apply Monotone_lift|]; intros ?).
    apply Monotone_ret. }
  destruct (type node =? "VariableDeclarator").
  { repeat (apply Monotone_bind; [apply Monotone_lift|]; intros ?).
    match goal with |- context [match ?x with _ => _ end] => destruct x end;
      apply Monotone_ret. }
  apply Monotone_throw.
Qed.

Lemma markPropTypesAsUsed_Monotone (node : Node) :
  forall parentNames,
    Monotone utils (chainUids node)
      (markPropTypesAsUsed astUtil check context utils node parentNames).
Proof.
  induction node as [node IH] using Node_parent_ind. intros parentNames.
  rewrite markPropTypesAsUsed_unfold. unfold markPropTypesAsUsed_body.
  apply Monotone_bind.
  - apply selectUsage_Monotone. intros mark names E.
    destruct (parent node) as [p|] eqn:P; [|discriminate].
    injection E as <-.
    apply Monotone_weaken with (K := chainUids p).
    + destruct node as [a q]. simpl in *. rewrite P. apply incl_tl, incl_refl.
    + apply IH. reflexivity.
  - intros vars. apply Monotone_weaken with (K := [uid node]).
    + destruct node as [a q]. simpl. intros x [<-|[]]. left. reflexivity.
    + apply storeUsage_Monotone.
Qed.

End MarkerMonotone.

Section HandlersMonotone.

Variable astUtil : AstUtil.
Variable check : bool.
Variable context : Context.
Variable utils : Utils.










End HandlersMonotone.




(* ------------------------------------------------------------------ *)
(** ** Member accesses that record nothing *)
(* ------------------------------------------------------------------ *)

Section MemberAccess.

Variable astUtil : AstUtil.
Variable check : bool.
Variable context : Context.
Variable utils : Utils.

Local Abbreviation mark := (markPropTypesAsUsed astUtil check context utils).

(** A member access resolved to a non-empty name: the marker follows the
    chain, then stores under type ['direct'], or under no type when the name
    is the computed marker. *)
Lemma mark_member_named (node : Node) parentNames n components :
  type node = "MemberExpression" ->
  getPropertyName node context utils check = Ok (Some n) ->
  n <> "" ->
  mark node parentNames components =
  bind (continuation astUtil check context utils node parentNames n)
    (fun _ =>
       storeUsage astUtil context utils node
         (Vars.mk (if negb (n =? COMPUTED_PROP) then Some direct else None)
            (Some n) (parentNames ++ [n]) None))
    components.
Proof.
  intros T G N. rewrite markPropTypesAsUsed_unfold.
  unfold markPropTypesAsUsed_body, selectUsage, continuation, markParentOf.
  rewrite T. simpl. unfold bind at 1 2. unfold lift at 1. rewrite G. simpl.
  apply String.eqb_neq in N. rewrite N. simpl.
  unfold bind. 
  destruct (followChain _ node (parentNames ++ [n]) components) as [[[]|e] s];
    reflexivity.
Qed.

Lemma continuation_kept (node : Node) parentNames n components :
  kept components (snd (continuation astUtil check context utils node parentNames n components)).
Proof.
  unfold continuation, followChain, markParentOf, bind, lift.
  destruct (parent node) as [p|]; simpl; [|apply kept_refl].
  destruct (continuesChain node p); [|apply kept_refl].
  apply (markPropTypesAsUsed_Monotone astUtil check context utils p).
Qed.

(** Storing when nothing was recorded re-stores the owner's list and flag. *)
Lemma storeUsage_nothing (node : Node) vars components c :
  Components.get (getParentComponent utils) components = Some c ->
  (forall used flag,
      recordUsage astUtil context utils node vars used flag = Ok (used, flag)) ->
  exists components',
    storeUsage astUtil context utils node vars components = (Ok tt, components') /\
    sameUsage components' components.
Proof.
  intros G R. unfold storeUsage, bind, gets, lift, modify. rewrite G, R. simpl.
  eexists. split; [reflexivity|].
  pose proof (get_owner_lookup _ _ _ G) as L.
  intros k. unfold usages, flagged.
  destruct (Nat.eq_dec k (uid (Component.node c))) as [->|E].
  - rewrite lookup_set_same, !L. simpl. split; reflexivity.
  - rewrite lookup_set_other by exact E. split; reflexivity.
Qed.

(** A member access whose name is not recorded (a method of
    [Object.prototype], or the computed marker): the marker does what the
    chain continuation does, and nothing more. *)
Lemma mark_member_unrecorded (node : Node) parentNames n components :
  type node = "MemberExpression" ->
  getPropertyName node context utils check = Ok (Some n) ->
  n <> "" ->
  n = COMPUTED_PROP \/ inObjectPrototype n = true ->
  ownerOpen utils components ->
  fst (mark node parentNames components) =
  fst (continuation astUtil check context utils node parentNames n components)
  /\
  sameUsage (snd (mark node parentNames components))
    (snd (continuation astUtil check context utils node parentNames n components)).
Proof.
  intros T G N U O. rewrite (mark_member_named _ _ _ _ T G N). unfold bind.
  pose proof (continuation_kept node parentNames n components) as Kp.
  destruct (continuation astUtil check context utils node parentNames n components)
    as [[[]|e] s]; simpl in *.
  2: { split; [reflexivity|]. intros k. split; reflexivity. }
  pose proof (ownerOpen_kept _ _ _ Kp O) as O'. unfold ownerOpen in O'.
  destruct (Components.get (getParentComponent utils) s) as [c|] eqn:Gs; [|congruence].
  destruct (storeUsage_nothing node
              (Vars.mk (if negb (n =? COMPUTED_PROP) then Some direct else None)
                 (Some n) (parentNames ++ [n]) None) s c Gs) as (s' & E & S).
  { intros used flag. unfold recordUsage. simpl.
    destruct U as [->|U].
    - rewrite String.eqb_refl. reflexivity.
    - destruct (negb (n =? COMPUTED_PROP)); [|reflexivity]. rewrite U. reflexivity. }
  rewrite E. simpl. split; [reflexivity|exact S].
Qed.

End MemberAccess.

Lemma inObjectPrototype_named n : inObjectPrototype n = true -> n <> "".
Proof. intros H ->. discriminate H. Qed.

Lemma continuation_stops astUtil check context utils (node p : Node) parentNames n components :
  parent node = Some p -> continuesChain node p = false ->
  continuation astUtil check context utils node parentNames n components = (Ok tt, components).
Proof.
  intros P C. unfold continuation, followChain, bind, lift. rewrite P. simpl. rewrite C.
  reflexivity.
Qed.

(** C9. A direct property access whose resolved name is a property of
    [Object.prototype] (hasOwnProperty, toString, constructor, valueOf, ...)
    records no usage: inside an open component, [markPropTypesAsUsed] on the
    access only does what the continuation of the chain does (the recursive
    call on the parent access, if the access is its object), and leaves
    every usage list and every flag as the continuation left them; when the
    chain does not continue, the registry holds the same usages and flags
    as before. *)
Theorem object_prototype_names_not_recorded astUtil check context utils
    (node : Node) parentNames n components :
  type node = "MemberExpression" ->
  getPropertyName node context utils check = Ok (Some n) ->
  inObjectPrototype n = true ->
  ownerOpen utils components ->
  (fst (markPropTypesAsUsed astUtil check context utils node parentNames components) =
   fst (continuation astUtil check context utils node parentNames n components)
   /\
   sameUsage
     (snd (markPropTypesAsUsed astUtil check context utils node parentNames components))
     (snd (continuation astUtil check context utils node parentNames n components)))
  /\
  (forall p, parent node = Some p -> continuesChain node p = false ->
     sameUsage
       (snd (markPropTypesAsUsed astUtil check context utils node parentNames components))
       components).
Proof.
  intros T G U O.
  pose proof (mark_member_unrecorded astUtil check context utils node parentNames n
                components T G (inObjectPrototype_named _ U) (or_intror U) O) as H.
  split; [exact H|].
  intros p P C. destruct H as [_ H].
  rewrite (continuation_stops astUtil check context utils node p parentNames n components
             P C) in H.
  exact H.
Qed.

Lemma object_prototype_names_not_recorded_witness :
  sameUsage
    (snd (markPropTypesAsUsed exampleAstUtil true ObjectMethod.inFunctionNode
            (inFunctionComponent ObjectMethod.functionNode)
            ObjectMethod.propsHasOwnProperty []
            [seen ObjectMethod.functionNode [earlierUsage] false]))
    [seen ObjectMethod.functionNode [earlierUsage] false].
Proof.
  apply (object_prototype_names_not_recorded exampleAstUtil true
           ObjectMethod.inFunctionNode (inFunctionComponent ObjectMethod.functionNode)
           ObjectMethod.propsHasOwnProperty [] "hasOwnProperty"
           [seen ObjectMethod.functionNode [earlierUsage] false])
    with (p := ObjectMethod.statement).
  - reflexivity.
  - vm_compute. reflexivity.
  - reflexivity.
  - unfold ownerOpen. simpl. discriminate.
  - reflexivity.
  - reflexivity.
Defined.

(* ------------------------------------------------------------------ *)
(** ** Computed keys *)
(* ------------------------------------------------------------------ *)

(** Where the resolver looks for the key: the access itself when it is
    rooted at props, nextProps or prevProps (or at the props parameter of an
    updater), its parent otherwise.  A computed key that is neither a string
    literal nor a member access resolves to the computed marker, unless the
    access is a bare props read of a class component outside constructor,
    lifecycle methods and updaters. *)
Lemma computed_key_resolves_to_marker (node target : Node) (k : Ast) context utils check
    (setStateProp inUpdater : bool) :
  isPropArgumentInSetStateUpdater context node = Ok setStateProp ->
  inSetStateUpdater context = Ok inUpdater ->
  let direct :=
    DIRECT_PROPS_REGEX (getText context node)
    || DIRECT_NEXT_PROPS_REGEX (getText context node)
    || DIRECT_PREV_PROPS_REGEX (getText context node)
    || setStateProp in
  direct
  && (isSome (getParentES6Component utils) || isSome (getParentES5Component utils))
  && negb (inConstructor utils (Some node))
  && negb (inLifeCycleMethod context check)
  && negb inUpdater = false ->
  (if direct then Some node else parent node) = Some target ->
  property target = Some k ->
  computed target = true ->
  type k <> "MemberExpression" ->
  (type k = "Literal" -> forall s, value k <> Some (VString s)) ->
  getPropertyName node context utils check = Ok (Some COMPUTED_PROP).
Proof.
  intros SP U direct E T P C NM NL. unfold getPropertyName.
  rewrite SP, U. simpl. fold direct. rewrite E.
  assert (D : negb (DIRECT_PROPS_REGEX (getText context node))
              && negb (DIRECT_NEXT_PROPS_REGEX (getText context node))
              && negb (DIRECT_PREV_PROPS_REGEX (getText context node))
              && negb setStateProp = negb direct).
  { unfold direct. rewrite !negb_orb. reflexivity. }
  rewrite D. 
  assert (F : (if negb direct then field (parent node) else Ok node) = Ok target).
  { destruct direct; simpl; [congruence|]. rewrite T. reflexivity. }
  rewrite F. simpl. rewrite P, C.
  destruct (type k =? "Identifier"); [reflexivity|].
  apply String.eqb_neq in NM. rewrite NM.
  destruct (type k =? "Literal") eqn:L.
  - apply String.eqb_eq in L. specialize (NL L).
    destruct (value k) as [[s|raw|v]|]; try reflexivity. exfalso. apply (NL s). reflexivity.
  - reflexivity.
Qed.

(** In [function F(props) { return props[x]; }] the access [props[x]] has a
    computed key that is an identifier; marking it inside the registered
    component [F] leaves the suppress flag of [F] unset, and so does the whole
    traversal.  And in [function F(props) { const {c, ...r} = props[a.b]; }]
    the computed key [a.b] is a member access: the access resolves to no
    name and the pattern that destructures it is marked, which records [c]
    (and, for the rest element, sets the flag). *)
Lemma computed_key_leaves_flag_unset :
  getPropertyName ComputedKey.propsX ComputedKey.inFunctionNode
    (inFunctionComponent ComputedKey.functionNode) true = Ok (Some COMPUTED_PROP)
  /\
  markPropTypesAsUsed exampleAstUtil true ComputedKey.inFunctionNode
    (inFunctionComponent ComputedKey.functionNode) ComputedKey.propsX []
    ComputedKey.registry =
  (Ok tt, [seen ComputedKey.functionNode [] false])
  /\
  flagged
    (snd (traverse exampleAstUtil true ComputedKey.sourceUnit ComputedKey.registry))
    (uid ComputedKey.functionNode) = false
  /\
  markPropTypesAsUsed exampleAstUtil true MemberKey.inFunctionNode
    (inFunctionComponent MemberKey.functionNode) MemberKey.propsAB [] MemberKey.registry =
  (Ok tt,
   [seen MemberKey.functionNode
      [UsageRecord.mk (Some "c") [None; Some "c"] (Some MemberKey.fieldCAst)] true]).
Proof. repeat split; vm_compute; reflexivity. Qed.

(* ------------------------------------------------------------------ *)
(** ** Chains of member accesses *)
(* ------------------------------------------------------------------ *)

Lemma chainUsages_head parentNames names :
  names <> [] ->
  recordable (last names "") = true ->
  exists others,
    chainUsages parentNames names =
    (last names "", parentNames ++ names) :: others.
Proof.
  revert parentNames. induction names as [|n rest IH]; intros parentNames H R.
  - contradiction.
  - destruct rest as [|m rest'].
    + simpl in *. rewrite R. exists []. reflexivity.
    + destruct (IH (parentNames ++ [n])) as [others E]; [discriminate|exact R|].
      exists (others ++ (if recordable n then [(n, parentNames ++ [n])] else [])).
      change (chainUsages parentNames (n :: m :: rest'))
        with (chainUsages (parentNames ++ [n]) (m :: rest')
              ++ (if recordable n then [(n, parentNames ++ [n])] else [])).
      rewrite E. rewrite <- app_assoc. reflexivity.
Qed.

(** The owner's entry after a merge of a usage list and a flag. *)
Lemma set_owner (g : Node) components c :
  Components.lookup (uid g) components = Some c ->
  uid (Component.node c) = uid g ->
  forall l f,
    let components' :=
      Components.set (Component.node c) (Props.mk (Some l) (Some f)) components in
    usages components' (uid g) = l /\
    flagged components' (uid g) = f /\
    (forall k, k <> uid g -> Components.lookup k components' = Components.lookup k components) /\
    kept components components'.
Proof.
  intros L I l f components'. unfold components', usages, flagged.
  rewrite <- I. rewrite lookup_set_same. rewrite I, L. simpl.
  repeat split.
  - intros k Ek. apply lookup_set_other. rewrite I. exact Ek.
  - apply kept_set.
Qed.

(** A member access that resolves to no name: the marker stores under type
    ['destructuring'] when the parent destructures the access, and under no
    type otherwise. *)
Lemma mark_member_unnamed astUtil check context utils (node p : Node) o parentNames
    components :
  type node = "MemberExpression" ->
  getPropertyName node context utils check = Ok o ->
  truthy o = false ->
  parent node = Some p ->
  markPropTypesAsUsed astUtil check context utils node parentNames components =
  storeUsage astUtil context utils node
    (match destructuredBy astUtil context p with
     | Some properties => Vars.mk (Some destructuring) o [] (Some properties)
     | None => Vars.mk None o [] None
     end)
    components.
Proof.
  intros T G F P. rewrite markPropTypesAsUsed_unfold.
  unfold markPropTypesAsUsed_body, selectUsage. rewrite T. simpl.
  unfold bind, lift. rewrite G, F, P. simpl.
  destruct (destructuredBy astUtil context p); reflexivity.
Qed.

Section Chains.

Variable astUtil : AstUtil.
Variable check : bool.
Variable context : Context.
Variable utils : Utils.
Variable g : Node.
Hypothesis owner : getParentComponent utils = Some g.

Local Abbreviation mark := (markPropTypesAsUsed astUtil check context utils).

Lemma owner_found components :
  ownerOpen utils components ->
  exists c, Components.get (getParentComponent utils) components = Some c /\
            Components.lookup (uid g) components = Some c /\
            uid (Component.node c) = uid g.
Proof.
  unfold ownerOpen. rewrite owner. simpl. intros O.
  destruct (Components.lookup (uid g) components) as [c|] eqn:L; [|congruence].
  exists c. repeat split. apply (lookup_uid _ _ _ L).
Qed.

(** Storing a ['direct'] usage appends exactly one record to the owner. *)
Lemma storeUsage_direct (node p : Node) n allNames components :
  ownerOpen utils components ->
  inObjectPrototype n = false ->
  parent node = Some p ->
  exists reported components',
    storeUsage astUtil context utils node
      (Vars.mk (Some direct) (Some n) allNames None) components = (Ok tt, components') /\
    usages components' (uid g) =
      usages components (uid g) ++ [UsageRecord.mk (Some n) (map Some allNames) reported] /\
    (forall k, flagged components' k = flagged components k) /\
    (forall k, k <> uid g -> usages components' k = usages components k) /\
    kept components components'.
Proof.
  intros O U P. destruct (owner_found components O) as (c & G & L & I).
  unfold storeUsage, bind, gets, lift, modify. rewrite G.
  unfold recordUsage. simpl. rewrite U, P. simpl.
  set (cond := negb (DIRECT_PROPS_REGEX (getText context node)
                     || DIRECT_NEXT_PROPS_REGEX (getText context node)
                     || DIRECT_PREV_PROPS_REGEX (getText context node))
               && negb (inConstructor utils None)
               && negb (inComponentWillReceiveProps context)).
  exists (if cond then property p else property node).
  assert (E : (if cond then Ok (property p) else Ok (property node)) =
              Ok (if cond then property p else property node)) by (destruct cond; reflexivity).
  rewrite E. simpl. eexists. split; [reflexivity|].
  destruct (set_owner g components c L I
              (usedOf (Some c)
                 ++ [UsageRecord.mk (Some n) (map Some allNames)
                       (if cond then property p else property node)])
              (ignoredOf (Some c))) as (S1 & S2 & S3 & S4).
  simpl in S1, S2, S3, S4. 
  split; [rewrite S1; unfold usages; rewrite L; reflexivity|].
  split; [|split; [|exact S4]].
  - intros k. destruct (Nat.eq_dec k (uid g)) as [->|Ek].
    + rewrite S2. unfold flagged. rewrite L. reflexivity.
    + unfold flagged. rewrite (S3 k Ek). reflexivity.
  - intros k Ek. unfold usages. rewrite (S3 k Ek). reflexivity.
Qed.

(** One step of a chain: after the continuation, the marker appends the
    usage of the step when its name is recordable, and nothing otherwise. *)
Lemma mark_member_step (node p : Node) n parentNames components :
  type node = "MemberExpression" ->
  getPropertyName node context utils check = Ok (Some n) ->
  n <> "" ->
  parent node = Some p ->
  ownerOpen utils components ->
  fst (continuation astUtil check context utils node parentNames n components) = Ok tt ->
  exists added,
    fst (mark node parentNames components) = Ok tt /\
    usages (snd (mark node parentNames components)) (uid g) =
      usages (snd (continuation astUtil check context utils node parentNames n components))
        (uid g) ++ added /\
    map nameAndPath added =
      map asRecorded (if recordable n then [(n, parentNames ++ [n])] else []) /\
    (forall k,
       flagged (snd (mark node parentNames components)) k =
       flagged (snd (continuation astUtil check context utils node parentNames n
                       components)) k) /\
    (forall k, k <> uid g ->
       usages (snd (mark node parentNames components)) k =
       usages (snd (continuation astUtil check context utils node parentNames n
                      components)) k).
Proof.
  intros T G N P O C.
  destruct (recordable n) eqn:R.
  - apply andb_prop in R. destruct R as [NC NP].
    apply negb_true_iff in NC. apply negb_true_iff in NP.
    rewrite (mark_member_named astUtil check context utils node parentNames n components
               T G N).
    unfold bind.
    pose proof (continuation_kept astUtil check context utils node parentNames n
                  components) as Kp.
    destruct (continuation astUtil check context utils node parentNames n components)
      as [r s]. simpl in C, Kp. subst r. rewrite NC. simpl negb. cbv iota.
    destruct (storeUsage_direct node p n (parentNames ++ [n]) s
                (ownerOpen_kept _ _ _ Kp O) NP P)
      as (reported & s' & E & U & Fl & Ot & _).
    rewrite E. simpl.
    exists [UsageRecord.mk (Some n) (map Some (parentNames ++ [n])) reported].
    repeat split; assumption.
  - assert (U : n = COMPUTED_PROP \/ inObjectPrototype n = true).
    { apply andb_false_iff in R. destruct R as [R|R]; apply negb_false_iff in R.
      - left. apply String.eqb_eq. exact R.
      - right. exact R. }
    destruct (mark_member_unrecorded astUtil check context utils node parentNames n
                components T G N U O) as [F S].
    exists []. rewrite F, C, app_nil_r.
    split; [reflexivity|]. split; [apply S|]. split; [reflexivity|].
    split; intros k; [apply S|intros _; apply S].
Qed.

Lemma chain_records (node : Node) names :
  Chain astUtil check context utils node names ->
  forall parentNames components,
    ownerOpen utils components ->
    exists new,
      fst (mark node parentNames components) = Ok tt /\
      usages (snd (mark node parentNames components)) (uid g) =
        usages components (uid g) ++ new /\
      map nameAndPath new = map asRecorded (chainUsages parentNames names) /\
      (forall k, flagged (snd (mark node parentNames components)) k = flagged components k) /\
      (forall k, k <> uid g ->
         usages (snd (mark node parentNames components)) k = usages components k).
Proof.
  induction 1 as [node p o T G F P D|node p n T G N P C|node p n names T G N P C CH IH];
    intros parentNames components O.
  - (* the access resolves to no name *)
    exists [].
    rewrite (mark_member_unnamed astUtil check context utils node p o parentNames
               components T G F P), D.
    destruct (owner_found components O) as (c & Gc & L & I).
    destruct (storeUsage_nothing astUtil context utils node
                (Vars.mk None o [] None) components c Gc) as (s' & E & S).
    { intros used flag. reflexivity. }
    rewrite E. simpl. split; [reflexivity|]. rewrite app_nil_r.
    split; [apply S|]. split; [reflexivity|]. split; intros k; [apply S|intros _; apply S].
  - (* the last access of the chain *)
    pose proof (continuation_stops astUtil check context utils node p parentNames n
                  components P C) as E.
    destruct (mark_member_step node p n parentNames components T G N P O)
      as (added & R & U & M & Fl & Ot).
    { rewrite E. reflexivity. }
    rewrite E in U, Fl, Ot. simpl in U, Fl, Ot.
    exists added. repeat split; assumption.
  - (* an access that its parent continues *)
    assert (E : continuation astUtil check context utils node parentNames n components =
                mark p (parentNames ++ [n]) components).
    { unfold continuation, followChain, markParentOf, bind, lift. rewrite P. simpl.
      rewrite C. reflexivity. }
    destruct (IH (parentNames ++ [n]) components O) as (new & R1 & U1 & M1 & F1 & O1).
    destruct (mark_member_step node p n parentNames components T G N P O)
      as (added & R & U & M & Fl & Ot).
    { rewrite E. exact R1. }
    rewrite E in U, Fl, Ot.
    exists (new ++ added).
    split; [exact R|]. split; [rewrite U, U1, app_assoc; reflexivity|].
    split; [simpl chainUsages; rewrite (map_app nameAndPath), (map_app asRecorded), M1, M;
            reflexivity|].
    split; intros k; [rewrite Fl; apply F1|intros Hk; rewrite (Ot k Hk); apply O1, Hk].
Qed.

End Chains.

(** C4. Let [node] start a chain of member accesses that resolves to
    [names] (for props.a.b.c: a, b, c), each step being the parent access
    whose object is exactly the current access.  Inside an open component,
    [markPropTypesAsUsed] succeeds and appends to the component one usage per
    step with a recordable name, the deepest first; when the last name is
    recordable the first usage appended is the usage of the whole chain,
    and its path is exactly [names] (after the parent names, none at the
    top), however long the chain; flags and other components are untouched.
    An access that is not the object of its parent access (the key in
    x[props.a]) is a chain of its own name only: the step to the parent is
    not followed. *)
Theorem chain_path_is_exact astUtil check context utils (g node : Node)
    (names parentNames : list string) (components : Components.t) :
  getParentComponent utils = Some g ->
  ownerOpen utils components ->
  (Chain astUtil check context utils node names ->
   exists new,
     fst (markPropTypesAsUsed astUtil check context utils node parentNames components)
       = Ok tt /\
     usages (snd (markPropTypesAsUsed astUtil check context utils node parentNames
                    components)) (uid g) =
       usages components (uid g) ++ new /\
     map nameAndPath new = map asRecorded (chainUsages parentNames names) /\
     (names <> [] -> recordable (last names "") = true ->
      option_map nameAndPath (hd_error new) =
        Some (Some (last names ""), map Some (parentNames ++ names))) /\
     (forall k, flagged (snd (markPropTypesAsUsed astUtil check context utils node
                                parentNames components)) k = flagged components k) /\
     (forall k, k <> uid g ->
        usages (snd (markPropTypesAsUsed astUtil check context utils node parentNames
                       components)) k = usages components k))
  /\
  (forall (p : Node) (n : string),
     type node = "MemberExpression" ->
     getPropertyName node context utils check = Ok (Some n) ->
     n <> "" ->
     parent node = Some p ->
     same (object p) node = false ->
     Chain astUtil check context utils node [n]).
Proof.
  intros G O. split.
  - intros CH.
    destruct (chain_records astUtil check context utils g G node names CH parentNames
                components O) as (new & R & U & M & F & Ot).
    exists new. repeat split; try assumption.
    intros NE RL. destruct (chainUsages_head parentNames names NE RL) as [others E].
    rewrite E in M. apply (f_equal (@hd_error _)) in M.
    destruct new as [|u new']; [discriminate M|]. exact M.
  - intros p n T GP N P S. apply Chain_last with (p := p); try assumption.
    unfold continuesChain. rewrite S. apply andb_false_r.
Qed.

Lemma chain_path_is_exact_witness :
  (exists new,
     usages (snd (markPropTypesAsUsed exampleAstUtil true DirectChain.inFunctionNode
                    (inFunctionComponent DirectChain.functionNode) DirectChain.propsA []
                    DirectChain.registry)) (uid DirectChain.functionNode) =
       usages DirectChain.registry (uid DirectChain.functionNode) ++ new /\
     map nameAndPath new =
       [(Some "c", [Some "a"; Some "b"; Some "c"]);
        (Some "b", [Some "a"; Some "b"]);
        (Some "a", [Some "a"])] /\
     option_map nameAndPath (hd_error new) =
       Some (Some "c", [Some "a"; Some "b"; Some "c"]))
  /\
  Chain exampleAstUtil true KeyOfParent.inFunctionNode
    (inFunctionComponent KeyOfParent.functionNode) KeyOfParent.propsA ["a"].
Proof.
  split.
  - destruct (chain_path_is_exact exampleAstUtil true DirectChain.inFunctionNode
                (inFunctionComponent DirectChain.functionNode)
                DirectChain.functionNode DirectChain.propsA ["a"; "b"; "c"] []
                DirectChain.registry eq_refl) as [H _].
    { unfold ownerOpen. simpl. discriminate. }
    destruct H as (new & _ & U & M & Hd & _).
    { apply Chain_step with (p := DirectChain.propsAB);
        [reflexivity|vm_compute; reflexivity|discriminate|reflexivity|reflexivity|].
      apply Chain_step with (p := DirectChain.propsABC);
        [reflexivity|vm_compute; reflexivity|discriminate|reflexivity|reflexivity|].
      apply Chain_last with (p := DirectChain.statement);
        [reflexivity|vm_compute; reflexivity|discriminate|reflexivity|reflexivity]. }
    exists new. split; [exact U|]. split; [exact M|]. apply Hd; [discriminate|reflexivity].
  - destruct (chain_path_is_exact exampleAstUtil true KeyOfParent.inFunctionNode
                (inFunctionComponent KeyOfParent.functionNode)
                KeyOfParent.functionNode KeyOfParent.propsA [] []
                KeyOfParent.registry eq_refl) as [_ H].
    { unfold ownerOpen. simpl. discriminate. }
    apply (H KeyOfParent.xPropsA "a");
      [reflexivity|vm_compute; reflexivity|discriminate|reflexivity|reflexivity].
Defined.

(* ------------------------------------------------------------------ *)
(** ** Two class components, end to end *)
(* ------------------------------------------------------------------ *)


(* ------------------------------------------------------------------ *)
(** ** Destructuring patterns *)
(* ------------------------------------------------------------------ *)

Lemma markDestructured_sound astUtil context (node : Ast) names fields used flag :
  namesToProps node = Ok names ->
  Forall (fun field => unsound context field = false) fields ->
  markDestructured astUtil context node fields used flag =
  Ok (used ++ fieldUsages astUtil context names fields, flag).
Proof.
  intros N. revert used. induction fields as [|p rest IH]; intros used F; simpl.
  - rewrite app_nil_r. reflexivity.
  - inversion F as [|? ? Hp Hrest]; subst. unfold unsound in Hp. rewrite Hp, N. simpl.
    rewrite (IH _ Hrest). unfold fieldUsages. simpl.
    destruct (truthy (getKeyValue astUtil context p)); simpl.
    + rewrite <- app_assoc. reflexivity.
    + reflexivity.
Qed.

Lemma markDestructured_stops astUtil context (node : Ast) names pre field post used flag :
  namesToProps node = Ok names ->
  Forall (fun field => unsound context field = false) pre ->
  unsound context field = true ->
  markDestructured astUtil context node (pre ++ field :: post) used flag =
  Ok (used ++ fieldUsages astUtil context names pre, true).
Proof.
  intros N F U. revert used. induction F as [|p rest Hp Hrest IH]; intros used; simpl.
  - unfold unsound in U. rewrite U, app_nil_r. reflexivity.
  - unfold unsound in Hp. rewrite Hp, N. simpl. rewrite IH. unfold fieldUsages. simpl.
    destruct (truthy (getKeyValue astUtil context p)); simpl.
    + rewrite <- app_assoc. reflexivity.
    + reflexivity.
Qed.

Lemma storeUsage_stops astUtil context utils (g node : Node)
    name allNames names pre field post components :
  getParentComponent utils = Some g ->
  ownerOpen utils components ->
  namesToProps node = Ok names ->
  Forall (fun field => unsound context field = false) pre ->
  unsound context field = true ->
  exists components',
    storeUsage astUtil context utils node
      (Vars.mk (Some destructuring) name allNames (Some (pre ++ field :: post)))
      components = (Ok tt, components') /\
    usages components' (uid g) =
      usages components (uid g) ++ fieldUsages astUtil context names pre /\
    flagged components' (uid g) = true /\
    (forall k, k <> uid g ->
       Components.lookup k components' = Components.lookup k components).
Proof.
  intros G O N F U.
  destruct (owner_found utils g G components O) as (c & Gc & L & I).
  unfold storeUsage, bind, gets, lift, modify. rewrite Gc.
  unfold recordUsage. simpl Vars.type. cbv iota. simpl Vars.properties. cbv iota.
  rewrite (markDestructured_stops astUtil context node names pre field post _ _ N F U).
  exists (Components.set (Component.node c)
            (Props.mk (Some (usedOf (Some c) ++ fieldUsages astUtil context names pre))
               (Some true)) components).
  split; [reflexivity|].
  destruct (set_owner g components c L I
              (usedOf (Some c) ++ fieldUsages astUtil context names pre) true)
    as (S1 & S2 & S3 & _).
  split; [rewrite S1; unfold usages; rewrite L; reflexivity|].
  split; [exact S2|exact S3].
Qed.

(** C3, as the code has it.  When the fields of a destructuring pattern are
    marked inside an open component, the first field that carries a spread
    marker or a computed key sets the suppress flag of the component and
    ends the marking: each field before it yields one usage (when its key
    has a name), that field and every field after it yield none.  In
    particular, traversing [function F(props) { const {a, ...rest} = props; }]
    records a usage for [a] and sets the flag, both together. *)
Theorem destructuring_stops_at_unsound_field :
  (forall astUtil context utils (g node : Node) name allNames names pre field post
          components,
      getParentComponent utils = Some g ->
      ownerOpen utils components ->
      namesToProps node = Ok names ->
      Forall (fun field => unsound context field = false) pre ->
      unsound context field = true ->
      exists components',
        storeUsage astUtil context utils node
          (Vars.mk (Some destructuring) name allNames (Some (pre ++ field :: post)))
          components = (Ok tt, components') /\
        usages components' (uid g) =
          usages components (uid g) ++ fieldUsages astUtil context names pre /\
        flagged components' (uid g) = true /\
        (forall k, k <> uid g ->
           Components.lookup k components' = Components.lookup k components))
  /\
  (forall check,
      traverse exampleAstUtil check SpreadLast.sourceUnit SpreadLast.registry =
      (Ok tt,
       [seen SpreadLast.functionNode
          [UsageRecord.mk (Some "a") [Some "a"] (Some SpreadLast.fieldAAst)] true])).
Proof.
  split.
  - apply storeUsage_stops.
  - intros check. destruct check; vm_compute; reflexivity.
Qed.

Lemma destructuring_stops_at_unsound_field_witness :
  exists components',
    storeUsage exampleAstUtil SpreadLast.inFunctionNode
      (inFunctionComponent SpreadLast.functionNode) SpreadLast.declarator
      (Vars.mk (Some destructuring) None []
         (Some ([SpreadLast.fieldAAst] ++ SpreadLast.fieldRestAst :: [])))
      SpreadLast.registry = (Ok tt, components') /\
    usages components' (uid SpreadLast.functionNode) =
      usages SpreadLast.registry (uid SpreadLast.functionNode)
      ++ [UsageRecord.mk (Some "a") [Some "a"] (Some SpreadLast.fieldAAst)] /\
    flagged components' (uid SpreadLast.functionNode) = true /\
    (forall k, k <> uid SpreadLast.functionNode ->
       Components.lookup k components' = Components.lookup k SpreadLast.registry).
Proof.
  apply (proj1 destructuring_stops_at_unsound_field exampleAstUtil
           SpreadLast.inFunctionNode
           (inFunctionComponent SpreadLast.functionNode) SpreadLast.functionNode
           SpreadLast.declarator None [] [] [SpreadLast.fieldAAst] SpreadLast.fieldRestAst []
           SpreadLast.registry).
  - reflexivity.
  - unfold ownerOpen. simpl. discriminate.
  - reflexivity.
  - constructor; [reflexivity|constructor].
  - reflexivity.
Defined.

(** In [function F(props) { const {[k]: v, a} = props; }] the field [a] has
    neither a spread marker nor a computed key, and it follows the computed
    field [[k]: v]; the traversal records no usage for it. *)
Lemma computed_field_hides_later_fields :
  unsound ComputedFirst.inFunctionNode ComputedFirst.fieldAAst = false /\
  properties ComputedFirst.patternAst =
    Some [ComputedFirst.fieldKAst; ComputedFirst.fieldAAst] /\
  traverse exampleAstUtil true ComputedFirst.sourceUnit ComputedFirst.registry =
  (Ok tt, [seen ComputedFirst.functionNode [] true]).
Proof. repeat split; vm_compute; reflexivity. Qed.

(* ------------------------------------------------------------------ *)
(** ** State updaters *)
(* ------------------------------------------------------------------ *)

Lemma isStr_eq o s : isStr o s = true <-> o = Some s.
Proof.
  unfold isStr, strictEq. destruct o as [x|]; split; intros H; try discriminate.
  - apply String.eqb_eq in H. congruence.
  - injection H as ->. apply String.eqb_refl.
Qed.

Lemma isSetStateUpdaterScope_true scope :
  isSetStateUpdaterScope scope = Ok true <-> FirstArgumentOfSetState scope.
Proof.
  unfold isSetStateUpdaterScope, FirstArgumentOfSetState. split.
  - destruct (block scope) as [b|] eqn:B; [|discriminate].
    destruct (parent b) as [p|] eqn:P; [|discriminate].
    destruct (type p =? "CallExpression") eqn:T; [|discriminate].
    destruct (callee p) as [c|] eqn:C; simpl; [|discriminate].
    destruct (property c) as [prop|] eqn:Pr; [|discriminate].
    destruct (isStr (name prop) "setState") eqn:N; [|discriminate].
    destruct (arguments p) as [[|arg0 rest]|] eqn:A; simpl; try discriminate.
    intros H. injection H as H. apply Nat.eqb_eq in H.
    apply String.eqb_eq in T. apply isStr_eq in N.
    exists b, p, c, prop, arg0, rest. repeat split; assumption.
  - intros (b & p & c & prop & arg0 & rest & B & P & T & C & Pr & N & A & S).
    rewrite B, P, T, C. simpl. rewrite Pr. apply isStr_eq in N. rewrite N, A. simpl.
    rewrite S, Nat.eqb_refl. reflexivity.
Qed.

Lemma Scope_upper_ind (P : Scope -> Prop) :
  (forall s, (forall u, upper s = Some u -> P u) -> P s) -> forall s, P s.
Proof.
  intros H. fix IH 1. intros [b [u|]].
  - apply H. simpl. intros q Hq. injection Hq as <-. apply IH.
  - apply H. simpl. intros q Hq. discriminate Hq.
Qed.

Lemma scopeChain_unfold scope :
  scopeChain scope =
  scope :: match upper scope with Some u => scopeChain u | None => [] end.
Proof. destruct scope; reflexivity. Qed.

Lemma inSetStateUpdater_loop_unfold scope :
  inSetStateUpdater_loop scope =
  rbind (isSetStateUpdaterScope scope)
    (fun hit =>
       if hit then Ok true
       else match upper scope with
            | Some u => inSetStateUpdater_loop u
            | None => Ok false
            end).
Proof. destruct scope; reflexivity. Qed.

Lemma inSetStateUpdater_loop_true scope :
  inSetStateUpdater_loop scope = Ok true <->
  exists pre s post,
    scopeChain scope = pre ++ s :: post /\
    Forall (fun s' => isSetStateUpdaterScope s' = Ok false) pre /\
    FirstArgumentOfSetState s.
Proof.
  induction scope as [scope IH] using Scope_upper_ind.
  rewrite inSetStateUpdater_loop_unfold, scopeChain_unfold.
  destruct (isSetStateUpdaterScope scope) as [[|]|e] eqn:H; simpl.
  - split; [intros _|reflexivity].
    exists [], scope, (match upper scope with Some u => scopeChain u | None => [] end).
    repeat split; [constructor|apply isSetStateUpdaterScope_true; exact H].
  - destruct (upper scope) as [u|] eqn:U.
    + rewrite (IH u eq_refl). split.
      * intros (pre & s & post & E & F & A). exists (scope :: pre), s, post.
        repeat split; [simpl; rewrite E; reflexivity|constructor; assumption|exact A].
      * intros (pre & s & post & E & F & A). destruct pre as [|s0 pre'].
        -- simpl in E. injection E as <- _. apply isSetStateUpdaterScope_true in A.
           congruence.
        -- simpl in E. injection E as <- E. inversion F; subst.
           exists pre', s, post. repeat split; assumption.
    + split; [discriminate|].
      intros (pre & s & post & E & F & A). destruct pre as [|s0 pre'].
      * simpl in E. injection E as <- _. apply isSetStateUpdaterScope_true in A.
        congruence.
      * simpl in E. injection E as _ E. destruct pre'; discriminate E.
  - split; [discriminate|].
    intros (pre & s & post & E & F & A). destruct pre as [|s0 pre'].
    + simpl in E. injection E as <- _. apply isSetStateUpdaterScope_true in A.
      congruence.
    + simpl in E. injection E as <- _. inversion F; subst. congruence.
Qed.

Lemma inSetStateUpdater_true context :
  inSetStateUpdater context = Ok true <->
  exists pre s post,
    scopesOf context = pre ++ s :: post /\
    Forall (fun s' => isSetStateUpdaterScope s' = Ok false) pre /\
    FirstArgumentOfSetState s.
Proof.
  unfold inSetStateUpdater, scopesOf. destruct (getScope context) as [scope|].
  - apply inSetStateUpdater_loop_true.
  - split; [discriminate|]. intros (pre & s & post & E & _). destruct pre; discriminate E.
Qed.

(** A function that is not in an updater and is not a registered component:
    the function handlers leave the registry alone. *)
Lemma handleFunctionLikeExpressions_outside astUtil check context utils (node : Node)
    components :
  inSetStateUpdater context = Ok false ->
  Components.get (Some node) components = None ->
  Components.get (parent node) components = None ->
  snd (handleFunctionLikeExpressions astUtil check context utils node components)
  = components.
Proof.
  intros U R1 R2.
  unfold handleFunctionLikeExpressions, handleSetStateUpdater,
    markDestructuredFunctionArgumentsAsUsed, bind, lift, gets, ret.
  rewrite U. simpl in R1. simpl.
  destruct (params node) as [ps|]; simpl; [|reflexivity].
  destruct (Nat.ltb (List.length ps) 2); simpl;
    (destruct (propParam false ps) as [param|]; simpl; [|reflexivity];
     destruct (type param =? "ObjectPattern"); simpl;
     [rewrite R1, R2; reflexivity|];
     destruct (type param =? "AssignmentPattern"); simpl; [|reflexivity];
     destruct (left param) as [l|]; simpl; [|reflexivity];
     destruct (type l =? "ObjectPattern"); simpl; [rewrite R1, R2|]; reflexivity).
Qed.

(** An updater with a single parameter: the function handlers leave the
    registry alone. *)
Lemma handleFunctionLikeExpressions_single astUtil check context utils (node : Node)
    param components :
  inSetStateUpdater context = Ok true ->
  params node = Some [param] ->
  handleFunctionLikeExpressions astUtil check context utils node components
  = (Ok tt, components).
Proof.
  intros U P.
  unfold handleFunctionLikeExpressions, handleSetStateUpdater,
    markDestructuredFunctionArgumentsAsUsed, bind, lift, gets, ret.
  rewrite P, U. reflexivity.
Qed.

(** The function case of the first [switch]: the pattern of the selected
    parameter is what the ['destructuring'] case will mark. *)
Lemma selectUsage_function astUtil check context utils markParent (node : Node)
    parentNames ps inUpdater param components :
  In (type node) functionTypes ->
  params node = Some ps ->
  inSetStateUpdater context = Ok inUpdater ->
  propParam inUpdater ps = Some param ->
  type param <> "AssignmentPattern" ->
  selectUsage astUtil check context utils markParent node parentNames components =
  (Ok (Vars.mk (Some destructuring) None [] (properties param)), components).
Proof.
  intros T P U S A. unfold selectUsage.
  assert (M : (type node =? "MemberExpression") = false).
  { apply String.eqb_neq. intros E. rewrite E in T. simpl in T.
    destruct T as [T|[T|[T|[]]]]; discriminate T. }
  assert (F : (type node =? "ArrowFunctionExpression")
              || (type node =? "FunctionDeclaration")
              || (type node =? "FunctionExpression") = true).
  { simpl in T. destruct T as [T|[T|[T|[]]]]; rewrite <- T; simpl;
      rewrite ?orb_true_r; reflexivity. }
  rewrite M, F. unfold bind, lift, ret. rewrite P. simpl.
  assert (L : Nat.eqb (List.length ps) 0 = false).
  { destruct ps; [|reflexivity]. unfold propParam in S. destruct inUpdater; discriminate S. }
  rewrite L, U. simpl. rewrite S. simpl.
  apply String.eqb_neq in A. rewrite A. reflexivity.
Qed.

(** An argument of a call that does not start where the first argument
    starts is no updater scope. *)
Lemma isSetStateUpdaterScope_other_argument scope (b call : Node) (c arg0 : Ast) rest :
  block scope = Some b ->
  parent b = Some call ->
  callee call = Some c ->
  arguments call = Some (arg0 :: rest) ->
  start arg0 <> start b ->
  isSetStateUpdaterScope scope = Ok false.
Proof.
  intros B P C A S. unfold isSetStateUpdaterScope. rewrite B, P.
  destruct (type call =? "CallExpression"); [|reflexivity].
  rewrite C. simpl. destruct (property c) as [prop|]; [|reflexivity].
  destruct (isStr (name prop) "setState"); [|reflexivity].
  rewrite A. simpl. apply Nat.eqb_neq in S. rewrite S. reflexivity.
Qed.

Lemma inSetStateUpdater_loop_false scope :
  Forall (fun s => isSetStateUpdaterScope s = Ok false) (scopeChain scope) ->
  inSetStateUpdater_loop scope = Ok false.
Proof.
  induction scope as [scope IH] using Scope_upper_ind.
  rewrite scopeChain_unfold, inSetStateUpdater_loop_unfold.
  intros F. inversion F as [|? ? H Rest]; subst. rewrite H. simpl.
  destruct (upper scope) as [u|]; [apply IH; [reflexivity|exact Rest]|reflexivity].
Qed.

(** A position none of whose scopes is an updater scope is outside
    updaters. *)
Lemma inSetStateUpdater_false context :
  Forall (fun s => isSetStateUpdaterScope s = Ok false) (scopesOf context) ->
  inSetStateUpdater context = Ok false.
Proof.
  unfold inSetStateUpdater, scopesOf. destruct (getScope context) as [scope|].
  - apply inSetStateUpdater_loop_false.
  - reflexivity.
Qed.

(** C5, as the code has it.
    - A scope classifies as a state updater exactly when its block is, by
      its start offset, the first argument of a call whose callee is a
      member access named [setState]; a position is in an updater exactly
      when some enclosing scope classifies (the innermost such scope being
      reached without a throw).
    - A block that is an argument of such a call at another position (the
      completion callback) does not classify: its scope answers false, and
      a position all of whose scopes answer false is outside updaters.  A
      function outside every updater that is not a registered component
      leaves the registry as it is under the function handlers; a property
      read in the body of the callback is recorded all the same, as
      [this.setState(u, () => this.props.x)] shows.
    - The property parameter is the second parameter whenever the position
      is in an updater and the first otherwise; its pattern is what the
      marker destructures.  An updater with a single parameter has no
      property parameter, and the function handlers record nothing for it. *)
Theorem updater_classification astUtil check context utils (scope : Scope)
    (node : Node) markParent parentNames ps inUpdater param components :
  (isSetStateUpdaterScope scope = Ok true <-> FirstArgumentOfSetState scope)
  /\
  (inSetStateUpdater context = Ok true <->
   exists pre s post,
     scopesOf context = pre ++ s :: post /\
     Forall (fun s' => isSetStateUpdaterScope s' = Ok false) pre /\
     FirstArgumentOfSetState s)
  /\
  (forall b call arg0 rest,
     block scope = Some b -> parent b = Some call ->
     arguments call = Some (arg0 :: rest) -> start arg0 <> start b ->
     isSetStateUpdaterScope scope <> Ok true)
  /\
  (inSetStateUpdater context = Ok false ->
   Components.get (Some node) components = None ->
   Components.get (parent node) components = None ->
   snd (handleFunctionLikeExpressions astUtil check context utils node components)
   = components)
  /\
  (propParam true ps = nth_error ps 1 /\ propParam false ps = nth_error ps 0)
  /\
  (In (type node) functionTypes ->
   params node = Some ps ->
   inSetStateUpdater context = Ok inUpdater ->
   propParam inUpdater ps = Some param ->
   type param <> "AssignmentPattern" ->
   selectUsage astUtil check context utils markParent node parentNames components =
   (Ok (Vars.mk (Some destructuring) None [] (properties param)), components))
  /\
  (inSetStateUpdater context = Ok true ->
   params node = Some [param] ->
   handleFunctionLikeExpressions astUtil check context utils node components
   = (Ok tt, components))
  /\
  (forall (b call : Node) (c arg0 : Ast) rest,
     block scope = Some b -> parent b = Some call -> callee call = Some c ->
     arguments call = Some (arg0 :: rest) -> start arg0 <> start b ->
     isSetStateUpdaterScope scope = Ok false)
  /\
  (Forall (fun s => isSetStateUpdaterScope s = Ok false) (scopesOf context) ->
   inSetStateUpdater context = Ok false)
  /\
  traverse astUtil check CallbackReads.sourceUnit CallbackReads.registry =
  (Ok tt,
   [Component.mk CallbackReads.classNode
      (Some [UsageRecord.mk (Some "x") [Some "x"] (Some CallbackReads.xAst)])
      (Some false) false None]).
Proof.
  split; [apply isSetStateUpdaterScope_true|].
  split; [apply inSetStateUpdater_true|].
  split.
  { intros b call arg0 rest B P A S H. apply isSetStateUpdaterScope_true in H.
    destruct H as (b' & call' & c & prop & arg0' & rest' & B' & P' & _ & _ & _ & _ & A' & S').
    rewrite B in B'. injection B' as <-. rewrite P in P'. injection P' as <-.
    rewrite A in A'. injection A' as <- _. contradiction. }
  split; [apply handleFunctionLikeExpressions_outside|].
  split; [split; reflexivity|].
  split; [apply selectUsage_function|].
  split; [apply handleFunctionLikeExpressions_single|].
  split; [apply isSetStateUpdaterScope_other_argument|].
  split; [apply inSetStateUpdater_false|].
  destruct check; vm_compute; reflexivity.
Qed.

Lemma updater_classification_witness :
  FirstArgumentOfSetState Updater.updaterScope
  /\
  isSetStateUpdaterScope Updater.callbackScope <> Ok true
  /\
  snd (handleFunctionLikeExpressions exampleAstUtil true Updater.inCallback
         (inClassComponent Updater.classNode) Updater.callback Updater.registry)
  = Updater.registry
  /\
  selectUsage exampleAstUtil true Updater.inUpdater (inClassComponent Updater.classNode)
    None Updater.updater [] Updater.registry =
  (Ok (Vars.mk (Some destructuring) None [] (Some [Updater.fieldBAst])), Updater.registry)
  /\
  handleFunctionLikeExpressions exampleAstUtil true UpdaterOneParam.inUpdater
    (inClassComponent UpdaterOneParam.classNode) UpdaterOneParam.updater
    UpdaterOneParam.registry
  = (Ok tt, UpdaterOneParam.registry)
  /\
  isSetStateUpdaterScope CallbackReads.callbackScope = Ok false
  /\
  inSetStateUpdater CallbackReads.inCallback = Ok false.
Proof.
  destruct (updater_classification exampleAstUtil true Updater.inUpdater
              (inClassComponent Updater.classNode) Updater.updaterScope Updater.updater
              None [] [Updater.stateAst; Updater.patternAst] true Updater.patternAst
              Updater.registry) as (A & _ & _ & _ & _ & S & _).
  destruct (updater_classification exampleAstUtil true Updater.inCallback
              (inClassComponent Updater.classNode) Updater.callbackScope Updater.callback
              None [] [] false Updater.patternAst
              Updater.registry) as (_ & _ & B & H & _ & _ & _).
  destruct (updater_classification exampleAstUtil true UpdaterOneParam.inUpdater
              (inClassComponent UpdaterOneParam.classNode) UpdaterOneParam.updaterScope
              UpdaterOneParam.updater None [] [UpdaterOneParam.patternAst] true
              UpdaterOneParam.patternAst UpdaterOneParam.registry)
    as (_ & _ & _ & _ & _ & _ & O & _).
  destruct (updater_classification exampleAstUtil true CallbackReads.inCallback
              (inClassComponent CallbackReads.classNode) CallbackReads.callbackScope
              CallbackReads.callback None [] [] false CallbackReads.uAst
              CallbackReads.registry)
    as (_ & _ & _ & _ & _ & _ & _ & C & F & _).
  split; [apply A; vm_compute; reflexivity|].
  split.
  { apply (B Updater.callback Updater.call Updater.updaterAst [Updater.callbackAst]);
      try reflexivity. vm_compute. discriminate. }
  split; [apply H; vm_compute; reflexivity|].
  split.
  { apply S; try (vm_compute; reflexivity).
    - simpl. tauto.
    - vm_compute. discriminate. }
  split; [apply O; vm_compute; reflexivity|].
  split.
  { apply (C CallbackReads.callback CallbackReads.call CallbackReads.thisSetStateAst
             CallbackReads.uAst [CallbackReads.callbackAst]);
      try reflexivity. vm_compute. discriminate. }
  apply F. unfold scopesOf. simpl.
  repeat (constructor; [vm_compute; reflexivity|]). constructor.
Defined.

(** In [this.setState(({a}) => a)] the arrow function is the updater and has
    one parameter, the pattern [{a}].  The code selects no property
    parameter, where the first parameter was claimed, and the traversal
    records nothing.  And in [this.setState(u, () => this.props.x)] the
    completion callback is no updater, yet the read in its body contributes
    a usage record. *)
Lemma single_parameter_updater_selects_nothing :
  inSetStateUpdater UpdaterOneParam.inUpdater = Ok true /\
  params UpdaterOneParam.updater = Some [UpdaterOneParam.patternAst] /\
  propParam true [UpdaterOneParam.patternAst] = None /\
  claimedPropParam true [UpdaterOneParam.patternAst] = Some UpdaterOneParam.patternAst /\
  traverse exampleAstUtil true UpdaterOneParam.sourceUnit UpdaterOneParam.registry =
  (Ok tt, UpdaterOneParam.registry) /\
  inSetStateUpdater CallbackReads.inCallback = Ok false /\
  map nameAndPath
    (usages
       (snd (traverse exampleAstUtil true CallbackReads.sourceUnit CallbackReads.registry))
       (uid CallbackReads.classNode)) =
  [(Some "x", [Some "x"])].
Proof. repeat split; vm_compute; reflexivity. Qed.

(* ================================================================== *)
(** * Further properties of the engine *)
(* ================================================================== *)

(* ------------------------------------------------------------------ *)
(** ** The regular expressions *)
(* ------------------------------------------------------------------ *)

Lemma stripPrefix_spec p s r : stripPrefix p s = Some r <-> s = (p ++ r)%string.
Proof.
  revert s. induction p as [|a p IH]; intros s; simpl.
  - split; intros H; [injection H as ->; reflexivity|subst; reflexivity].
  - destruct s as [|b s]; [split; discriminate|].
    destruct (Ascii.eqb_spec a b) as [->|N].
    + rewrite IH. split; intros H; [subst; reflexivity|injection H as ->; reflexivity].
    + split; [discriminate|]. intros H. injection H as E _. congruence.
Qed.

Lemma skipWhiteSpace_split s :
  exists ws, s = (ws ++ skipWhiteSpace s)%string /\ allWhiteSpace ws = true.
Proof.
  induction s as [|c s IH]; simpl.
  - exists "". split; reflexivity.
  - destruct (isWhiteSpace c) eqn:W.
    + destruct IH as (ws & E & A). exists (String c ws). simpl. rewrite W, A.
      split; [rewrite <- E; reflexivity|reflexivity].
    + exists "". split; reflexivity.
Qed.

Lemma skipWhiteSpace_app ws c rest :
  allWhiteSpace ws = true -> isWhiteSpace c = false ->
  skipWhiteSpace (ws ++ String c rest)%string = String c rest.
Proof.
  intros A W. induction ws as [|d ws IH]; simpl in *.
  - rewrite W. reflexivity.
  - apply andb_prop in A. destruct A as [D A]. rewrite D. apply IH. exact A.
Qed.

(** X1. The test of [/^root\s*(\.|\[)/] on a text succeeds exactly when the
    text is the root name, then any amount of white space, then a dot or an
    opening bracket, then anything.  This is the test behind
    DIRECT_PROPS_REGEX, DIRECT_NEXT_PROPS_REGEX and DIRECT_PREV_PROPS_REGEX. *)
Theorem testDirect_matches root s :
  testDirect root s = true <->
  exists ws c rest,
    s = (root ++ ws ++ String c rest)%string /\ allWhiteSpace ws = true /\
    (c = "."%char \/ c = "["%char).
Proof.
  unfold testDirect. split.
  - destruct (stripPrefix root s) as [r|] eqn:P; [|discriminate].
    apply stripPrefix_spec in P.
    destruct (skipWhiteSpace_split r) as (ws & E & A).
    destruct (skipWhiteSpace r) as [|c rest]; [discriminate|].
    intros H. exists ws, c, rest. split; [rewrite P, E; reflexivity|]. split; [exact A|].
    apply orb_prop in H. destruct H as [H|H]; apply Ascii.eqb_eq in H; auto.
  - intros (ws & c & rest & E & A & C).
    assert (P : stripPrefix root s = Some (ws ++ String c rest)%string)
      by (apply stripPrefix_spec; exact E).
    rewrite P.
    rewrite (skipWhiteSpace_app ws c rest A).
    + destruct C as [->| ->]; reflexivity.
    + destruct C as [->| ->]; reflexivity.
Qed.

(* ------------------------------------------------------------------ *)
(** ** Lifecycle methods *)
(* ------------------------------------------------------------------ *)

Lemma inLifeCycleMethod_loop_unfold check scope :
  inLifeCycleMethod_loop check scope =
  let next :=
    match upper scope with
    | Some u => inLifeCycleMethod_loop check u
    | None => false
    end in
  match blockParentKeyName scope with
  | Some n => if lifeCycleName check n then true else next
  | None => next
  end.
Proof.
  destruct scope as [b u]. cbn [inLifeCycleMethod_loop upper]. unfold lifeCycleName.
  destruct (blockParentKeyName _) as [n|]; [|reflexivity].
  destruct (includes LIFE_CYCLE_METHODS n); [reflexivity|]. cbn [orb].
  destruct (check && includes ASYNC_SAFE_LIFE_CYCLE_METHODS n); reflexivity.
Qed.

Lemma inLifeCycleMethod_loop_spec check scope :
  inLifeCycleMethod_loop check scope = true <->
  exists s n, In s (scopeChain scope) /\ blockParentKeyName s = Some n /\
              lifeCycleName check n = true.
Proof.
  induction scope as [scope IH] using Scope_upper_ind.
  rewrite inLifeCycleMethod_loop_unfold, scopeChain_unfold. cbv zeta.
  assert (Up : (match upper scope with
                | Some u => inLifeCycleMethod_loop check u
                | None => false
                end = true) <->
               exists s n,
                 In s (match upper scope with Some u => scopeChain u | None => [] end) /\
                 blockParentKeyName s = Some n /\ lifeCycleName check n = true).
  { destruct (upper scope) as [u|].
    - apply IH. reflexivity.
    - split; [discriminate|]. intros (s & n & [] & _). }
  destruct (blockParentKeyName scope) as [n|] eqn:B.
  - destruct (lifeCycleName check n) eqn:L.
    + split; [intros _|reflexivity]. exists scope, n. repeat split; auto. left. reflexivity.
    + rewrite Up. split.
      * intros (s & m & I & Bs & Ls). exists s, m. repeat split; auto. right. exact I.
      * intros (s & m & [<-|I] & Bs & Ls); [congruence|]. exists s, m. auto.
  - rewrite Up. split.
    + intros (s & m & I & Bs & Ls). exists s, m. repeat split; auto. right. exact I.
    + intros (s & m & [<-|I] & Bs & Ls); [congruence|]. exists s, m. auto.
Qed.

(** X2. A position is in a lifecycle method exactly when some scope of its
    scope chain has a block whose parent has a key named as a lifecycle
    method: one of componentWillReceiveProps, shouldComponentUpdate,
    componentWillUpdate, componentDidUpdate, or, when the feature gate is on,
    one of the four async-safe names. *)
Theorem inLifeCycleMethod_some_scope context check :
  inLifeCycleMethod context check = true <->
  exists s n, In s (scopesOf context) /\ blockParentKeyName s = Some n /\
              lifeCycleName check n = true.
Proof.
  unfold inLifeCycleMethod, scopesOf. destruct (getScope context) as [scope|].
  - apply inLifeCycleMethod_loop_spec.
  - split; [discriminate|]. intros (s & n & [] & _).
Qed.

Lemma lifeCycleName_gate n : lifeCycleName false n = true -> lifeCycleName true n = true.
Proof.
  unfold lifeCycleName. intros H. apply orb_prop in H.
  destruct H as [H|H]; [rewrite H; reflexivity|discriminate H].
Qed.

Lemma isNodeALifeCycleMethod_gate node :
  isNodeALifeCycleMethod node false = true -> isNodeALifeCycleMethod node true = true.
Proof.
  unfold isNodeALifeCycleMethod.
  destruct (isStr (kind node) "constructor"); [reflexivity|].
  destruct (includes LIFE_CYCLE_METHODS _); [reflexivity|]. cbn [andb]. discriminate.
Qed.

Lemma isInLifeCycleMethod_unfold (node : Node) check :
  isInLifeCycleMethod node check =
  if ((type node =? "MethodDefinition") || (type node =? "Property"))
     && isNodeALifeCycleMethod node check
  then true
  else match parent node with
       | Some p => isInLifeCycleMethod p check
       | None => false
       end.
Proof. destruct node; reflexivity. Qed.

Lemma ancestorsOrSelf_unfold (node : Node) :
  ancestorsOrSelf node =
  node :: match parent node with Some p => ancestorsOrSelf p | None => [] end.
Proof. destruct node; reflexivity. Qed.

(** X3. A node is inside a lifecycle method exactly when the node or one of
    its ancestors is a MethodDefinition or a Property that is a lifecycle
    method: of kind constructor, or with a key named as a lifecycle method. *)
Theorem isInLifeCycleMethod_some_ancestor (node : Node) check :
  isInLifeCycleMethod node check = true <->
  exists a : Node,
    In a (ancestorsOrSelf node) /\
    (type a = "MethodDefinition" \/ type a = "Property") /\
    isNodeALifeCycleMethod a check = true.
Proof.
  induction node as [node IH] using Node_parent_ind.
  rewrite isInLifeCycleMethod_unfold, ancestorsOrSelf_unfold.
  assert (Up : (match parent node with
                | Some p => isInLifeCycleMethod p check
                | None => false
                end = true) <->
               exists a : Node,
                 In a (match parent node with
                       | Some p => ancestorsOrSelf p
                       | None => []
                       end) /\
                 (type a = "MethodDefinition" \/ type a = "Property") /\
                 isNodeALifeCycleMethod a check = true).
  { destruct (parent node) as [p|].
    - apply IH. reflexivity.
    - split; [discriminate|]. intros (a & [] & _). }
  destruct (((type node =? "MethodDefinition") || (type node =? "Property"))
            && isNodeALifeCycleMethod node check) eqn:H.
  - split; [intros _|reflexivity]. apply andb_prop in H. destruct H as [T L].
    exists node. split; [left; reflexivity|]. split; [|exact L].
    apply orb_prop in T. destruct T as [T|T]; apply String.eqb_eq in T; auto.
  - rewrite Up. split.
    + intros (a & I & T & L). exists a. split; [right; exact I|]. split; assumption.
    + intros (a & [<-|I] & T & L).
      * exfalso. rewrite L, andb_true_r in H.
        destruct T as [T|T]; rewrite T in H; simpl in H; discriminate H.
      * exists a. split; [exact I|]. split; assumption.
Qed.

Lemma isInLifeCycleMethod_gate (node : Node) :
  isInLifeCycleMethod node false = true -> isInLifeCycleMethod node true = true.
Proof.
  induction node as [node IH] using Node_parent_ind.
  rewrite !isInLifeCycleMethod_unfold.
  destruct ((type node =? "MethodDefinition") || (type node =? "Property")); cbn [andb].
  - destruct (isNodeALifeCycleMethod node false) eqn:L.
    + rewrite (isNodeALifeCycleMethod_gate node L). reflexivity.
    + destruct (isNodeALifeCycleMethod node true); [reflexivity|].
      destruct (parent node) as [p|]; [apply IH; reflexivity|discriminate].
  - destruct (parent node) as [p|]; [apply IH; reflexivity|discriminate].
Qed.

(** X4. Turning the feature gate on only adds lifecycle methods: whatever
    [inLifeCycleMethod], [isNodeALifeCycleMethod] and [isInLifeCycleMethod]
    accept with the gate off they accept with the gate on. *)
Theorem async_safe_gate_only_adds context (node : Node) :
  (inLifeCycleMethod context false = true -> inLifeCycleMethod context true = true)
  /\
  (isNodeALifeCycleMethod node false = true -> isNodeALifeCycleMethod node true = true)
  /\
  (isInLifeCycleMethod node false = true -> isInLifeCycleMethod node true = true).
Proof.
  split; [|split].
  - unfold inLifeCycleMethod. destruct (getScope context) as [scope|]; [|discriminate].
    rewrite !inLifeCycleMethod_loop_spec. intros (s & n & I & B & L).
    exists s, n. repeat split; auto. apply lifeCycleName_gate. exact L.
  - apply isNodeALifeCycleMethod_gate.
  - apply isInLifeCycleMethod_gate.
Qed.

Lemma inComponentWillReceiveProps_loop_lifeCycle check scope :
  inComponentWillReceiveProps_loop scope = true ->
  inLifeCycleMethod_loop check scope = true.
Proof.
  induction scope as [scope IH] using Scope_upper_ind.
  rewrite inLifeCycleMethod_loop_unfold. cbv zeta.
  destruct scope as [b u]. cbn [inComponentWillReceiveProps_loop upper] in *.
  destruct (blockParentKeyName _) as [n|].
  - destruct (isStr n "componentWillReceiveProps") eqn:N.
    + intros _. apply isStr_eq in N. subst n. reflexivity.
    + destruct (lifeCycleName check n); [reflexivity|].
      destruct u as [u|]; [apply IH; reflexivity|discriminate].
  - destruct u as [u|]; [apply IH; reflexivity|discriminate].
Qed.

(** X5. A position that [inComponentWillReceiveProps] accepts is in a
    lifecycle method, whatever the feature gate. *)
Theorem inComponentWillReceiveProps_is_lifeCycle context check :
  inComponentWillReceiveProps context = true ->
  inLifeCycleMethod context check = true.
Proof.
  unfold inComponentWillReceiveProps, inLifeCycleMethod.
  destruct (getScope context) as [scope|]; [|discriminate].
  apply inComponentWillReceiveProps_loop_lifeCycle.
Qed.

Lemma inLifeCycleMethod_some_scope_witness :
  inLifeCycleMethod ReceivePropsTheme.inFunctionNode false = true.
Proof.
  apply (proj2 (inLifeCycleMethod_some_scope ReceivePropsTheme.inFunctionNode false)).
  exists ReceivePropsTheme.functionNodeScope, (Some "componentWillReceiveProps").
  split; [left; reflexivity|]. split; reflexivity.
Defined.

Lemma isInLifeCycleMethod_some_ancestor_witness :
  isInLifeCycleMethod ReceivePropsTheme.thisProps false = true.
Proof.
  apply (proj2 (isInLifeCycleMethod_some_ancestor ReceivePropsTheme.thisProps false)).
  exists ReceivePropsTheme.method.
  split; [simpl; tauto|]. split; [left; reflexivity|reflexivity].
Defined.

Lemma async_safe_gate_only_adds_witness :
  inLifeCycleMethod ReceivePropsTheme.inFunctionNode true = true /\
  isNodeALifeCycleMethod ReceivePropsTheme.method true = true /\
  isInLifeCycleMethod ReceivePropsTheme.thisProps true = true.
Proof.
  destruct (async_safe_gate_only_adds ReceivePropsTheme.inFunctionNode
              ReceivePropsTheme.method) as (A & B & _).
  destruct (async_safe_gate_only_adds ReceivePropsTheme.inFunctionNode
              ReceivePropsTheme.thisProps) as (_ & _ & C).
  split; [apply A; reflexivity|]. split; [apply B; reflexivity|apply C; reflexivity].
Defined.

Lemma inComponentWillReceiveProps_is_lifeCycle_witness :
  inLifeCycleMethod ReceivePropsTheme.inFunctionNode false = true.
Proof.
  apply (inComponentWillReceiveProps_is_lifeCycle ReceivePropsTheme.inFunctionNode false).
  reflexivity.
Defined.

(* ------------------------------------------------------------------ *)
(** ** The props parameter of an updater *)
(* ------------------------------------------------------------------ *)

Lemma isPropArgumentInSetStateUpdater_loop_unfold node scope :
  isPropArgumentInSetStateUpdater_loop node scope =
  let next :=
    match upper scope with
    | Some u => isPropArgumentInSetStateUpdater_loop node u
    | None => Ok false
    end in
  rbind (isSetStateUpdaterScope scope)
    (fun hit =>
       if hit then
         rbind (field (match block scope with Some b => parent b | None => None end))
           (fun p =>
              rbind (field (arguments p))
                (fun args =>
                   rbind (field (nth_error args 0))
                     (fun arg0 =>
                        match params arg0 with
                        | Some ps =>
                            if Nat.ltb 1 (List.length ps) then
                              rbind (field (nth_error ps 1))
                                (fun p1 =>
                                   rbind (field (object node))
                                     (fun o => Ok (strictEq (name p1) (name o))))
                            else next
                        | None => next
                        end)))
       else next).
Proof. destruct scope; reflexivity. Qed.

Lemma isPropArgumentInSetStateUpdater_loop_updater node scope :
  isPropArgumentInSetStateUpdater_loop node scope = Ok true ->
  inSetStateUpdater_loop scope = Ok true.
Proof.
  induction scope as [scope IH] using Scope_upper_ind.
  rewrite isPropArgumentInSetStateUpdater_loop_unfold, inSetStateUpdater_loop_unfold.
  cbv zeta.
  destruct (isSetStateUpdaterScope scope) as [[|]|e]; simpl.
  - reflexivity.
  - destruct (upper scope) as [u|]; [apply IH; reflexivity|discriminate].
  - discriminate.
Qed.

(** X6. An access is the props parameter of an updater only at a position
    that is in an updater: whenever [isPropArgumentInSetStateUpdater] answers
    true, so does [inSetStateUpdater] (and neither throws). *)
Theorem isPropArgumentInSetStateUpdater_in_updater context node :
  isPropArgumentInSetStateUpdater context node = Ok true ->
  inSetStateUpdater context = Ok true.
Proof.
  unfold isPropArgumentInSetStateUpdater, inSetStateUpdater.
  destruct (getScope context) as [scope|]; [|discriminate].
  apply isPropArgumentInSetStateUpdater_loop_updater.
Qed.

Lemma isPropArgumentInSetStateUpdater_in_updater_witness :
  isPropArgumentInSetStateUpdater UpdaterProps.inUpdater UpdaterProps.propsX = Ok true /\
  inSetStateUpdater UpdaterProps.inUpdater = Ok true.
Proof.
  split; [reflexivity|].
  apply (isPropArgumentInSetStateUpdater_in_updater UpdaterProps.inUpdater
           UpdaterProps.propsX).
  reflexivity.
Defined.

(* ------------------------------------------------------------------ *)
(** ** Usage lists only grow *)
(* ------------------------------------------------------------------ *)

Section AppendsRules.

Variable utils : Utils.
Variable g : Node.
Hypothesis owner : getParentComponent utils = Some g.

Lemma Appends_still {A} (m : M A) :
  (forall components, snd (m components) = components) -> Appends utils g m.
Proof.
  intros H components O. rewrite H. split; [exact O|]. split; [|reflexivity].
  exists []. rewrite app_nil_r. reflexivity.
Qed.

Lemma Appends_bind {A B} (m : M A) (k : A -> M B) :
  Appends utils g m -> (forall a, Appends utils g (k a)) -> Appends utils g (bind m k).
Proof.
  intros Hm Hk components O. unfold bind.
  destruct (Hm components O) as (O1 & (a1 & U1) & F1).
  destruct (m components) as [[a|e] s]; simpl in *.
  - destruct (Hk a s O1) as (O2 & (a2 & U2) & F2).
    split; [exact O2|]. split.
    + exists (a1 ++ a2). rewrite U2, U1, app_assoc. reflexivity.
    + intros j Hj. rewrite (F2 j Hj). apply F1, Hj.
  - split; [exact O1|]. split; [exists a1; exact U1|exact F1].
Qed.

Lemma Appends_forEach {A} (f : A -> M unit) (l : list A) :
  (forall a, In a l -> Appends utils g (f a)) -> Appends utils g (forEach f l).
Proof.
  induction l as [|x rest IH]; simpl; intros H.
  - apply Appends_still. reflexivity.
  - apply Appends_bind; [apply H; left; reflexivity|].
    intros _. apply IH. intros a Ha. apply H. right. exact Ha.
Qed.

Variable astUtil : AstUtil.
Variable check : bool.
Variable context : Context.

Lemma markDestructured_appends node fields used flag l f :
  markDestructured astUtil context node fields used flag = Ok (l, f) ->
  exists added, l = used ++ added.
Proof.
  revert used. induction fields as [|p rest IH]; simpl; intros used H.
  - injection H as <- _. exists []. rewrite app_nil_r. reflexivity.
  - destruct (hasSpreadOperator context p || computed p).
    + injection H as <- _. exists []. rewrite app_nil_r. reflexivity.
    + destruct (namesToProps node) as [names|e]; simpl in H; [|discriminate].
      destruct (IH _ H) as [added E].
      destruct (truthy (getKeyValue astUtil context p)).
      * eexists. rewrite E, <- app_assoc. reflexivity.
      * exists added. exact E.
Qed.

Lemma recordUsage_appends (node : Node) vars used flag l f :
  recordUsage astUtil context utils node vars used flag = Ok (l, f) ->
  exists added, l = used ++ added.
Proof.
  unfold recordUsage. intros H.
  destruct (Vars.type vars) as [[|]|].
  - destruct (match Vars.name vars with Some n => inObjectPrototype n | None => false end).
    + injection H as <- _. exists []. rewrite app_nil_r. reflexivity.
    + destruct (negb _ && negb _ && negb _); simpl in H.
      * destruct (field (parent node)); simpl in H; [|discriminate].
        injection H as <- _. eexists. reflexivity.
      * injection H as <- _. eexists. reflexivity.
  - eapply markDestructured_appends. exact H.
  - injection H as <- _. exists []. rewrite app_nil_r. reflexivity.
Qed.

Lemma storeUsage_Appends (node : Node) vars :
  Appends utils g (storeUsage astUtil context utils node vars).
Proof.
  intros components O.
  destruct (owner_found utils g owner components O) as (c & G & L & I).
  unfold storeUsage, bind, gets, lift, modify. rewrite G.
  destruct (recordUsage astUtil context utils node vars (usedOf (Some c))
              (ignoredOf (Some c))) as [[l f]|e] eqn:R; simpl.
  2: { split; [exact O|]. split; [exists []; rewrite app_nil_r; reflexivity|reflexivity]. }
  destruct (recordUsage_appends _ _ _ _ _ _ R) as [added E].
  destruct (set_owner g components c L I l f) as (S1 & _ & S3 & S4).
  split; [exact (ownerOpen_kept _ _ _ S4 O)|]. split.
  - exists added. rewrite S1. unfold usages. rewrite L. exact E.
  - exact S3.
Qed.

Lemma selectUsage_Appends markParent (node : Node) parentNames :
  (forall mark names, markParent = Some mark -> Appends utils g (mark names)) ->
  Appends utils g (selectUsage astUtil check context utils markParent node parentNames).
Proof.
  intros Hrec. unfold selectUsage.
  destruct (type node =? "MemberExpression").
  { apply Appends_bind; [apply Appends_still; reflexivity|]. intros name.
    destruct (truthy name).
    - apply Appends_bind; [|intros; apply Appends_still; reflexivity].
      unfold followChain. apply Appends_bind; [apply Appends_still; reflexivity|]. intros p.
      destruct (continuesChain node p); [|apply Appends_still; reflexivity].
      destruct markParent as [mark|]; [|apply Appends_still; reflexivity].
      apply Hrec. reflexivity.
    - apply Appends_bind; [apply Appends_still; reflexivity|]. intros p.
      destruct (destructuredBy astUtil context p); apply Appends_still; reflexivity. }
  destruct ((type node =? "ArrowFunctionExpression")
            || (type node =? "FunctionDeclaration")
            || (type node =? "FunctionExpression")).
  { apply Appends_bind; [apply Appends_still; reflexivity|]. intros ps.
    destruct (Nat.eqb (List.length ps) 0); [apply Appends_still; reflexivity|].
    repeat (apply Appends_bind; [apply Appends_still; reflexivity|]; intros ?).
    apply Appends_still; reflexivity. }
  destruct (type node =? "VariableDeclarator").
  { repeat (apply Appends_bind; [apply Appends_still; reflexivity|]; intros ?).
    match goal with |- context [match ?x with _ => _ end] => destruct x end;
      apply Appends_still; reflexivity. }
  apply Appends_still; reflexivity.
Qed.

Lemma markPropTypesAsUsed_Appends (node : Node) :
  forall parentNames,
    Appends utils g (markPropTypesAsUsed astUtil check context utils node parentNames).
Proof.
  induction node as [node IH] using Node_parent_ind. intros parentNames.
  rewrite markPropTypesAsUsed_unfold. unfold markPropTypesAsUsed_body.
  apply Appends_bind.
  - apply selectUsage_Appends. intros mark names E.
    destruct (parent node) as [p|] eqn:P; [|discriminate].
    injection E as <-. apply IH. reflexivity.
  - intros vars. apply storeUsage_Appends.
Qed.

Lemma handleFunctionLikeExpressions_Appends (node : Node) :
  Appends utils g (handleFunctionLikeExpressions astUtil check context utils node).
Proof.
  unfold handleFunctionLikeExpressions, handleSetStateUpdater,
    markDestructuredFunctionArgumentsAsUsed.
  apply Appends_bind.
  - destruct (params node) as [ps|]; [|apply Appends_still; reflexivity].
    destruct (Nat.ltb (List.length ps) 2); [apply Appends_still; reflexivity|].
    apply Appends_bind; [apply Appends_still; reflexivity|]. intros inUpdater.
    destruct (negb inUpdater);
      [apply Appends_still; reflexivity|apply markPropTypesAsUsed_Appends].
  - intros _.
    apply Appends_bind; [apply Appends_still; reflexivity|]. intros param.
    apply Appends_bind; [apply Appends_still; reflexivity|]. intros destructuring.
    destruct destructuring; [|apply Appends_still; reflexivity].
    apply Appends_bind; [apply Appends_still; reflexivity|]. intros registered.
    destruct registered;
      [apply markPropTypesAsUsed_Appends|apply Appends_still; reflexivity].
Qed.

Lemma VariableDeclarator_Appends (node : Node) :
  Appends utils g (VariableDeclarator astUtil check context utils node).
Proof.
  unfold VariableDeclarator.
  apply Appends_bind; [apply Appends_still; reflexivity|]. intros statelessDestructuring.
  match goal with |- context [if ?b then _ else _] => destruct b end;
    [apply Appends_still; reflexivity|apply markPropTypesAsUsed_Appends].
Qed.

Lemma JSXSpreadAttribute_Appends (node : Node) :
  Appends utils g (JSXSpreadAttribute utils node).
Proof.
  intros components O.
  destruct (owner_found utils g owner components O) as (c & G & L & I).
  unfold JSXSpreadAttribute, bind, gets, modify. rewrite G. simpl.
  split; [exact (ownerOpen_kept _ _ _ (kept_set _ _ _) O)|]. split.
  - exists []. rewrite app_nil_r. unfold usages.
    rewrite <- I, lookup_set_same, I, L. reflexivity.
  - intros k Hk. apply lookup_set_other. rewrite I. exact Hk.
Qed.

Lemma MemberExpression_Appends (node : Node) :
  Appends utils g (MemberExpression astUtil check context utils node).
Proof.
  unfold MemberExpression.
  apply Appends_bind; [apply Appends_still; reflexivity|]. intros usage.
  destruct usage; [apply markPropTypesAsUsed_Appends|apply Appends_still; reflexivity].
Qed.

Lemma ObjectPattern_Appends (node : Node) :
  Appends utils g (ObjectPattern astUtil check context utils node).
Proof.
  unfold ObjectPattern.
  apply Appends_bind; [apply Appends_still; reflexivity|]. intros p.
  apply Appends_bind; [apply Appends_still; reflexivity|]. intros pp.
  destruct (isNodeALifeCycleMethod pp check); [|apply Appends_still; reflexivity].
  apply Appends_bind; [apply Appends_still; reflexivity|]. intros props.
  destruct (Nat.ltb 0 (List.length props));
    [apply markPropTypesAsUsed_Appends|apply Appends_still; reflexivity].
Qed.

Lemma Program_exit_Appends :
  Appends utils g (Program_exit astUtil check context utils).
Proof.
  unfold Program_exit.
  apply Appends_bind; [apply Appends_still; reflexivity|]. intros list.
  apply Appends_forEach. intros component _.
  unfold handleCustomValidators.
  destruct (Component.declaredPropTypes component) as [propTypes|];
    [|apply Appends_still; reflexivity].
  apply Appends_forEach. intros entry _.
  apply Appends_bind; [apply Appends_still; reflexivity|]. intros node.
  destruct (value node) as [[s|raw|v]|]; try (apply Appends_still; reflexivity).
  destruct (isFunctionLikeExpression astUtil v);
    [apply markPropTypesAsUsed_Appends|apply Appends_still; reflexivity].
Qed.

End AppendsRules.

(** X7. Usage lists only grow, and only the owner's.  With [g] the owning
    component at a position, [markPropTypesAsUsed] on any node and every
    traversal handler there (entering a node of any type, or leaving the
    program) started with [g] open leave [g] open and leave the usage list
    of [g] as it was with zero or more usages appended, whether they return
    or throw; no other entry of the registry is touched. *)
Theorem usages_only_grow astUtil check utils (g : Node) :
  getParentComponent utils = Some g ->
  (forall context (node : Node) parentNames,
      Appends utils g
        (markPropTypesAsUsed astUtil check context utils node parentNames))
  /\
  (forall visit,
      utilsOf visit = utils ->
      Appends utils g (usedPropTypesInstructions astUtil check visit)).
Proof.
  intros G. split.
  - intros context node parentNames.
    apply (markPropTypesAsUsed_Appends utils g G astUtil check context node parentNames).
  - intros [node context utils'|context utils'] E; simpl in E; subst utils'; simpl.
    + destruct (type node =? "VariableDeclarator");
        [apply VariableDeclarator_Appends; assumption|].
      destruct ((type node =? "FunctionDeclaration")
                || (type node =? "ArrowFunctionExpression")
                || (type node =? "FunctionExpression"));
        [apply handleFunctionLikeExpressions_Appends; assumption|].
      destruct (type node =? "JSXSpreadAttribute");
        [apply JSXSpreadAttribute_Appends; assumption|].
      destruct (type node =? "MemberExpression");
        [apply MemberExpression_Appends; assumption|].
      destruct (type node =? "ObjectPattern");
        [apply ObjectPattern_Appends; assumption|].
      apply Appends_still. reflexivity.
    + apply Program_exit_Appends; assumption.
Qed.

Lemma usages_only_grow_witness :
  getParentComponent (inClassComponent RenderName.classNode) = Some RenderName.classNode /\
  Appends (inClassComponent RenderName.classNode) RenderName.classNode
    (markPropTypesAsUsed exampleAstUtil false RenderName.inFunctionNode
       (inClassComponent RenderName.classNode) RenderName.thisProps []) /\
  Appends (inClassComponent RenderName.classNode) RenderName.classNode
    (usedPropTypesInstructions exampleAstUtil false
       (Enter RenderName.thisProps RenderName.inFunctionNode
          (inClassComponent RenderName.classNode))).
Proof.
  split; [reflexivity|].
  destruct (usages_only_grow exampleAstUtil false (inClassComponent RenderName.classNode)
              RenderName.classNode eq_refl) as [M H].
  split; [apply M|apply H; reflexivity].
Defined.

(* ------------------------------------------------------------------ *)
(** ** Resolving the name of an access *)
(* ------------------------------------------------------------------ *)

Section Resolver.

Variable context : Context.
Variable utils : Utils.
Variable check : bool.

(** The resolver's first [if]: a bare read rooted at props, nextProps,
    prevProps or the props parameter of an updater, in a class component,
    outside constructor, lifecycle methods and updaters. *)
Lemma getPropertyName_gated (node : Node) (setStateProp inUpdater : bool) :
  isPropArgumentInSetStateUpdater context node = Ok setStateProp ->
  inSetStateUpdater context = Ok inUpdater ->
  (DIRECT_PROPS_REGEX (getText context node)
   || DIRECT_NEXT_PROPS_REGEX (getText context node)
   || DIRECT_PREV_PROPS_REGEX (getText context node)
   || setStateProp)
  && (isSome (getParentES6Component utils) || isSome (getParentES5Component utils))
  && negb (inConstructor utils (Some node))
  && negb (inLifeCycleMethod context check)
  && negb inUpdater = true ->
  getPropertyName node context utils check = Ok None.
Proof.
  intros SP U E. unfold getPropertyName. rewrite SP, U. simpl. rewrite E. reflexivity.
Qed.

(** Past the first [if], the resolver reads the key of the access itself
    when it is rooted at a props name, of its parent otherwise. *)
Lemma getPropertyName_key (node target : Node) (k : Ast) (setStateProp inUpdater : bool) :
  isPropArgumentInSetStateUpdater context node = Ok setStateProp ->
  inSetStateUpdater context = Ok inUpdater ->
  let direct :=
    DIRECT_PROPS_REGEX (getText context node)
    || DIRECT_NEXT_PROPS_REGEX (getText context node)
    || DIRECT_PREV_PROPS_REGEX (getText context node)
    || setStateProp in
  direct
  && (isSome (getParentES6Component utils) || isSome (getParentES5Component utils))
  && negb (inConstructor utils (Some node))
  && negb (inLifeCycleMethod context check)
  && negb inUpdater = false ->
  (if direct then Some node else parent node) = Some target ->
  property target = Some k ->
  getPropertyName node context utils check =
  if type k =? "Identifier" then
    if computed target then Ok (Some COMPUTED_PROP) else Ok (name k)
  else if type k =? "MemberExpression" then Ok None
  else
    match (if type k =? "Literal" then value k else None) with
    | Some (VString s) => Ok (Some s)
    | _ => if computed target then Ok (Some COMPUTED_PROP) else Ok None
    end.
Proof.
  intros SP U direct E T P. unfold getPropertyName.
  rewrite SP, U. simpl. fold direct. rewrite E.
  assert (D : negb (DIRECT_PROPS_REGEX (getText context node))
              && negb (DIRECT_NEXT_PROPS_REGEX (getText context node))
              && negb (DIRECT_PREV_PROPS_REGEX (getText context node))
              && negb setStateProp = negb direct).
  { unfold direct. rewrite !negb_orb. reflexivity. }
  rewrite D.
  assert (F : (if negb direct then field (parent node) else Ok node) = Ok target).
  { destruct direct; simpl; [congruence|]. rewrite T. reflexivity. }
  rewrite F. simpl. rewrite P. reflexivity.
Qed.

End Resolver.

(** X8. A bare read rooted at props, nextProps or prevProps (or at the props
    parameter of an updater) inside a class component, outside constructor,
    lifecycle methods and updaters, resolves to no name; marking it inside
    an open component records nothing and sets no flag, unless its parent
    destructures it. *)
Theorem bare_props_in_class_not_recorded astUtil check context utils (node p : Node)
    (setStateProp inUpdater : bool) parentNames components :
  type node = "MemberExpression" ->
  isPropArgumentInSetStateUpdater context node = Ok setStateProp ->
  inSetStateUpdater context = Ok inUpdater ->
  (DIRECT_PROPS_REGEX (getText context node)
   || DIRECT_NEXT_PROPS_REGEX (getText context node)
   || DIRECT_PREV_PROPS_REGEX (getText context node)
   || setStateProp)
  && (isSome (getParentES6Component utils) || isSome (getParentES5Component utils))
  && negb (inConstructor utils (Some node))
  && negb (inLifeCycleMethod context check)
  && negb inUpdater = true ->
  parent node = Some p ->
  destructuredBy astUtil context p = None ->
  ownerOpen utils components ->
  getPropertyName node context utils check = Ok None /\
  fst (markPropTypesAsUsed astUtil check context utils node parentNames components)
    = Ok tt /\
  sameUsage
    (snd (markPropTypesAsUsed astUtil check context utils node parentNames components))
    components.
Proof.
  intros T SP U E P D O.
  pose proof (getPropertyName_gated context utils check node setStateProp inUpdater
                SP U E) as G.
  split; [exact G|].
  rewrite (mark_member_unnamed astUtil check context utils node p None parentNames
             components T G eq_refl P), D.
  unfold ownerOpen in O.
  destruct (Components.get (getParentComponent utils) components) as [c|] eqn:Gc;
    [|congruence].
  destruct (storeUsage_nothing astUtil context utils node (Vars.mk None None [] None)
              components c Gc) as (s' & Es & S).
  { intros used flag. reflexivity. }
  rewrite Es. split; [reflexivity|exact S].
Qed.

Lemma bare_props_in_class_not_recorded_witness :
  getPropertyName ClassBareProps.propsX ClassBareProps.inFunctionNode
    (inClassComponent ClassBareProps.classNode) false = Ok None /\
  fst (markPropTypesAsUsed exampleAstUtil false ClassBareProps.inFunctionNode
         (inClassComponent ClassBareProps.classNode) ClassBareProps.propsX []
         ClassBareProps.registry) = Ok tt /\
  sameUsage
    (snd (markPropTypesAsUsed exampleAstUtil false ClassBareProps.inFunctionNode
            (inClassComponent ClassBareProps.classNode) ClassBareProps.propsX []
            ClassBareProps.registry))
    ClassBareProps.registry.
Proof.
  apply (bare_props_in_class_not_recorded exampleAstUtil false
           ClassBareProps.inFunctionNode (inClassComponent ClassBareProps.classNode)
           ClassBareProps.propsX ClassBareProps.statement false false []
           ClassBareProps.registry);
    [reflexivity|reflexivity|reflexivity|vm_compute; reflexivity|reflexivity|reflexivity|].
  unfold ownerOpen. simpl. discriminate.
Defined.

(** X9. Past the resolver's first [if], an access whose key is a plain
    identifier ([props.y]) or a string literal ([props['y']]) resolves to
    [y].  Let the access not be the object of its parent and the owning
    component [g] be registered.  When [y] is not empty, not the computed
    marker ['__COMPUTED_PROP__'] and not a property of [Object.prototype],
    marking the access appends exactly one usage, of name [y] and path the
    parent names followed by [y], and changes no flag.  When [y] is not
    empty but is the marker or a property of [Object.prototype], marking it
    leaves every usage list and every flag as it was. *)
Theorem named_key_recorded astUtil check context utils (g node target p : Node) (k : Ast)
    (setStateProp inUpdater : bool) (y : string) parentNames components :
  type node = "MemberExpression" ->
  isPropArgumentInSetStateUpdater context node = Ok setStateProp ->
  inSetStateUpdater context = Ok inUpdater ->
  let direct :=
    DIRECT_PROPS_REGEX (getText context node)
    || DIRECT_NEXT_PROPS_REGEX (getText context node)
    || DIRECT_PREV_PROPS_REGEX (getText context node)
    || setStateProp in
  direct
  && (isSome (getParentES6Component utils) || isSome (getParentES5Component utils))
  && negb (inConstructor utils (Some node))
  && negb (inLifeCycleMethod context check)
  && negb inUpdater = false ->
  (if direct then Some node else parent node) = Some target ->
  property target = Some k ->
  (type k = "Identifier" /\ computed target = false /\ name k = Some y) \/
  (type k = "Literal" /\ value k = Some (VString y)) ->
  parent node = Some p ->
  continuesChain node p = false ->
  getParentComponent utils = Some g ->
  ownerOpen utils components ->
  getPropertyName node context utils check = Ok (Some y)
  /\
  (y <> "" -> recordable y = true ->
   exists u,
     fst (markPropTypesAsUsed astUtil check context utils node parentNames components)
       = Ok tt /\
     usages (snd (markPropTypesAsUsed astUtil check context utils node parentNames
                    components)) (uid g) = usages components (uid g) ++ [u] /\
     nameAndPath u = (Some y, map Some (parentNames ++ [y])) /\
     (forall j, flagged (snd (markPropTypesAsUsed astUtil check context utils node
                                parentNames components)) j = flagged components j))
  /\
  (y <> "" -> recordable y = false ->
   fst (markPropTypesAsUsed astUtil check context utils node parentNames components)
     = Ok tt /\
   sameUsage
     (snd (markPropTypesAsUsed astUtil check context utils node parentNames components))
     components).
Proof.
  intros T SP U direct E Tg Pk K P C G O.
  assert (GP : getPropertyName node context utils check = Ok (Some y)).
  { rewrite (getPropertyName_key context utils check node target k setStateProp inUpdater
               SP U E Tg Pk).
    destruct K as [(Tk & Ck & Nk)|(Tk & Vk)].
    - rewrite Tk, Ck, Nk. reflexivity.
    - rewrite Tk, Vk. reflexivity. }
  split; [exact GP|]. split.
  - intros N R.
    assert (CH : Chain astUtil check context utils node [y])
      by (apply Chain_last with (p := p); assumption).
    destruct (chain_records astUtil check context utils g G node [y] CH parentNames
                components O) as (new & F & Us & M & Fl & _).
    simpl in M. rewrite R in M. simpl in M.
    destruct new as [|u [|u' rest]]; try discriminate M.
    exists u. split; [exact F|]. split; [exact Us|]. split; [|exact Fl].
    injection M as M H. unfold nameAndPath. rewrite M, H. reflexivity.
  - intros N R.
    assert (Un : y = COMPUTED_PROP \/ inObjectPrototype y = true).
    { unfold recordable in R. apply andb_false_iff in R. destruct R as [R|R].
      - left. apply negb_false_iff in R. apply String.eqb_eq in R. exact R.
      - right. apply negb_false_iff in R. exact R. }
    pose proof (mark_member_unrecorded astUtil check context utils node parentNames y
                  components T GP N Un O) as [F S].
    rewrite (continuation_stops astUtil check context utils node p parentNames y
               components P C) in F, S.
    split; [exact F|exact S].
Qed.

Lemma named_key_recorded_witness :
  getPropertyName StringKey.propsY StringKey.inFunctionNode
    (inFunctionComponent StringKey.functionNode) false = Ok (Some "y") /\
  (exists u,
     fst (markPropTypesAsUsed exampleAstUtil false StringKey.inFunctionNode
            (inFunctionComponent StringKey.functionNode) StringKey.propsY []
            StringKey.registry) = Ok tt /\
     usages (snd (markPropTypesAsUsed exampleAstUtil false StringKey.inFunctionNode
                    (inFunctionComponent StringKey.functionNode) StringKey.propsY []
                    StringKey.registry)) (uid StringKey.functionNode) = [u] /\
     nameAndPath u = (Some "y", [Some "y"])) /\
  sameUsage
    (snd (markPropTypesAsUsed exampleAstUtil false ObjectMethod.inFunctionNode
            (inFunctionComponent ObjectMethod.functionNode)
            ObjectMethod.propsHasOwnProperty [] ObjectMethod.registry))
    ObjectMethod.registry.
Proof.
  destruct (named_key_recorded exampleAstUtil false StringKey.inFunctionNode
              (inFunctionComponent StringKey.functionNode) StringKey.functionNode
              StringKey.propsY StringKey.propsY StringKey.statement StringKey.yAst
              false false "y" [] StringKey.registry)
    as (G & R & _);
    [reflexivity|reflexivity|reflexivity|vm_compute; reflexivity|vm_compute; reflexivity
    |reflexivity|right; split; reflexivity|reflexivity|reflexivity
    |reflexivity|unfold ownerOpen; simpl; discriminate|].
  destruct (named_key_recorded exampleAstUtil false ObjectMethod.inFunctionNode
              (inFunctionComponent ObjectMethod.functionNode) ObjectMethod.functionNode
              ObjectMethod.propsHasOwnProperty ObjectMethod.propsHasOwnProperty
              ObjectMethod.statement ObjectMethod.hasOwnPropertyAst
              false false "hasOwnProperty" [] ObjectMethod.registry)
    as (_ & _ & Q);
    [reflexivity|reflexivity|reflexivity|vm_compute; reflexivity|vm_compute; reflexivity
    |reflexivity|left; repeat split; reflexivity|reflexivity|reflexivity
    |reflexivity|unfold ownerOpen; simpl; discriminate|].
  destruct R as (u & F & U & N & _); [discriminate|reflexivity|].
  split; [exact G|]. split.
  - exists u. split; [exact F|]. split; [exact U|exact N].
  - apply Q; [discriminate|reflexivity].
Defined.

(* ------------------------------------------------------------------ *)
(** ** What a destructuring pattern records *)
(* ------------------------------------------------------------------ *)

(** The loop of the ['destructuring'] case, unrolled. *)
Lemma markDestructured_sound_prefix astUtil context (node : Ast) names fields used flag :
  namesToProps node = Ok names ->
  markDestructured astUtil context node fields used flag =
  Ok (used ++ fieldUsages astUtil context names (soundPrefix context fields),
      flag || existsb (unsound context) fields).
Proof.
  intros N. revert used. induction fields as [|p rest IH]; intros used; simpl.
  - rewrite app_nil_r, orb_false_r. reflexivity.
  - fold (unsound context p). destruct (unsound context p) eqn:U; simpl.
    + rewrite app_nil_r, orb_true_r. reflexivity.
    + rewrite N. simpl. rewrite IH. unfold fieldUsages. simpl.
      destruct (truthy (getKeyValue astUtil context p)); simpl.
      * rewrite <- app_assoc. reflexivity.
      * reflexivity.
Qed.

(** X10. The loop over the fields of a pattern, whenever the names that lead
    to the props root are found: it appends one usage per field of the sound
    prefix whose key has a name (fields without one are passed over), in
    order, and the flag after it is the flag before or true when some field
    has a spread marker or a computed key. *)
Theorem markDestructured_result astUtil context (node : Ast) names fields used flag :
  namesToProps node = Ok names ->
  markDestructured astUtil context node fields used flag =
  Ok (used ++ fieldUsages astUtil context names (soundPrefix context fields),
      flag || existsb (unsound context) fields).
Proof.
  exact (markDestructured_sound_prefix astUtil context node names fields used flag).
Qed.

Lemma markDestructured_result_witness :
  markDestructured exampleAstUtil ComputedFirst.inFunctionNode ComputedFirst.declarator
    [ComputedFirst.fieldAAst; ComputedFirst.fieldKAst; ComputedFirst.fieldAAst]
    [earlierUsage] false =
  Ok ([earlierUsage;
       UsageRecord.mk (Some "a") [Some "a"] (Some ComputedFirst.fieldAAst)], true).
Proof.
  apply (markDestructured_result exampleAstUtil ComputedFirst.inFunctionNode
           ComputedFirst.declarator []
           [ComputedFirst.fieldAAst; ComputedFirst.fieldKAst; ComputedFirst.fieldAAst]
           [earlierUsage] false).
  reflexivity.
Defined.

Section Destructuring.

Variable astUtil : AstUtil.
Variable check : bool.
Variable context : Context.
Variable utils : Utils.
Variable g : Node.
Hypothesis owner : getParentComponent utils = Some g.

Local Abbreviation mark := (markPropTypesAsUsed astUtil check context utils).

(** Storing under type ['destructuring']. *)
Lemma storeUsage_destructuring (node : Node) name allNames fields names components :
  ownerOpen utils components ->
  namesToProps node = Ok names ->
  exists components',
    storeUsage astUtil context utils node
      (Vars.mk (Some destructuring) name allNames fields) components
    = (Ok tt, components') /\
    usages components' (uid g) =
      usages components (uid g)
      ++ fieldUsages astUtil context names (soundPrefix context (orEmpty fields)) /\
    flagged components' (uid g) =
      flagged components (uid g) || existsb (unsound context) (orEmpty fields) /\
    (forall k, k <> uid g ->
       Components.lookup k components' = Components.lookup k components).
Proof.
  intros O N.
  destruct (owner_found utils g owner components O) as (c & Gc & L & I).
  unfold storeUsage, bind, gets, lift, modify. rewrite Gc.
  unfold recordUsage. simpl Vars.type. cbv iota. simpl Vars.properties.
  fold (orEmpty fields).
  rewrite (markDestructured_sound_prefix astUtil context node names (orEmpty fields) _ _ N).
  eexists. split; [reflexivity|].
  destruct (set_owner g components c L I
              (usedOf (Some c)
                 ++ fieldUsages astUtil context names
                      (soundPrefix context (orEmpty fields)))
              (ignoredOf (Some c) || existsb (unsound context) (orEmpty fields)))
    as (S1 & S2 & S3 & _).
  cbv zeta in S1, S2, S3. cbn [fst snd].
  split; [rewrite S1; unfold usages; rewrite L; reflexivity|].
  split; [rewrite S2; unfold flagged; rewrite L; reflexivity|exact S3].
Qed.

Lemma mark_select (node : Node) parentNames vars components :
  selectUsage astUtil check context utils (markParentOf astUtil check context utils node)
    node parentNames components = (Ok vars, components) ->
  mark node parentNames components =
  storeUsage astUtil context utils node vars components.
Proof.
  intros S. rewrite markPropTypesAsUsed_unfold.
  unfold markPropTypesAsUsed_body, bind. unfold markParentOf in S. rewrite S. reflexivity.
Qed.

Lemma selectUsage_function_pattern markParent (node : Node) parentNames ps inUpdater param
    components :
  In (type node) functionTypes ->
  params node = Some ps ->
  inSetStateUpdater context = Ok inUpdater ->
  propParam inUpdater ps = Some param ->
  (type param = "AssignmentPattern" -> left param <> None) ->
  selectUsage astUtil check context utils markParent node parentNames components =
  (Ok (Vars.mk (Some destructuring) None [] (patternFields param)), components).
Proof.
  intros T P U S A. unfold selectUsage.
  assert (M : (type node =? "MemberExpression") = false).
  { apply String.eqb_neq. intros E. rewrite E in T. simpl in T.
    destruct T as [T|[T|[T|[]]]]; discriminate T. }
  assert (F : (type node =? "ArrowFunctionExpression")
              || (type node =? "FunctionDeclaration")
              || (type node =? "FunctionExpression") = true).
  { simpl in T. destruct T as [T|[T|[T|[]]]]; rewrite <- T; simpl;
      rewrite ?orb_true_r; reflexivity. }
  rewrite M, F. unfold bind, lift, ret. rewrite P. simpl.
  assert (L : Nat.eqb (List.length ps) 0 = false).
  { destruct ps; [|reflexivity]. unfold propParam in S. destruct inUpdater; discriminate S. }
  rewrite L, U. simpl. rewrite S. simpl. unfold patternFields.
  destruct (type param =? "AssignmentPattern") eqn:AP; [|reflexivity].
  apply String.eqb_eq in AP. specialize (A AP).
  destruct (left param) as [l|]; [reflexivity|congruence].
Qed.

Lemma someDestructuring_generic (node : Node) first others :
  keyedProps first = false ->
  isPropAttributeName node = Ok true ->
  isSome (getParentStatelessComponent utils) || isInLifeCycleMethod node check = true ->
  someDestructuring check utils node (first :: others) =
  Ok (Some (match id node with Some i => properties i | None => None end)).
Proof.
  intros K A S. simpl. unfold keyedProps in K.
  destruct (key first) as [k|]; [rewrite K|]; simpl; rewrite A; simpl; rewrite S;
    reflexivity.
Qed.

Lemma someDestructuring_this (node : Node) pre field post v :
  Forall (fun p => keyedProps p = false) pre ->
  keyedProps field = true ->
  value field = Some (VNode v) ->
  type v = "ObjectPattern" ->
  isPropAttributeName node = Ok false ->
  someDestructuring check utils node (pre ++ field :: post) = Ok (Some (properties v)).
Proof.
  intros F K V T A. induction F as [|p rest Hp Hrest IH]; simpl.
  - unfold keyedProps in K. destruct (key field) as [k|]; [|discriminate K].
    rewrite K, V. simpl. rewrite T, A. simpl. reflexivity.
  - unfold keyedProps in Hp.
    destruct (key p) as [k|]; [rewrite Hp|]; simpl; rewrite A; simpl; exact IH.
Qed.

Lemma selectUsage_declarator markParent (node : Node) parentNames (i : Ast) props found
    components :
  type node = "VariableDeclarator" ->
  id node = Some i ->
  properties i = Some props ->
  someDestructuring check utils node props = Ok (Some found) ->
  selectUsage astUtil check context utils markParent node parentNames components =
  (Ok (Vars.mk (Some destructuring) None [] found), components).
Proof.
  intros T I P S. unfold selectUsage. rewrite T. simpl.
  unfold bind, lift, ret. rewrite I. simpl. rewrite P. simpl. rewrite S. reflexivity.
Qed.

End Destructuring.

(** Marking a function-like node whose property parameter is [param]. *)
Lemma mark_function_pattern astUtil check context utils (g node : Node)
    parentNames ps inUpdater param components :
  In (type node) functionTypes ->
  params node = Some ps ->
  inSetStateUpdater context = Ok inUpdater ->
  propParam inUpdater ps = Some param ->
  (type param = "AssignmentPattern" -> left param <> None) ->
  property node = None ->
  getParentComponent utils = Some g ->
  ownerOpen utils components ->
  exists components',
    markPropTypesAsUsed astUtil check context utils node parentNames components
    = (Ok tt, components') /\
    usages components' (uid g) =
      usages components (uid g)
      ++ fieldUsages astUtil context []
           (soundPrefix context (orEmpty (patternFields param))) /\
    flagged components' (uid g) =
      flagged components (uid g)
      || existsb (unsound context) (orEmpty (patternFields param)) /\
    (forall k, k <> uid g ->
       Components.lookup k components' = Components.lookup k components).
Proof.
  intros T P U S A Pr G O.
  rewrite (mark_select astUtil check context utils node parentNames _ components
             (selectUsage_function_pattern astUtil check context utils _ node parentNames
                ps inUpdater param components T P U S A)).
  apply (storeUsage_destructuring astUtil context utils g G node None []
           (patternFields param) [] components O).
  destruct node as [a q]. simpl in *. destruct a. simpl in *. rewrite Pr. reflexivity.
Qed.

(** X11. A function-like node whose property parameter (the second in an
    updater, the first otherwise) is a pattern, or has one as the left-hand
    side of its default value: marking it inside the open component [g]
    appends one usage per named field of the pattern's sound prefix, each
    with the field's name as its whole path, in the order of the pattern;
    the flag of [g] is set exactly when it was or some field has a spread
    marker or a computed key; no other entry changes.  A parameter that is
    no pattern records nothing. *)
Theorem function_parameter_pattern_recorded astUtil check context utils (g node : Node)
    parentNames ps inUpdater param components :
  In (type node) functionTypes ->
  params node = Some ps ->
  inSetStateUpdater context = Ok inUpdater ->
  propParam inUpdater ps = Some param ->
  (type param = "AssignmentPattern" -> left param <> None) ->
  property node = None ->
  getParentComponent utils = Some g ->
  ownerOpen utils components ->
  exists components',
    markPropTypesAsUsed astUtil check context utils node parentNames components
    = (Ok tt, components') /\
    usages components' (uid g) =
      usages components (uid g)
      ++ fieldUsages astUtil context []
           (soundPrefix context (orEmpty (patternFields param))) /\
    flagged components' (uid g) =
      flagged components (uid g)
      || existsb (unsound context) (orEmpty (patternFields param)) /\
    (forall k, k <> uid g ->
       Components.lookup k components' = Components.lookup k components).
Proof.
  intros T P U S A Pr G O.
  exact (mark_function_pattern astUtil check context utils g node parentNames ps inUpdater
           param components T P U S A Pr G O).
Qed.

Lemma function_parameter_pattern_recorded_witness :
  exists components',
    markPropTypesAsUsed exampleAstUtil false Updater.inUpdater
      (inClassComponent Updater.classNode) Updater.updater [] Updater.registry
    = (Ok tt, components') /\
    usages components' (uid Updater.classNode) =
      [UsageRecord.mk (Some "b") [Some "b"] (Some Updater.fieldBAst)] /\
    flagged components' (uid Updater.classNode) = false.
Proof.
  destruct (function_parameter_pattern_recorded exampleAstUtil false Updater.inUpdater
              (inClassComponent Updater.classNode) Updater.classNode Updater.updater []
              [Updater.stateAst; Updater.patternAst] true Updater.patternAst
              Updater.registry)
    as (components' & E & U & F & _);
    [simpl; tauto|reflexivity|reflexivity|reflexivity|discriminate|reflexivity
    |reflexivity|unfold ownerOpen; simpl; discriminate|].
  exists components'. split; [exact E|]. split; [rewrite U|rewrite F]; reflexivity.
Defined.

(** X12. [let {firstname} = props]: a declarator whose initializer is named
    props, nextProps or prevProps, in a function component or inside a
    lifecycle method, and whose first pattern property is not keyed props.
    Marking it inside the open component [g] appends one usage per named
    field of the sound prefix of the whole pattern, in order; the flag of
    [g] is set exactly when it was or some field has a spread marker or a
    computed key. *)
Theorem flat_destructuring_recorded astUtil check context utils (g node : Node)
    parentNames (i first : Ast) others components :
  type node = "VariableDeclarator" ->
  id node = Some i ->
  properties i = Some (first :: others) ->
  keyedProps first = false ->
  isPropAttributeName node = Ok true ->
  isSome (getParentStatelessComponent utils) || isInLifeCycleMethod node check = true ->
  property node = None ->
  getParentComponent utils = Some g ->
  ownerOpen utils components ->
  exists components',
    markPropTypesAsUsed astUtil check context utils node parentNames components
    = (Ok tt, components') /\
    usages components' (uid g) =
      usages components (uid g)
      ++ fieldUsages astUtil context [] (soundPrefix context (first :: others)) /\
    flagged components' (uid g) =
      flagged components (uid g) || existsb (unsound context) (first :: others) /\
    (forall k, k <> uid g ->
       Components.lookup k components' = Components.lookup k components).
Proof.
  intros T I P K A S Pr G O.
  assert (Sel : selectUsage astUtil check context utils
                  (markParentOf astUtil check context utils node) node parentNames
                  components =
                (Ok (Vars.mk (Some destructuring) None [] (Some (first :: others))),
                 components)).
  { rewrite (selectUsage_declarator astUtil check context utils _ node parentNames i
               (first :: others) (Some (first :: others)) components T I P);
      [reflexivity|].
    rewrite (someDestructuring_generic check utils node first others K A S).
    rewrite I, P. reflexivity. }
  rewrite (mark_select astUtil check context utils node parentNames _ components Sel).
  apply (storeUsage_destructuring astUtil context utils g G node None []
           (Some (first :: others)) [] components O).
  destruct node as [a q]. simpl in *. destruct a. simpl in *. rewrite Pr. reflexivity.
Qed.

Lemma flat_destructuring_recorded_witness :
  exists components',
    markPropTypesAsUsed exampleAstUtil false SpreadLast.inFunctionNode
      (inFunctionComponent SpreadLast.functionNode) SpreadLast.declarator []
      SpreadLast.registry
    = (Ok tt, components') /\
    usages components' (uid SpreadLast.functionNode) =
      [UsageRecord.mk (Some "a") [Some "a"] (Some SpreadLast.fieldAAst)] /\
    flagged components' (uid SpreadLast.functionNode) = true.
Proof.
  destruct (flat_destructuring_recorded exampleAstUtil false SpreadLast.inFunctionNode
              (inFunctionComponent SpreadLast.functionNode) SpreadLast.functionNode
              SpreadLast.declarator [] SpreadLast.patternAst SpreadLast.fieldAAst
              [SpreadLast.fieldRestAst] SpreadLast.registry)
    as (components' & E & U & F & _);
    [reflexivity|reflexivity|reflexivity|reflexivity|reflexivity|reflexivity
    |reflexivity|reflexivity|unfold ownerOpen; simpl; discriminate|].
  exists components'. split; [exact E|]. split; [rewrite U|rewrite F]; reflexivity.
Defined.

(** X13. [let {props: {firstname}} = this]: a declarator whose initializer
    is not named props, nextProps or prevProps and whose first pattern
    property keyed props has an object pattern as value.  Marking it inside
    the open component [g] appends one usage per named field of the sound
    prefix of that nested pattern, in order; the properties beside it
    record nothing. *)
Theorem this_destructuring_recorded astUtil check context utils (g node : Node)
    parentNames (i field v : Ast) pre post components :
  type node = "VariableDeclarator" ->
  id node = Some i ->
  properties i = Some (pre ++ field :: post) ->
  Forall (fun p => keyedProps p = false) pre ->
  keyedProps field = true ->
  value field = Some (VNode v) ->
  type v = "ObjectPattern" ->
  isPropAttributeName node = Ok false ->
  property node = None ->
  getParentComponent utils = Some g ->
  ownerOpen utils components ->
  exists components',
    markPropTypesAsUsed astUtil check context utils node parentNames components
    = (Ok tt, components') /\
    usages components' (uid g) =
      usages components (uid g)
      ++ fieldUsages astUtil context [] (soundPrefix context (orEmpty (properties v))) /\
    flagged components' (uid g) =
      flagged components (uid g) || existsb (unsound context) (orEmpty (properties v)) /\
    (forall k, k <> uid g ->
       Components.lookup k components' = Components.lookup k components).
Proof.
  intros T I P F K V Tv A Pr G O.
  assert (Sel : selectUsage astUtil check context utils
                  (markParentOf astUtil check context utils node) node parentNames
                  components =
                (Ok (Vars.mk (Some destructuring) None [] (properties v)), components)).
  { apply (selectUsage_declarator astUtil check context utils _ node parentNames i
             (pre ++ field :: post) (properties v) components T I P).
    apply (someDestructuring_this check utils node pre field post v F K V Tv A). }
  rewrite (mark_select astUtil check context utils node parentNames _ components Sel).
  apply (storeUsage_destructuring astUtil context utils g G node None []
           (properties v) [] components O).
  destruct node as [a q]. simpl in *. destruct a. simpl in *. rewrite Pr. reflexivity.
Qed.

Lemma this_destructuring_recorded_witness :
  exists components',
    markPropTypesAsUsed exampleAstUtil false ThisPattern.inFunctionNode
      (inClassComponent ThisPattern.classNode) ThisPattern.declarator []
      ThisPattern.registry
    = (Ok tt, components') /\
    usages components' (uid ThisPattern.classNode) =
      [UsageRecord.mk (Some "a") [Some "a"] (Some ThisPattern.fieldAAst)] /\
    flagged components' (uid ThisPattern.classNode) = false.
Proof.
  destruct (this_destructuring_recorded exampleAstUtil false ThisPattern.inFunctionNode
              (inClassComponent ThisPattern.classNode) ThisPattern.classNode
              ThisPattern.declarator [] ThisPattern.patternAst ThisPattern.fieldPropsAst
              ThisPattern.innerAst [] [] ThisPattern.registry)
    as (components' & E & U & F & _);
    [reflexivity|reflexivity|reflexivity|constructor|reflexivity|reflexivity
    |reflexivity|reflexivity|reflexivity|reflexivity
    |unfold ownerOpen; simpl; discriminate|].
  exists components'. split; [exact E|]. split; [rewrite U|rewrite F]; reflexivity.
Defined.

(** The loop that collects the path of a destructured access returns
    exactly the keys between the access and the props root. *)
Lemma namesToProps_PropsPath : forall (node : Ast) names,
  namesToProps node = Ok names <-> PropsPath node names.
Proof.
  assert (To : forall node names, namesToProps node = Ok names -> PropsPath node names).
  { fix IH 1. intros node names. destruct node. simpl.
    destruct property0 as [p|].
    - destruct (isStr (name p) "props") eqn:N; simpl.
      + intros H. injection H as <-. apply PropsPath_root. simpl.
        apply isStr_eq. exact N.
      + destruct object0 as [o|]; [|discriminate].
        destruct (namesToProps o) as [inner|e] eqn:E; simpl; [|discriminate].
        intros H. injection H as <-.
        apply PropsPath_key with (o := o); simpl; try reflexivity.
        * intros H. apply isStr_eq in H. congruence.
        * apply IH. exact E.
    - intros H. injection H as <-. apply PropsPath_root. simpl. exact I. }
  assert (From : forall node names, PropsPath node names -> namesToProps node = Ok names).
  { induction 1 as [node R|node o p names P N O K IH].
    - destruct node. simpl in *. destruct property0 as [p|]; [|reflexivity].
      apply isStr_eq in R. rewrite R. reflexivity.
    - destruct node. simpl in *. subst property0 object0.
      assert (F : isStr (name p) "props" = false).
      { destruct (isStr (name p) "props") eqn:E; [|reflexivity].
        apply isStr_eq in E. contradiction. }
      rewrite F. simpl. rewrite IH. reflexivity. }
  intros node names. split; [apply To|apply From].
Qed.

(** X14. [const {c} = this.props.a]: a member access that resolves to no
    name and is the initializer of a pattern whose first property has a key
    name.  Let [names] be the keys met going down from the access to the
    props root (the first object whose key is named props, or that has no
    key), the key of the access last.  Marking the access inside the
    registered component [g] appends one usage per named field of the
    pattern's sound prefix, each with path [names] followed by the field's
    name. *)
Theorem destructured_access_recorded astUtil check context utils (g node p : Node)
    (o : option string) fields names parentNames components :
  type node = "MemberExpression" ->
  getPropertyName node context utils check = Ok o ->
  truthy o = false ->
  parent node = Some p ->
  destructuredBy astUtil context p = Some fields ->
  PropsPath node names ->
  getParentComponent utils = Some g ->
  ownerOpen utils components ->
  exists components',
    markPropTypesAsUsed astUtil check context utils node parentNames components
    = (Ok tt, components') /\
    usages components' (uid g) =
      usages components (uid g)
      ++ fieldUsages astUtil context names (soundPrefix context fields) /\
    flagged components' (uid g) =
      flagged components (uid g) || existsb (unsound context) fields /\
    (forall k, k <> uid g ->
       Components.lookup k components' = Components.lookup k components).
Proof.
  intros T GP F P D N G O.
  apply namesToProps_PropsPath in N.
  rewrite (mark_member_unnamed astUtil check context utils node p o parentNames
             components T GP F P), D.
  apply (storeUsage_destructuring astUtil context utils g G node o [] (Some fields)
           names components O N).
Qed.

Lemma destructured_access_recorded_witness :
  exists components',
    markPropTypesAsUsed exampleAstUtil false MemberPattern.inFunctionNode
      (inClassComponent MemberPattern.classNode) MemberPattern.thisPropsA ["a"]
      MemberPattern.registry
    = (Ok tt, components') /\
    usages components' (uid MemberPattern.classNode) =
      [UsageRecord.mk (Some "c") [Some "a"; Some "c"] (Some MemberPattern.fieldCAst)] /\
    flagged components' (uid MemberPattern.classNode) = false.
Proof.
  destruct (destructured_access_recorded exampleAstUtil false MemberPattern.inFunctionNode
              (inClassComponent MemberPattern.classNode) MemberPattern.classNode
              MemberPattern.thisPropsA MemberPattern.declarator None
              [MemberPattern.fieldCAst] [Some "a"] ["a"] MemberPattern.registry)
    as (components' & E & U & F & _);
    [reflexivity|vm_compute; reflexivity|reflexivity|reflexivity|reflexivity
    | |reflexivity|unfold ownerOpen; simpl; discriminate|].
  { apply (@PropsPath_key MemberPattern.thisPropsAAst MemberPattern.thisPropsAst
             MemberPattern.aAst []); try reflexivity.
    - discriminate.
    - apply PropsPath_root. reflexivity. }
  exists components'. split; [exact E|]. split; [rewrite U|rewrite F]; reflexivity.
Defined.

(* ------------------------------------------------------------------ *)
(** ** The handlers of function-like nodes and patterns *)
(* ------------------------------------------------------------------ *)

(** X15. Entering a function outside any updater whose first parameter is
    an object pattern, or has one as the left-hand side of its default
    value, when the function or its parent is registered: the handler marks
    the function exactly once, appending one usage per named field of the
    pattern's sound prefix to the usage list of the owning component [g]. *)
Theorem function_component_pattern_recorded astUtil check context utils (g node : Node)
    ps param components :
  In (type node) functionTypes ->
  params node = Some ps ->
  inSetStateUpdater context = Ok false ->
  nth_error ps 0 = Some param ->
  type param = "ObjectPattern" \/
  (type param = "AssignmentPattern" /\
   exists l, left param = Some l /\ type l = "ObjectPattern") ->
  isSome (Components.get (Some node) components)
  || isSome (Components.get (parent node) components) = true ->
  property node = None ->
  getParentComponent utils = Some g ->
  ownerOpen utils components ->
  exists components',
    handleFunctionLikeExpressions astUtil check context utils node components
    = (Ok tt, components') /\
    usages components' (uid g) =
      usages components (uid g)
      ++ fieldUsages astUtil context []
           (soundPrefix context (orEmpty (patternFields param))) /\
    flagged components' (uid g) =
      flagged components (uid g)
      || existsb (unsound context) (orEmpty (patternFields param)) /\
    (forall k, k <> uid g ->
       Components.lookup k components' = Components.lookup k components).
Proof.
  intros T P U S D R Pr G O.
  assert (H : handleFunctionLikeExpressions astUtil check context utils node components =
              markPropTypesAsUsed astUtil check context utils node [] components).
  { unfold handleFunctionLikeExpressions, handleSetStateUpdater,
      markDestructuredFunctionArgumentsAsUsed, bind, lift, ret, gets.
    rewrite P, U.
    assert (S' : propParam false ps = Some param) by exact S.
    assert (E : match param with
                | p => if type p =? "ObjectPattern" then Ok true
                       else if type p =? "AssignmentPattern"
                            then let* l := field (left p) in Ok (type l =? "ObjectPattern")
                            else Ok false
                end = Ok true).
    { destruct D as [D|(D & l & L & Tl)].
      - rewrite D. reflexivity.
      - rewrite D, L. simpl. rewrite Tl. reflexivity. }
    destruct (Nat.ltb (List.length ps) 2); cbn [negb rbind]; rewrite S', E, R;
      reflexivity. }
  rewrite H.
  apply (mark_function_pattern astUtil check context utils g node [] ps false param
           components T P U S); try assumption.
  intros X. destruct D as [D|(_ & l & L & _)]; congruence.
Qed.

Lemma function_component_pattern_recorded_witness :
  exists components',
    handleFunctionLikeExpressions exampleAstUtil false PatternParam.inFunctionNode
      (inFunctionComponent PatternParam.functionNode) PatternParam.functionNode
      PatternParam.registry
    = (Ok tt, components') /\
    usages components' (uid PatternParam.functionNode) =
      [UsageRecord.mk (Some "a") [Some "a"] (Some PatternParam.fieldAAst);
       UsageRecord.mk (Some "b") [Some "b"] (Some PatternParam.fieldBAst)] /\
    flagged components' (uid PatternParam.functionNode) = false.
Proof.
  destruct (function_component_pattern_recorded exampleAstUtil false
              PatternParam.inFunctionNode (inFunctionComponent PatternParam.functionNode)
              PatternParam.functionNode PatternParam.functionNode
              [PatternParam.patternAst] PatternParam.patternAst PatternParam.registry)
    as (components' & E & U & F & _);
    [simpl; tauto|reflexivity|reflexivity|reflexivity|left; reflexivity|reflexivity
    |reflexivity|reflexivity|unfold ownerOpen; simpl; discriminate|].
  exists components'. split; [exact E|]. split; [rewrite U|rewrite F]; reflexivity.
Defined.

(** X16. Entering a non-empty object pattern that is a parameter of a
    lifecycle method: the handler marks the method's function, which records
    the fields of the function's property parameter (the first one outside
    an updater), whichever parameter the visited pattern is. *)
Theorem lifecycle_pattern_records_property_parameter astUtil check context utils
    (g node p pp : Node) first others ps inUpdater param components :
  parent node = Some p ->
  parent p = Some pp ->
  isNodeALifeCycleMethod pp check = true ->
  properties node = Some (first :: others) ->
  In (type p) functionTypes ->
  params p = Some ps ->
  inSetStateUpdater context = Ok inUpdater ->
  propParam inUpdater ps = Some param ->
  (type param = "AssignmentPattern" -> left param <> None) ->
  property p = None ->
  getParentComponent utils = Some g ->
  ownerOpen utils components ->
  exists components',
    ObjectPattern astUtil check context utils node components = (Ok tt, components') /\
    usages components' (uid g) =
      usages components (uid g)
      ++ fieldUsages astUtil context []
           (soundPrefix context (orEmpty (patternFields param))) /\
    flagged components' (uid g) =
      flagged components (uid g)
      || existsb (unsound context) (orEmpty (patternFields param)) /\
    (forall k, k <> uid g ->
       Components.lookup k components' = Components.lookup k components).
Proof.
  intros Pn Pp LC Props T P U S A Pr G O.
  assert (H : ObjectPattern astUtil check context utils node components =
              markPropTypesAsUsed astUtil check context utils p [] components).
  { unfold ObjectPattern, bind, lift. rewrite Pn. simpl. rewrite Pp. simpl.
    rewrite LC, Props. reflexivity. }
  rewrite H.
  exact (mark_function_pattern astUtil check context utils g p [] ps inUpdater param
           components T P U S A Pr G O).
Qed.

Lemma lifecycle_pattern_records_property_parameter_witness :
  exists components',
    ObjectPattern exampleAstUtil false LifeCyclePatterns.inFunctionNode
      (inClassComponent LifeCyclePatterns.classNode) LifeCyclePatterns.patternS
      LifeCyclePatterns.registry
    = (Ok tt, components') /\
    usages components' (uid LifeCyclePatterns.classNode) =
      [UsageRecord.mk (Some "a") [Some "a"] (Some LifeCyclePatterns.fieldAAst)].
Proof.
  destruct (lifecycle_pattern_records_property_parameter exampleAstUtil false
              LifeCyclePatterns.inFunctionNode
              (inClassComponent LifeCyclePatterns.classNode)
              LifeCyclePatterns.classNode LifeCyclePatterns.patternS
              LifeCyclePatterns.functionNode LifeCyclePatterns.method
              LifeCyclePatterns.fieldSAst []
              [LifeCyclePatterns.patternAAst; LifeCyclePatterns.patternSAst] false
              LifeCyclePatterns.patternAAst LifeCyclePatterns.registry)
    as (components' & E & U & _);
    [reflexivity|reflexivity|reflexivity|reflexivity|simpl; tauto|reflexivity
    |reflexivity|reflexivity|discriminate|reflexivity|reflexivity
    |unfold ownerOpen; simpl; discriminate|].
  exists components'. split; [exact E|]. rewrite U. reflexivity.
Defined.

(* ------------------------------------------------------------------ *)
(** ** Leaving the program *)
(* ------------------------------------------------------------------ *)

Lemma forEach_still {A} (f : A -> M unit) (l : list A) components :
  (forall a, In a l -> f a components = (Ok tt, components)) ->
  forEach f l components = (Ok tt, components).
Proof.
  induction l as [|x rest IH]; intros H; simpl; [reflexivity|].
  unfold bind. rewrite (H x (or_introl eq_refl)).
  apply IH. intros a Ha. apply H. right. exact Ha.
Qed.

(** X17. Leaving the program looks only at the components that must be
    validated, and in those only at the declared prop types whose
    declaration has a function-like value.  When no registered component has
    one, it returns with the registry as it was. *)
Theorem program_exit_skips_plain_declarations astUtil check context utils components :
  (forall c propTypes entry,
      In c (Components.list components) ->
      Component.ignorePropsValidation c = false ->
      Component.declaredPropTypes c = Some propTypes ->
      In entry propTypes ->
      exists n, snd entry = Some n /\
                match value n with
                | Some (VNode v) => isFunctionLikeExpression astUtil v = false
                | _ => True
                end) ->
  Program_exit astUtil check context utils components = (Ok tt, components).
Proof.
  intros H. unfold Program_exit, bind, gets.
  apply forEach_still. intros c Hc. apply filter_In in Hc. destruct Hc as [Hc V].
  unfold mustBeValidated in V. apply negb_true_iff in V.
  unfold handleCustomValidators.
  destruct (Component.declaredPropTypes c) as [propTypes|] eqn:D; [|reflexivity].
  apply forEach_still. intros entry He.
  destruct (H c propTypes entry Hc V D He) as (n & En & Hn).
  unfold bind, lift. rewrite En. simpl.
  destruct (value n) as [[s|raw|v]|]; try reflexivity.
  rewrite Hn. reflexivity.
Qed.

Lemma program_exit_skips_plain_declarations_witness :
  Program_exit exampleAstUtil false RenderName.inProgram noComponent
    [Component.mk RenderName.classNode None None false
       (Some [("name", Some RenderName.nameId)]);
     Component.mk RenderName.functionNode None None true
       (Some [("validator", Some RenderName.method)])]
  = (Ok tt,
     [Component.mk RenderName.classNode None None false
        (Some [("name", Some RenderName.nameId)]);
      Component.mk RenderName.functionNode None None true
        (Some [("validator", Some RenderName.method)])]).
Proof.
  apply (program_exit_skips_plain_declarations exampleAstUtil false RenderName.inProgram
           noComponent).
  intros c propTypes entry [<-|[<-|[]]] I D E; simpl in I, D; try discriminate I.
  injection D as <-. destruct E as [<-|[]].
  exists RenderName.nameId. split; reflexivity.
Defined.

(* ------------------------------------------------------------------ *)
(** ** Which exceptions the engine raises *)
(* ------------------------------------------------------------------ *)

Lemma onlyTypeError_Ok {A} (a : A) : onlyTypeError (Ok a).
Proof. intros e H. discriminate H. Qed.

Lemma onlyTypeError_field {A} (o : option A) : onlyTypeError (field o).
Proof. intros e H. destruct o; [discriminate H|]. injection H as <-. reflexivity. Qed.

Lemma onlyTypeError_TypeError {A} : onlyTypeError (@Throw A TypeError).
Proof. intros e H. injection H as <-. reflexivity. Qed.

Lemma onlyTypeError_rbind {A B} (r : Result A) (k : A -> Result B) :
  onlyTypeError r -> (forall a, onlyTypeError (k a)) -> onlyTypeError (rbind r k).
Proof.
  intros Hr Hk e H. destruct r as [a|e']; simpl in H.
  - exact (Hk a e H).
  - injection H as <-. apply Hr. reflexivity.
Qed.

Create HintDb ote.

#[local] Hint Resolve onlyTypeError_Ok onlyTypeError_field onlyTypeError_TypeError : ote.

Ltac ote :=
  repeat first
    [ solve [auto with ote]
    | apply onlyTypeError_rbind; [|intros ?]
    | match goal with
      | |- onlyTypeError (if ?b then _ else _) => destruct b
      | |- onlyTypeError (match ?x with _ => _ end) => destruct x
      end ].

Lemma isPropAttributeName_onlyTypeError node : onlyTypeError (isPropAttributeName node).
Proof. unfold isPropAttributeName. ote. Qed.

Lemma isSetStateUpdaterScope_onlyTypeError scope :
  onlyTypeError (isSetStateUpdaterScope scope).
Proof. unfold isSetStateUpdaterScope. ote. Qed.

#[local] Hint Resolve isPropAttributeName_onlyTypeError
  isSetStateUpdaterScope_onlyTypeError : ote.

Lemma inSetStateUpdater_onlyTypeError context : onlyTypeError (inSetStateUpdater context).
Proof.
  unfold inSetStateUpdater. destruct (getScope context) as [scope|]; [|ote].
  induction scope as [scope IH] using Scope_upper_ind.
  rewrite inSetStateUpdater_loop_unfold. cbv zeta.
  apply onlyTypeError_rbind; [ote|]. intros [|]; [ote|].
  destruct (upper scope) as [u|]; [apply IH; reflexivity|ote].
Qed.

Lemma isPropArgumentInSetStateUpdater_onlyTypeError context node :
  onlyTypeError (isPropArgumentInSetStateUpdater context node).
Proof.
  unfold isPropArgumentInSetStateUpdater.
  destruct (getScope context) as [scope|]; [|ote].
  induction scope as [scope IH] using Scope_upper_ind.
  rewrite isPropArgumentInSetStateUpdater_loop_unfold. cbv zeta.
  apply onlyTypeError_rbind; [ote|]. intros isUpdater.
  assert (N : onlyTypeError
                (match upper scope with
                 | Some u => isPropArgumentInSetStateUpdater_loop node u
                 | None => Ok false
                 end)).
  { destruct (upper scope) as [u|]; [apply IH; reflexivity|ote]. }
  ote.
Qed.

#[local] Hint Resolve inSetStateUpdater_onlyTypeError
  isPropArgumentInSetStateUpdater_onlyTypeError : ote.

Lemma getPropertyName_onlyTypeError node context utils check :
  onlyTypeError (getPropertyName node context utils check).
Proof. unfold getPropertyName. cbv zeta. ote. Qed.

Lemma isPropTypesUsage_onlyTypeError node context utils astUtil check :
  onlyTypeError (isPropTypesUsage node context utils astUtil check).
Proof. unfold isPropTypesUsage. cbv zeta. ote. Qed.

Lemma someDestructuring_onlyTypeError check utils node props :
  onlyTypeError (someDestructuring check utils node props).
Proof.
  induction props as [|p rest IH]; simpl; [ote|].
  apply onlyTypeError_rbind; [ote|]. intros thisDestructuring.
  apply onlyTypeError_rbind; [ote|]. intros isPropAttribute.
  destruct thisDestructuring; [ote|].
  match goal with |- onlyTypeError (if ?b then _ else _) => destruct b end; [ote|exact IH].
Qed.

Lemma namesToProps_onlyTypeError : forall node, onlyTypeError (namesToProps node).
Proof.
  fix IH 1. intros node. destruct node. simpl.
  destruct property0 as [p|]; [|ote].
  destruct (negb (isStr (name p) "props")); [|ote].
  destruct object0 as [o|]; [|ote].
  apply onlyTypeError_rbind; [apply IH|]. intros inner. ote.
Qed.

Lemma markDestructured_onlyTypeError astUtil context node fields used flag :
  onlyTypeError (markDestructured astUtil context node fields used flag).
Proof.
  revert used flag. induction fields as [|p rest IH]; intros used flag; simpl; [ote|].
  match goal with |- onlyTypeError (if ?b then _ else _) => destruct b end; [ote|].
  apply onlyTypeError_rbind; [apply namesToProps_onlyTypeError|]. intros names.
  apply IH.
Qed.

#[local] Hint Resolve getPropertyName_onlyTypeError isPropTypesUsage_onlyTypeError
  someDestructuring_onlyTypeError namesToProps_onlyTypeError
  markDestructured_onlyTypeError : ote.

Lemma recordUsage_onlyTypeError astUtil context utils node vars used flag :
  onlyTypeError (recordUsage astUtil context utils node vars used flag).
Proof.
  unfold recordUsage. destruct (Vars.type vars) as [[|]|]; [|ote|ote].
  match goal with |- onlyTypeError (if ?b then _ else _) => destruct b end; [ote|].
  cbv zeta. ote.
Qed.

Lemma OnlyTypeError_ret {A} (a : A) : OnlyTypeError (ret a).
Proof. intros s e H. discriminate H. Qed.

Lemma OnlyTypeError_gets {A} (f : Components.t -> A) : OnlyTypeError (gets f).
Proof. intros s e H. discriminate H. Qed.

Lemma OnlyTypeError_modify f : OnlyTypeError (modify f).
Proof. intros s e H. discriminate H. Qed.

Lemma OnlyTypeError_lift {A} (r : Result A) : onlyTypeError r -> OnlyTypeError (lift r).
Proof. intros H s. exact H. Qed.

Lemma OnlyTypeError_bind {A B} (m : M A) (k : A -> M B) :
  OnlyTypeError m -> (forall a, OnlyTypeError (k a)) -> OnlyTypeError (bind m k).
Proof.
  intros Hm Hk s e H. unfold bind in H. specialize (Hm s).
  destruct (m s) as [[a|e'] s']; simpl in *.
  - exact (Hk a s' e H).
  - injection H as <-. apply Hm. reflexivity.
Qed.

(** Reading a field that may be missing, then going on with its value. *)
Lemma OnlyTypeError_field_bind {A B} (o : option A) (k : A -> M B) :
  (forall a, o = Some a -> OnlyTypeError (k a)) ->
  OnlyTypeError (bind (lift (field o)) k).
Proof.
  intros Hk. destruct o as [a|].
  - exact (Hk a eq_refl).
  - intros s e H. injection H as <-. reflexivity.
Qed.

Lemma storeUsage_OnlyTypeError astUtil context utils node vars :
  OnlyTypeError (storeUsage astUtil context utils node vars).
Proof.
  unfold storeUsage.
  apply OnlyTypeError_bind; [apply OnlyTypeError_gets|]. intros component.
  apply OnlyTypeError_bind;
    [apply OnlyTypeError_lift, recordUsage_onlyTypeError|].
  intros result. apply OnlyTypeError_modify.
Qed.

Lemma selectUsage_OnlyTypeError astUtil check context utils markParent (node : Node)
    parentNames :
  In (type node) handledTypes ->
  (forall p mark names,
      parent node = Some p -> type p = "MemberExpression" -> markParent = Some mark ->
      OnlyTypeError (mark names)) ->
  OnlyTypeError (selectUsage astUtil check context utils markParent node parentNames).
Proof.
  intros T Hrec. unfold selectUsage.
  destruct (type node =? "MemberExpression") eqn:E1.
  { apply OnlyTypeError_bind; [apply OnlyTypeError_lift; ote|]. intros name.
    destruct (truthy name).
    - apply OnlyTypeError_bind; [|intros; apply OnlyTypeError_ret].
      unfold followChain. apply OnlyTypeError_field_bind. intros p P.
      destruct (continuesChain node p) eqn:C; [|apply OnlyTypeError_ret].
      destruct markParent as [mark|]; [|apply OnlyTypeError_ret].
      apply (Hrec p mark _ P); [|reflexivity].
      unfold continuesChain in C. apply andb_true_iff in C. destruct C as [C _].
      apply String.eqb_eq. exact C.
    - apply OnlyTypeError_bind; [apply OnlyTypeError_lift; ote|]. intros p.
      destruct (destructuredBy astUtil context p); apply OnlyTypeError_ret. }
  destruct ((type node =? "ArrowFunctionExpression")
            || (type node =? "FunctionDeclaration")
            || (type node =? "FunctionExpression")) eqn:E2.
  { apply OnlyTypeError_bind; [apply OnlyTypeError_lift; ote|]. intros ps.
    destruct (Nat.eqb (List.length ps) 0); [apply OnlyTypeError_ret|].
    apply OnlyTypeError_bind; [apply OnlyTypeError_lift; ote|]. intros inUpdater.
    apply OnlyTypeError_bind; [apply OnlyTypeError_lift; ote|]. intros param.
    apply OnlyTypeError_bind; [apply OnlyTypeError_lift; ote|]. intros properties.
    apply OnlyTypeError_ret. }
  destruct (type node =? "VariableDeclarator") eqn:E3.
  { apply OnlyTypeError_bind; [apply OnlyTypeError_lift; ote|]. intros i.
    apply OnlyTypeError_bind; [apply OnlyTypeError_lift; ote|]. intros props.
    apply OnlyTypeError_bind; [apply OnlyTypeError_lift; ote|]. intros [found|];
      apply OnlyTypeError_ret. }
  exfalso. simpl in T.
  destruct T as [T|[T|[T|[T|[T|[]]]]]]; rewrite <- T in *; simpl in *; discriminate.
Qed.

Lemma markPropTypesAsUsed_OnlyTypeError astUtil check context utils (node : Node) :
  In (type node) handledTypes ->
  forall parentNames,
    OnlyTypeError (markPropTypesAsUsed astUtil check context utils node parentNames).
Proof.
  induction node as [node IH] using Node_parent_ind. intros T parentNames.
  rewrite markPropTypesAsUsed_unfold. unfold markPropTypesAsUsed_body.
  apply OnlyTypeError_bind.
  - apply selectUsage_OnlyTypeError; [exact T|]. intros p mark names P Tp E.
    rewrite P in E. injection E as <-. apply (IH p P). rewrite Tp. simpl. tauto.
  - intros vars. apply storeUsage_OnlyTypeError.
Qed.

(** X18. [markPropTypesAsUsed] raises an [Error] exactly on a node of a
    type it does not handle; on a node of one of the five handled types,
    whatever its ancestors are, the only exception it can raise is the
    [TypeError] of reading a field of a missing node. *)
Theorem not_handled_error_exactly_on_unhandled_types astUtil check context utils
    (node : Node) parentNames components :
  (exists message,
      fst (markPropTypesAsUsed astUtil check context utils node parentNames components)
      = Throw (Error message))
  <-> ~ In (type node) handledTypes.
Proof.
  split.
  - intros (message & H) T.
    pose proof (markPropTypesAsUsed_OnlyTypeError astUtil check context utils node T
                  parentNames components _ H) as E.
    discriminate E.
  - intros H. exists (type node ++ " ASTNodes are not handled by markPropTypesAsUsed")%string.
    rewrite markPropTypesAsUsed_unfold.
    unfold markPropTypesAsUsed_body, selectUsage, bind.
    assert (N : forall s, In s handledTypes -> (type node =? s) = false).
    { intros s Hs. apply String.eqb_neq. intros E. apply H. rewrite E. exact Hs. }
    rewrite !N by (simpl; tauto). reflexivity.
Qed.

(** X19. Entering a node of any type but ObjectPattern never raises the
    "not handled" [Error]: the handlers of declarators, function-like nodes,
    spread attributes and member accesses only call the marker on the node
    they were given, and every exception they raise is a [TypeError]. *)
Theorem entering_raises_only_type_errors astUtil check (node : Node) context utils :
  type node <> "ObjectPattern" ->
  OnlyTypeError (usedPropTypesInstructions astUtil check (Enter node context utils)).
Proof.
  intros T.
  simpl.
  destruct (type node =? "VariableDeclarator") eqn:E1.
  { apply String.eqb_eq in E1. unfold VariableDeclarator. cbv zeta.
    apply OnlyTypeError_bind; [apply OnlyTypeError_lift; ote|]. intros stateless.
    match goal with |- OnlyTypeError (if ?b then _ else _) => destruct b end;
      [apply OnlyTypeError_ret|].
    apply markPropTypesAsUsed_OnlyTypeError. rewrite E1. simpl. tauto. }
  destruct ((type node =? "FunctionDeclaration")
            || (type node =? "ArrowFunctionExpression")
            || (type node =? "FunctionExpression")) eqn:E2.
  { assert (H : In (type node) handledTypes).
    { apply orb_true_iff in E2. destruct E2 as [E2|E2];
        [apply orb_true_iff in E2; destruct E2 as [E2|E2]|];
        apply String.eqb_eq in E2; rewrite E2; simpl; tauto. }
    unfold handleFunctionLikeExpressions.
    apply OnlyTypeError_bind.
    - unfold handleSetStateUpdater.
      destruct (params node) as [ps|]; [|apply OnlyTypeError_ret].
      destruct (Nat.ltb (List.length ps) 2); [apply OnlyTypeError_ret|].
      apply OnlyTypeError_bind; [apply OnlyTypeError_lift; ote|]. intros inUpdater.
      destruct (negb inUpdater);
        [apply OnlyTypeError_ret|apply markPropTypesAsUsed_OnlyTypeError; exact H].
    - intros _. unfold markDestructuredFunctionArgumentsAsUsed.
      apply OnlyTypeError_bind; [apply OnlyTypeError_lift; ote|]. intros param.
      apply OnlyTypeError_bind; [apply OnlyTypeError_lift; ote|]. intros [|];
        [|apply OnlyTypeError_ret].
      apply OnlyTypeError_bind; [apply OnlyTypeError_gets|]. intros [|];
        [apply markPropTypesAsUsed_OnlyTypeError; exact H|apply OnlyTypeError_ret]. }
  destruct (type node =? "JSXSpreadAttribute").
  { unfold JSXSpreadAttribute.
    apply OnlyTypeError_bind; [apply OnlyTypeError_gets|]. intros component.
    apply OnlyTypeError_modify. }
  destruct (type node =? "MemberExpression") eqn:E4.
  { apply String.eqb_eq in E4. unfold MemberExpression.
    apply OnlyTypeError_bind; [apply OnlyTypeError_lift; ote|]. intros [|];
      [|apply OnlyTypeError_ret].
    apply markPropTypesAsUsed_OnlyTypeError. rewrite E4. simpl. tauto. }
  destruct (type node =? "ObjectPattern") eqn:E5.
  { apply String.eqb_eq in E5. contradiction. }
  apply OnlyTypeError_ret.
Qed.

Lemma entering_raises_only_type_errors_witness :
  type UpdaterOneParam.updater <> "ObjectPattern" /\
  OnlyTypeError
    (usedPropTypesInstructions exampleAstUtil false
       (Enter UpdaterOneParam.updater UpdaterOneParam.inUpdater
          (inClassComponent UpdaterOneParam.classNode))).
Proof.
  split; [discriminate|].
  apply (entering_raises_only_type_errors exampleAstUtil false UpdaterOneParam.updater
           UpdaterOneParam.inUpdater (inClassComponent UpdaterOneParam.classNode)).
  discriminate.
Defined.

(* ------------------------------------------------------------------ *)
(** ** The node reported with a usage *)
(* ------------------------------------------------------------------ *)

(** Storing under type ['direct'], with the reported node spelled out. *)
Lemma storeUsage_direct_reported astUtil context utils (g node p : Node) n allNames
    components :
  getParentComponent utils = Some g ->
  ownerOpen utils components ->
  inObjectPrototype n = false ->
  parent node = Some p ->
  exists components',
    storeUsage astUtil context utils node
      (Vars.mk (Some direct) (Some n) allNames None) components = (Ok tt, components') /\
    usages components' (uid g) =
      usages components (uid g)
      ++ [UsageRecord.mk (Some n) (map Some allNames)
            (if negb (DIRECT_PROPS_REGEX (getText context node)
                      || DIRECT_NEXT_PROPS_REGEX (getText context node)
                      || DIRECT_PREV_PROPS_REGEX (getText context node))
                && negb (inConstructor utils None)
                && negb (inComponentWillReceiveProps context)
             then property p else property node)].
Proof.
  intros G O U P. destruct (owner_found utils g G components O) as (c & Gc & L & I).
  unfold storeUsage, bind, gets, lift, modify. rewrite Gc.
  unfold recordUsage. simpl. rewrite U, P. simpl.
  set (cond := negb (DIRECT_PROPS_REGEX (getText context node)
                     || DIRECT_NEXT_PROPS_REGEX (getText context node)
                     || DIRECT_PREV_PROPS_REGEX (getText context node))
               && negb (inConstructor utils None)
               && negb (inComponentWillReceiveProps context)).
  assert (E : (if cond then Ok (property p) else Ok (property node)) =
              Ok (if cond then property p else property node)) by (destruct cond; reflexivity).
  rewrite E. simpl. eexists. split; [reflexivity|].
  destruct (set_owner g components c L I
              (usedOf (Some c)
                 ++ [UsageRecord.mk (Some n) (map Some allNames)
                       (if cond then property p else property node)])
              (ignoredOf (Some c))) as (S1 & _).
  simpl in S1. rewrite S1. unfold usages. rewrite L. reflexivity.
Qed.

(** X20. The node reported with a usage is the key that gave the usage its
    name, whenever the text of the access starts with props, nextProps or
    prevProps, or the access is outside constructors and
    componentWillReceiveProps and is not the props parameter of an updater.
    Marking such an access, once the continuation of its chain has returned,
    appends the usage of the resolved name [y] with the parent names
    followed by [y] as path and the key [k] as node. *)
Theorem reported_node_is_resolved_key astUtil check context utils (g node target p : Node)
    (k : Ast) (setStateProp : bool) (y : string) parentNames components :
  type node = "MemberExpression" ->
  isPropArgumentInSetStateUpdater context node = Ok setStateProp ->
  getPropertyName node context utils check = Ok (Some y) ->
  y <> "" -> recordable y = true ->
  let byText :=
    DIRECT_PROPS_REGEX (getText context node)
    || DIRECT_NEXT_PROPS_REGEX (getText context node)
    || DIRECT_PREV_PROPS_REGEX (getText context node) in
  (if byText || setStateProp then Some node else parent node) = Some target ->
  property target = Some k ->
  byText = true \/
  (setStateProp = false /\ inConstructor utils None = false /\
   inComponentWillReceiveProps context = false) ->
  parent node = Some p ->
  fst (continuation astUtil check context utils node parentNames y components) = Ok tt ->
  getParentComponent utils = Some g ->
  ownerOpen utils components ->
  exists components',
    markPropTypesAsUsed astUtil check context utils node parentNames components
    = (Ok tt, components') /\
    usages components' (uid g) =
      usages (snd (continuation astUtil check context utils node parentNames y components))
        (uid g)
      ++ [UsageRecord.mk (Some y) (map Some (parentNames ++ [y])) (Some k)].
Proof.
  intros T SP GP N R byText Tg Pk A P C G O.
  apply andb_prop in R. destruct R as [NC NP].
  apply negb_true_iff in NP.
  rewrite (mark_member_named astUtil check context utils node parentNames y components
             T GP N).
  rewrite NC. unfold bind.
  pose proof (continuation_kept astUtil check context utils node parentNames y components)
    as K.
  destruct (continuation astUtil check context utils node parentNames y components)
    as [[[]|e] mid]; simpl in C, K |- *; [|discriminate C].
  pose proof (ownerOpen_kept utils components mid K O) as O'.
  destruct (storeUsage_direct_reported astUtil context utils g node p y
              (parentNames ++ [y]) mid G O' NP P) as (components' & E & U).
  exists components'. split; [exact E|]. rewrite U. f_equal. f_equal. f_equal.
  fold byText.
  destruct A as [A|(A1 & A2 & A3)].
  - rewrite A in *. simpl in *. congruence.
  - rewrite A1, A2, A3 in *. rewrite orb_false_r in Tg.
    destruct byText; simpl in *; congruence.
Qed.

Lemma reported_node_is_resolved_key_witness :
  exists components',
    markPropTypesAsUsed exampleAstUtil false RenderName.inFunctionNode
      (inClassComponent RenderName.classNode) RenderName.thisProps [] RenderName.registry
    = (Ok tt, components') /\
    usages components' (uid RenderName.classNode) =
      [UsageRecord.mk (Some "name") [Some "name"] (Some RenderName.nameIdAst)].
Proof.
  destruct (reported_node_is_resolved_key exampleAstUtil false RenderName.inFunctionNode
              (inClassComponent RenderName.classNode) RenderName.classNode
              RenderName.thisProps RenderName.thisPropsName RenderName.thisPropsName
              RenderName.nameIdAst false "name" [] RenderName.registry)
    as (components' & E & U);
    [reflexivity|reflexivity|vm_compute; reflexivity|discriminate|reflexivity
    |vm_compute; reflexivity|reflexivity
    |right; repeat split; vm_compute; reflexivity|reflexivity|vm_compute; reflexivity
    |reflexivity|unfold ownerOpen; simpl; discriminate|].
  exists components'. split; [exact E|]. rewrite U. vm_compute. reflexivity.
Defined.

(* ================================================================== *)
(** * Computed keys and class components, in general *)
(* ================================================================== *)

(* ------------------------------------------------------------------ *)
(** ** Computed keys *)
(* ------------------------------------------------------------------ *)

(** C1, as the code has it.  Let [target] be the access whose key the
    resolver reads for [node] (the access itself when it is rooted at a
    props name, its parent otherwise), let that key be computed and not a
    string literal, and let the owning component be registered.  The key
    never names a usage and never sets the suppress flag:
    - when the resolver is past its first [if] and the key is not itself a
      member access ([props[x]], [props[f()]], [props[0]]), the access
      resolves to the computed marker, and [markPropTypesAsUsed] only does
      what the continuation of the chain does (the parent access
      [props[x].y] is marked in turn): same outcome, same usages, same
      flags;
    - when the resolver returns at its first [if] or the key is a member
      access ([props[a.b]]), the access resolves to no name, and
      [markPropTypesAsUsed] returns with the same usages and flags, unless
      the parent destructures the access with a pattern whose first
      property has a key name ([const {c} = props[a.b]]): then it is the
      ['destructuring'] case on the fields of that pattern, and no more;
    - in both cases, when the parent neither continues the chain nor
      destructures the access, the registry holds the same usages and the
      same flags as before. *)
Theorem computed_key_not_recorded astUtil check context utils (node target : Node)
    (k : Ast) (setStateProp inUpdater : bool) parentNames components :
  type node = "MemberExpression" ->
  isPropArgumentInSetStateUpdater context node = Ok setStateProp ->
  inSetStateUpdater context = Ok inUpdater ->
  let direct :=
    DIRECT_PROPS_REGEX (getText context node)
    || DIRECT_NEXT_PROPS_REGEX (getText context node)
    || DIRECT_PREV_PROPS_REGEX (getText context node)
    || setStateProp in
  let returnsEarly :=
    direct
    && (isSome (getParentES6Component utils) || isSome (getParentES5Component utils))
    && negb (inConstructor utils (Some node))
    && negb (inLifeCycleMethod context check)
    && negb inUpdater in
  (if direct then Some node else parent node) = Some target ->
  property target = Some k ->
  computed target = true ->
  (type k = "Literal" -> forall s, value k <> Some (VString s)) ->
  ownerOpen utils components ->
  (returnsEarly = false -> type k <> "MemberExpression" ->
   getPropertyName node context utils check = Ok (Some COMPUTED_PROP) /\
   fst (markPropTypesAsUsed astUtil check context utils node parentNames components) =
   fst (continuation astUtil check context utils node parentNames COMPUTED_PROP components)
   /\
   sameUsage
     (snd (markPropTypesAsUsed astUtil check context utils node parentNames components))
     (snd (continuation astUtil check context utils node parentNames COMPUTED_PROP
             components)))
  /\
  (returnsEarly = true \/ type k = "MemberExpression" ->
   getPropertyName node context utils check = Ok None /\
   forall p, parent node = Some p ->
     match destructuredBy astUtil context p with
     | Some fields =>
         markPropTypesAsUsed astUtil check context utils node parentNames components =
         storeUsage astUtil context utils node
           (Vars.mk (Some destructuring) None [] (Some fields)) components
     | None =>
         fst (markPropTypesAsUsed astUtil check context utils node parentNames components)
         = Ok tt /\
         sameUsage
           (snd (markPropTypesAsUsed astUtil check context utils node parentNames
                   components))
           components
     end)
  /\
  (forall p, parent node = Some p ->
     continuesChain node p = false ->
     destructuredBy astUtil context p = None ->
     sameUsage
       (snd (markPropTypesAsUsed astUtil check context utils node parentNames components))
       components).
Proof.
  intros T SP U direct returnsEarly Tg Pk C NL O.
  assert (Marker : returnsEarly = false -> type k <> "MemberExpression" ->
                   getPropertyName node context utils check = Ok (Some COMPUTED_PROP)).
  { intros E NM.
    exact (computed_key_resolves_to_marker node target k context utils check setStateProp
             inUpdater SP U E Tg Pk C NM NL). }
  assert (Unnamed : returnsEarly = true \/ type k = "MemberExpression" ->
                    getPropertyName node context utils check = Ok None).
  { intros [E|M].
    - exact (getPropertyName_gated context utils check node setStateProp inUpdater SP U E).
    - destruct returnsEarly eqn:E.
      + exact (getPropertyName_gated context utils check node setStateProp inUpdater
                 SP U E).
      + rewrite (getPropertyName_key context utils check node target k setStateProp
                   inUpdater SP U E Tg Pk).
        rewrite M. reflexivity. }
  assert (N : COMPUTED_PROP <> "") by discriminate.
  assert (Quiet : forall p, parent node = Some p ->
            getPropertyName node context utils check = Ok None ->
            destructuredBy astUtil context p = None ->
            fst (markPropTypesAsUsed astUtil check context utils node parentNames
                   components) = Ok tt /\
            sameUsage
              (snd (markPropTypesAsUsed astUtil check context utils node parentNames
                      components))
              components).
  { intros p P G D.
    rewrite (mark_member_unnamed astUtil check context utils node p None parentNames
               components T G eq_refl P), D.
    unfold ownerOpen in O.
    destruct (Components.get (getParentComponent utils) components) as [c|] eqn:Gc;
      [|congruence].
    destruct (storeUsage_nothing astUtil context utils node (Vars.mk None None [] None)
                components c Gc) as (s' & Es & S).
    { intros used flag. reflexivity. }
    rewrite Es. split; [reflexivity|exact S]. }
  split; [|split].
  - intros E NM. split; [exact (Marker E NM)|].
    exact (mark_member_unrecorded astUtil check context utils node parentNames
             COMPUTED_PROP components T (Marker E NM) N (or_introl eq_refl) O).
  - intros H. split; [exact (Unnamed H)|]. intros p P.
    destruct (destructuredBy astUtil context p) as [fields|] eqn:D.
    + rewrite (mark_member_unnamed astUtil check context utils node p None parentNames
                 components T (Unnamed H) eq_refl P), D.
      reflexivity.
    + apply (Quiet p P (Unnamed H) D).
  - intros p P Cc D.
    destruct returnsEarly eqn:E.
    + apply (Quiet p P (Unnamed (or_introl eq_refl)) D).
    + destruct (String.eqb_spec (type k) "MemberExpression") as [M|NM].
      * apply (Quiet p P (Unnamed (or_intror M)) D).
      * pose proof (mark_member_unrecorded astUtil check context utils node parentNames
                      COMPUTED_PROP components T (Marker eq_refl NM) N
                      (or_introl eq_refl) O) as [_ H].
        rewrite (continuation_stops astUtil check context utils node p parentNames
                   COMPUTED_PROP components P Cc) in H.
        exact H.
Qed.

Lemma computed_key_not_recorded_witness :
  sameUsage
    (snd (markPropTypesAsUsed exampleAstUtil true ComputedKey.inFunctionNode
            (inFunctionComponent ComputedKey.functionNode) ComputedKey.propsX []
            ComputedKey.registry))
    ComputedKey.registry
  /\
  getPropertyName MemberKey.propsAB MemberKey.inFunctionNode
    (inFunctionComponent MemberKey.functionNode) true = Ok None
  /\
  markPropTypesAsUsed exampleAstUtil true MemberKey.inFunctionNode
    (inFunctionComponent MemberKey.functionNode) MemberKey.propsAB [] MemberKey.registry =
  storeUsage exampleAstUtil MemberKey.inFunctionNode
    (inFunctionComponent MemberKey.functionNode) MemberKey.propsAB
    (Vars.mk (Some destructuring) None []
       (Some [MemberKey.fieldCAst; MemberKey.fieldRestAst]))
    MemberKey.registry.
Proof.
  split.
  - destruct (computed_key_not_recorded exampleAstUtil true ComputedKey.inFunctionNode
                (inFunctionComponent ComputedKey.functionNode) ComputedKey.propsX
                ComputedKey.propsX ComputedKey.xAst false false [] ComputedKey.registry)
      as (_ & _ & H);
      [reflexivity|reflexivity|reflexivity|vm_compute; reflexivity|reflexivity
      |reflexivity|discriminate|unfold ownerOpen; simpl; discriminate|].
    apply (H ComputedKey.statement); reflexivity.
  - destruct (computed_key_not_recorded exampleAstUtil true MemberKey.inFunctionNode
                (inFunctionComponent MemberKey.functionNode) MemberKey.propsAB
                MemberKey.propsAB MemberKey.keyABAst false false [] MemberKey.registry)
      as (_ & H & _);
      [reflexivity|reflexivity|reflexivity|vm_compute; reflexivity|reflexivity
      |reflexivity|discriminate|unfold ownerOpen; simpl; discriminate|].
    destruct (H (or_intror eq_refl)) as [G D].
    split; [exact G|].
    exact (D MemberKey.declarator eq_refl).
Defined.

(* ------------------------------------------------------------------ *)
(** ** Visits that record nothing *)
(* ------------------------------------------------------------------ *)













(* ------------------------------------------------------------------ *)
(** ** Reads of this.props in class components *)
(* ------------------------------------------------------------------ *)


Section ClassReads.

Variable astUtil : AstUtil.
Variable check : bool.
Variable context : Context.
Variable utils : Utils.

Hypothesis outside : inSetStateUpdater context = Ok false.






End ClassReads.



